(** * RSecretary: intent pipeline, task dispatch and to-do handler

    A shallow embedding of the Python sources

      - [src/tasks/base_task.py]        TaskResult, BaseTask, TaskFactory
      - [src/storage/notion_client.py]  NotionClient, at its interface
      - [src/core/task_dispatcher.py]   TaskDispatcher
      - [src/ai/gemini_client.py]       GeminiClient
      - [src/tasks/todo.py]             TodoTask
      - [src/tasks/accounting.py]       AccountingTask, query and validation
      - [src/core/message_processor.py] MessageProcessor
      - [src/core/scheduler.py]         TaskScheduler, the daily report and
                                        its subscribers

    Python values are an inductive type [pyval]; a Python [str] is a Rocq
    [string] holding its UTF-8 bytes; exceptions are values of a result type;
    the coroutines are functions in a state-and-exception monad [M] whose
    state carries the objects the code mutates (the dispatcher's history,
    the conversation contexts) together with the trace of the calls made to
    the two external collaborators, the completion oracle and the record
    store.  What those collaborators and the Python runtime answer is given
    by an environment [Env]. *)

From Stdlib Require Import QArith Qabs Ascii String Sorted.
From stdpp Require Import gmap strings list fin_maps pretty.

Set Warnings "-register-all".
Open Scope string_scope.
Close Scope Q_scope.

(* ===================================================================== *)
(** * Python values and builtins                                          *)
(* ===================================================================== *)

Module Py.

(** A Python object as far as the sources handle one.  A [float] is kept
    by the rational it stands for, so that comparisons are exact; sums and
    differences of floats, which round, are the runtime's ([float_add],
    [float_sub] and [float_of_int] of [Env]), and the infinities and nan
    have no value here.  A [dict] keeps its insertion order, as Python's
    does; a tuple is kept as a [VList], which compares the same way. *)
Inductive pyval : Type :=
| VNone
| VBool (b : bool)
| VInt (z : Z)
| VFloat (q : Q)
| VStr (s : string)
| VList (l : list pyval)
| VDict (d : list (string * pyval)).

Abbreviation pydict := (list (string * pyval)).

(** The float literals of the sources, as the IEEE-754 doubles Python reads
    them to. *)
Definition f_0_0 : Q := 0.
Definition f_0_5 : Q := 1 # 2.
Definition f_0_6 : Q := 5404319552844595 # 9007199254740992.
Definition f_0_7 : Q := 3152519739159347 # 4503599627370496.
Definition f_0_8 : Q := 3602879701896397 # 4503599627370496.

Inductive exn_class :=
| TypeError | AttributeError | ValueError | KeyError | IndexError
| UnboundLocalError | JSONDecodeError | OverflowError | OtherError.

Record exn := PyExn { exn_cls : exn_class; exn_msg : string }.

(** Outcome of evaluating Python code: a value, or a raised exception. *)
Inductive Res (A : Type) : Type :=
| Ok (a : A)
| Raise (e : exn).
Arguments Ok {A} a.
Arguments Raise {A} e.

#[export] Instance Res_ret : MRet Res := fun A a => Ok a.
#[export] Instance Res_bind : MBind Res := fun A B f r =>
  match r with Ok a => f a | Raise e => Raise e end.

Definition is_ok {A} (r : Res A) : bool :=
  match r with Ok _ => true | Raise _ => false end.

(** [bool(x)] *)
Definition truthy (v : pyval) : bool :=
  match v with
  | VNone => false
  | VBool b => b
  | VInt z => negb (z =? 0)%Z
  | VFloat q => negb (Qeq_bool q 0)
  | VStr s => negb (String.eqb s "")
  | VList l => match l with [] => false | _ => true end
  | VDict d => match d with [] => false | _ => true end
  end.

(** [type(x).__name__] *)
Definition type_name (v : pyval) : string :=
  match v with
  | VNone => "NoneType"
  | VBool _ => "bool"
  | VInt _ => "int"
  | VFloat _ => "float"
  | VStr _ => "str"
  | VList _ => "list"
  | VDict _ => "dict"
  end.

(** [d.get(k)] and [d.get(k, default)] *)
Fixpoint dict_lookup (d : pydict) (k : string) : option pyval :=
  match d with
  | [] => None
  | (k', v) :: d' => if String.eqb k' k then Some v else dict_lookup d' k
  end.

Definition dict_get (d : pydict) (k : string) : pyval :=
  default VNone (dict_lookup d k).

Definition dict_get_or (d : pydict) (k : string) (dflt : pyval) : pyval :=
  default dflt (dict_lookup d k).

(** [d[k] = v] *)
Fixpoint dict_set (d : pydict) (k : string) (v : pyval) : pydict :=
  match d with
  | [] => [(k, v)]
  | (k', v') :: d' =>
      if String.eqb k' k then (k', v) :: d' else (k', v') :: dict_set d' k v
  end.

(** The number a [bool], [int] or [float] stands for in a comparison. *)
Definition num_of (v : pyval) : option Q :=
  match v with
  | VBool b => Some (if b then 1 else 0)%Q
  | VInt z => Some (inject_Z z)
  | VFloat q => Some q
  | _ => None
  end.

Definition Qlt_bool (a b : Q) : bool := negb (Qle_bool b a).

Definition cmp_error (op : string) (a b : pyval) : exn :=
  PyExn TypeError ("'" ++ op ++ "' not supported between instances of '"
                   ++ type_name a ++ "' and '" ++ type_name b ++ "'").

(** [a == b] on the values the sources compare. *)
Fixpoint py_eq (a b : pyval) : bool :=
  match a, b with
  | VNone, VNone => true
  | VStr s, VStr t => String.eqb s t
  | VList l, VList m =>
      (fix eq_list (l : list pyval) (m : list pyval) : bool :=
         match l, m with
         | [], [] => true
         | x :: l', y :: m' => py_eq x y && eq_list l' m'
         | _, _ => false
         end) l m
  | VDict _, VDict _ => false
  | _, _ =>
      match num_of a, num_of b with
      | Some p, Some q => Qeq_bool p q
      | _, _ => false
      end
  end.

(** [a < b]: numbers by value, strings by code point (which is the order of
    their UTF-8 bytes), sequences lexicographically; any other pair raises
    [TypeError]. *)
Fixpoint py_lt (a b : pyval) : Res bool :=
  match a, b with
  | VStr s, VStr t => Ok (String.ltb s t)
  | VList l, VList m =>
      (fix lt_list (l : list pyval) (m : list pyval) : Res bool :=
         match l, m with
         | [], [] => Ok false
         | [], _ :: _ => Ok true
         | _ :: _, [] => Ok false
         | x :: l', y :: m' => if py_eq x y then lt_list l' m' else py_lt x y
         end) l m
  | _, _ =>
      match num_of a, num_of b with
      | Some p, Some q => Ok (Qlt_bool p q)
      | _, _ => Raise (cmp_error "<" a b)
      end
  end.

(** [a >= b] for numbers and strings. *)
Definition py_ge (a b : pyval) : Res bool :=
  match a, b with
  | VStr s, VStr t => Ok (String.leb t s)
  | _, _ =>
      match num_of a, num_of b with
      | Some p, Some q => Ok (Qle_bool q p)
      | _, _ => Raise (cmp_error ">=" a b)
      end
  end.

(** ** Strings *)

Definition nl : string := String (ascii_of_nat 10) EmptyString.

(** [needle in hay] *)
Fixpoint str_contains (needle hay : string) : bool :=
  String.prefix needle hay ||
  match hay with
  | EmptyString => false
  | String _ hay' => str_contains needle hay'
  end.

(** [s.find(c)] for a one-character ASCII [c]: [None] stands for [-1].
    The offset counts bytes where Python counts code points; the two agree
    on whether [c] occurs, on the order of two offsets and on the slice
    between them. *)
Fixpoint str_find (c : ascii) (s : string) : option nat :=
  match s with
  | EmptyString => None
  | String a s' =>
      if Ascii.eqb a c then Some 0%nat else S <$> str_find c s'
  end.

(** [s.rfind(c)] *)
Fixpoint str_rfind (c : ascii) (s : string) : option nat :=
  match s with
  | EmptyString => None
  | String a s' =>
      match str_rfind c s' with
      | Some i => Some (S i)
      | None => if Ascii.eqb a c then Some 0%nat else None
      end
  end.

(** [s[i:j]] *)
Definition str_slice (i j : nat) (s : string) : string :=
  String.substring i (j - i) s.

(** A byte that starts a code point (not a UTF-8 continuation byte). *)
Definition starts_code_point (a : ascii) : bool :=
  let n := N_of_ascii a in negb ((128 <=? n)%N && (n <? 192)%N).

(** [len(s)], in code points. *)
Fixpoint str_len (s : string) : nat :=
  match s with
  | EmptyString => 0
  | String a s' => (if starts_code_point a then 1 else 0) + str_len s'
  end.

(** [s[:n]], in code points. *)
Fixpoint str_take (n : nat) (s : string) : string :=
  match s with
  | EmptyString => EmptyString
  | String a s' =>
      if starts_code_point a then
        match n with
        | O => EmptyString
        | S n' => String a (str_take n' s')
        end
      else String a (str_take n s')
  end.

(** [sep.join(parts)] *)
Definition str_join (sep : string) (parts : list string) : string :=
  String.concat sep parts.

(** [s.strip(c)] for a one-character ASCII [c]. *)
Fixpoint lstrip_char (c : ascii) (s : string) : string :=
  match s with
  | String a s' => if Ascii.eqb a c then lstrip_char c s' else s
  | EmptyString => EmptyString
  end.

Fixpoint rstrip_char (c : ascii) (s : string) : string :=
  match s with
  | EmptyString => EmptyString
  | String a s' =>
      match rstrip_char c s' with
      | EmptyString => if Ascii.eqb a c then EmptyString else String a EmptyString
      | t => String a t
      end
  end.

Definition strip_char (c : ascii) (s : string) : string :=
  rstrip_char c (lstrip_char c s).

End Py.
Export Py.

(* ===================================================================== *)
(** * The environment and the monad of the coroutines                     *)
(* ===================================================================== *)

Module World.

Inductive weekday := Mon | Tue | Wed | Thu | Fri | Sat | Sun.

(** A reading of [datetime.now()], by the strings the sources derive from
    it with [strftime], [isoformat], [timestamp] and [timedelta(days=1)]. *)
Record datetime := {
  dt_date : string;        (* %Y-%m-%d *)
  dt_hm : string;          (* %H:%M *)
  dt_hms : string;         (* %Y-%m-%d %H:%M:%S *)
  dt_weekday : weekday;    (* now.weekday() *)
  dt_tomorrow : string;    (* (now + timedelta(days=1)), %Y-%m-%d *)
  dt_yesterday : string;   (* (now - timedelta(days=1)), %Y-%m-%d *)
  dt_iso : string;         (* isoformat() of the UTC reading *)
  dt_iso_tomorrow : string; (* isoformat() of the UTC reading a day later *)
  dt_timestamp : string    (* str(now.timestamp()) *)
}.

(** A filter of the record store, as the handlers build them. *)
Inductive nfilter : Type :=
| FSelect (property op : string) (value : pyval)
    (* {"property": p, "select": {op: value}} *)
| FDate (property : string) (conds : list (string * pyval))
    (* {"property": p, "date": {op: value, ...}} *)
| FAnd (parts : list nfilter).
    (* {"and": parts} *)

(** One entry of [sorts]: property and direction. *)
Abbreviation sort_spec := (list (string * string)).

(** The prompts sent to the oracle.  Each template of the sources is a
    constructor, applied to the values the template interpolates; the chat
    prompt is the text itself. *)
Inductive prompt : Type :=
| PromptChat (text : string)
| PromptTaskRecognition (now : datetime) (message : string)
| PromptExtractAccounting (message : string)
| PromptExtractSubscription (message : string)
| PromptExtractTodo (now : datetime) (message : string)
| PromptQueryIntent (now : datetime) (message : string)
| PromptDeleteIntent (message : string)
| PromptUpdateIntent (now : datetime) (message : string)
| PromptQueryResponse (query_type displayed_json : string)
                      (total_count displayed_count : nat) (hidden_note : string)
| PromptSmartReply (message task_result_json : string)
| PromptGreeting
| PromptSelectBest (task_name new_status new_priority new_date : string)
                   (candidates_json : string).

(** What [json.loads] does on a text. *)
Inductive loads_outcome :=
| Loaded (v : pyval)
| DecodeError (msg : string)     (* json.JSONDecodeError *)
| LoadsRaises (e : exn).         (* any other exception *)

(** The Python runtime, the wall clock, the settings and the two external
    collaborators.  The functions of the collaborators take the number of
    the external call as first argument, so that their answers may change
    from call to call. *)
Record Env := {
  (* str methods whose Unicode tables are the runtime's *)
  py_lower : string -> string;                (* s.lower() *)
  py_strip : string -> string;                (* s.strip() *)
  (* json *)
  json_loads : string -> loads_outcome;
  json_dumps : pyval -> string;               (* ensure_ascii=False, indent=2 *)
  (* floats and dates *)
  repr_other : pyval -> string;               (* str() of a float, list or dict *)
  format_2f : Q -> string;                    (* f"{x:.2f}" *)
  float_of_str : string -> option Q;          (* float(s); None: ValueError *)
  float_of_int : Z -> option Q;
    (* float(n), the nearest float; None: OverflowError, beyond the range *)
  float_add : Q -> Q -> Q;                    (* x + y of two floats, rounded *)
  float_sub : Q -> Q -> Q;                    (* x - y of two floats, rounded *)
  strptime_ymd : string -> bool;              (* strptime(s, '%Y-%m-%d') succeeds *)
  parse_date : string -> option string;
    (* isoformat() of fromisoformat(s.replace('Z', '+00:00')) or, if that
       raises ValueError, of strptime(s, '%Y-%m-%d') in UTC; None if both
       raise *)
  clock : nat -> datetime;
  (* settings: the clients' constructors raise ValueError without them *)
  gemini_api_key : bool;
  notion_token : bool;
  (* completion oracle: model.generate_content(prompt).text, None if either
     raises *)
  generate_content : nat -> prompt -> option string;
  (* record store, at the interface of NotionClient, whose methods catch
     every exception of the API themselves *)
  store_query :
    nat -> string -> option nfilter -> option sort_spec -> pyval -> list pydict;
  store_update : nat -> string -> pydict -> bool;
  store_archive : nat -> string -> bool;
  store_create : nat -> string -> pydict -> option string
}.

(** Calls made to the collaborators, with what they answered. *)
Inductive event : Type :=
| EvGenerate (p : prompt) (answer : option string)
| EvQuery (database : string) (flt : option nfilter) (sorts : option sort_spec)
          (limit : pyval) (returned : nat)
| EvUpdatePage (page_id : string) (properties : pydict) (ok : bool)
| EvDeletePage (page_id : string) (ok : bool)
| EvCreatePage (database : string) (properties : pydict) (page_id : option string).

(** An entry of the dispatcher's [task_history]. *)
Record completion := {
  end_time : string;
  c_success : bool;
  result_data : pydict;
  c_message : string;
  c_error : option string
}.

Record hist_entry := {
  execution_id : string;
  he_task_type : pyval;
  he_user_id : string;
  task_data : pydict;
  start_time : string;
  status : string;
  completed : option completion
}.

(** An entry of the processor's [conversation_contexts]. *)
Record ctx_message := {
  cm_message : string;
  cm_task_type : pyval;
  cm_timestamp : string
}.

Record user_context := {
  messages : list ctx_message;
  context : string;
  last_task_type : pyval;
  updated_at : string
}.

Record St := {
  tick : nat;                                      (* external calls so far *)
  trace : list event;                              (* newest first *)
  task_history : gmap string hist_entry;           (* TaskDispatcher *)
  conversation_contexts : gmap string user_context (* MessageProcessor *)
}.

Definition M (A : Type) : Type := St -> Res A * St.

#[export] Instance M_ret : MRet M := fun A a s => (Ok a, s).
#[export] Instance M_bind : MBind M := fun A B f m s =>
  match m s with
  | (Ok a, s') => f a s'
  | (Raise e, s') => (Raise e, s')
  end.

Definition raise {A} (e : exn) : M A := fun s => (Raise e, s).

Definition lift {A} (r : Res A) : M A := fun s => (r, s).

(** [try: body  except Exception as e: handler e] *)
Definition try_except {A} (body : M A) (handler : exn -> M A) : M A :=
  fun s =>
    match body s with
    | (Ok a, s') => (Ok a, s')
    | (Raise e, s') => handler e s'
    end.

(** The same for code without effects. *)
Definition try_pure {A} (body : Res A) (handler : exn -> Res A) : Res A :=
  match body with
  | Ok a => Ok a
  | Raise e => handler e
  end.

Definition get_state : M St := fun s => (Ok s, s).

Definition external {A} (answer : nat -> A) (log : A -> option event) : M A :=
  fun s =>
    let a := answer (tick s) in
    (Ok a,
     {| tick := S (tick s);
        trace := match log a with Some ev => ev :: trace s | None => trace s end;
        task_history := task_history s;
        conversation_contexts := conversation_contexts s |}).

Definition set_task_history (h : gmap string hist_entry) : M unit :=
  fun s =>
    (Ok tt,
     {| tick := tick s; trace := trace s; task_history := h;
        conversation_contexts := conversation_contexts s |}).

Definition set_conversation_contexts (c : gmap string user_context) : M unit :=
  fun s =>
    (Ok tt,
     {| tick := tick s; trace := trace s; task_history := task_history s;
        conversation_contexts := c |}).

Definition initial_state : St :=
  {| tick := 0; trace := []; task_history := ∅; conversation_contexts := ∅ |}.

Section WithEnv.
Context (E : Env).

(** [datetime.now()] *)
Definition now : M datetime := external (clock E) (fun _ => None).

(** [str(x)], as f-strings apply it. *)
Definition py_str (v : pyval) : string :=
  match v with
  | VNone => "None"
  | VBool true => "True"
  | VBool false => "False"
  | VInt z => pretty z
  | VStr s => s
  | _ => repr_other E v
  end.

(** [x.lower()]: only a [str] has the method. *)
Definition lower_of (v : pyval) : Res string :=
  match v with
  | VStr s => Ok (py_lower E s)
  | _ => Raise (PyExn AttributeError
                  ("'" ++ type_name v ++ "' object has no attribute 'lower'"))
  end.

(** [float(n)] of an [int]. *)
Definition int_to_float (n : Z) : Res Q :=
  match float_of_int E n with
  | Some q => Ok q
  | None => Raise (PyExn OverflowError "int too large to convert to float")
  end.

(** [float(x)] *)
Definition py_float (v : pyval) : Res Q :=
  match v with
  | VBool _ | VFloat _ => Ok (default 0%Q (num_of v))
  | VInt n => int_to_float n
  | VStr s =>
      match float_of_str E s with
      | Some q => Ok q
      | None => Raise (PyExn ValueError ("could not convert string to float: " ++ s))
      end
  | _ => Raise (PyExn TypeError "float() argument must be a string or a real number")
  end.

End WithEnv.

End World.
Export World.

(* ===================================================================== *)
(** * [src/tasks/base_task.py]                                            *)
(* ===================================================================== *)

Module BaseTask.

(** [TaskResult].  Its [timestamp] attribute, the time of construction, is
    left out: the sources read it only in [to_dict]. *)
Record TaskResult := mkTaskResult {
  success : bool;
  data : pydict;
  message : string;
  error : option string
}.

(** [TaskResult(success=False, error=e, message=m)] *)
Definition failed (e m : string) : TaskResult :=
  {| success := false; data := []; message := m; error := Some e |}.

(** [TaskResult(success=True, data=d, message=m)] *)
Definition succeeded (d : pydict) (m : string) : TaskResult :=
  {| success := true; data := d; message := m; error := None |}.

Definition to_dict (r : TaskResult) : pyval :=
  VDict [("success", VBool (success r));
         ("data", VDict (data r));
         ("message", VStr (message r));
         ("error", match error r with Some e => VStr e | None => VNone end)].

(** The interface of [BaseTask]: what a task class implements or inherits.
    [validate_data] may correct its argument in place, so it returns the
    dictionary along with its verdict. *)
Record Handler := {
  name : string;
  validate_data : pydict -> M (bool * pydict);
  format_data : pydict -> Res pydict;
  execute : pydict -> M TaskResult;
  query : pyval -> M TaskResult;
  delete_all : M TaskResult;
  update_by_name : pyval -> pyval -> pyval -> pyval -> M TaskResult
}.

(** [BaseTask.format_data]: drops the entries that are [None] or [""]. *)
Definition base_format_data (d : pydict) : pydict :=
  List.filter (fun kv => negb (py_eq (snd kv) VNone) && negb (py_eq (snd kv) (VStr ""))) d.

(** The inherited defaults of [query], [delete_all] and [update_by_name]. *)
Definition base_query (_ : pyval) : M TaskResult :=
  mret (failed "查询功能未实现" "此任务类型不支持查询功能").

Definition base_delete_all : M TaskResult :=
  mret (failed "删除功能未实现" "此任务类型不支持删除功能").

Definition base_update_by_name (_ _ _ _ : pyval) : M TaskResult :=
  mret (failed "更新功能未实现" "此任务类型不支持根据名称更新功能").

(** [BaseTask.safe_execute]; the dictionary comes back as [validate_data]
    left it. *)
Definition safe_execute (h : Handler) (d : pydict) : M (TaskResult * pydict) :=
  fun s0 =>
    match validate_data h d s0 with
    | (Raise e, s1) =>
        (Ok (failed ("任务执行出现异常: " ++ exn_msg e)
                    "任务执行过程中出现了意外错误", d), s1)
    | (Ok (false, d'), s1) =>
        (Ok (failed "任务数据验证失败" "请检查输入数据的格式和完整性", d'), s1)
    | (Ok (true, d'), s1) =>
        match format_data h d' with
        | Raise e =>
            (Ok (failed ("任务执行出现异常: " ++ exn_msg e)
                        "任务执行过程中出现了意外错误", d'), s1)
        | Ok formatted =>
            match execute h formatted s1 with
            | (Ok r, s2) => (Ok (r, d'), s2)
            | (Raise e, s2) =>
                (Ok (failed ("任务执行出现异常: " ++ exn_msg e)
                            "任务执行过程中出现了意外错误", d'), s2)
            end
        end
    end.

(** [TaskFactory._task_classes]: a registered class is kept by what calling
    it gives, an instance or the exception its [__init__] raises. *)
Abbreviation task_classes := (gmap string (Res Handler)).

(** [TaskFactory.create_task].  The type is whatever the caller read from
    the oracle's answer: a [str] is looked up, a [list] or [dict] cannot be
    hashed, and nothing else is a key of the registry. *)
Definition create_task (classes : task_classes) (task_type : pyval)
  : Res (option Handler) :=
  match task_type with
  | VStr t =>
      match classes !! t with
      | Some task_class => h ← task_class; mret (Some h)
      | None => mret None
      end
  | VList _ | VDict _ =>
      Raise (PyExn TypeError ("unhashable type: '" ++ type_name task_type ++ "'"))
  | _ => mret None
  end.

(** [TaskFactory.register_task]: the class takes the place of the one the
    type had, if it had one. *)
Definition register_task (classes : task_classes) (task_type : string)
    (task_class : Res Handler) : task_classes :=
  <[task_type := task_class]> classes.

End BaseTask.
Export BaseTask.

(* ===================================================================== *)
(** * [src/storage/notion_client.py], at its interface                    *)
(* ===================================================================== *)

Module NotionClient.
Section WithEnv.
Context (E : Env).

(** [NotionClient()] *)
Definition new : Res unit :=
  if notion_token E then Ok tt else Raise (PyExn ValueError "Notion令牌未配置").

Definition query_database (database_name : string) (filter_condition : option nfilter)
    (sorts : option sort_spec) (limit : pyval) : M (list pydict) :=
  external (fun n => store_query E n database_name filter_condition sorts limit)
           (fun rs => Some (EvQuery database_name filter_condition sorts limit
                                    (length rs))).

Definition update_page (page_id : string) (properties : pydict) : M bool :=
  external (fun n => store_update E n page_id properties)
           (fun ok => Some (EvUpdatePage page_id properties ok)).

Definition delete_page (page_id : string) : M bool :=
  external (fun n => store_archive E n page_id)
           (fun ok => Some (EvDeletePage page_id ok)).

Definition create_page (database_name : string) (properties : pydict)
  : M (option string) :=
  external (fun n => store_create E n database_name properties)
           (fun page_id => Some (EvCreatePage database_name properties page_id)).

(** [add_todo]; the due date is the datetime, kept by its isoformat. *)
Definition add_todo (title priority : pyval) (due_date : option string)
    (category description : pyval) : M (option string) :=
  create_page "todos"
    ([("标题", title); ("优先级", priority); ("状态", VStr "待完成");
      ("分类", category); ("描述", description)]
     ++ match due_date with
        | Some d => [("截止日期", VStr d)]
        | None => []
        end)%list.

(** [[{"text": {"content": str(value)}}]] *)
Definition text_content (value : pyval) : pyval :=
  VList [VDict [("text", VDict [("content", VStr (py_str E value))])]].

(** [{"name": str(value)} if value else None], and the like *)
Definition named_if_set (value : pyval) : pyval :=
  if truthy value then VDict [("name", VStr (py_str E value))] else VNone.

Definition str_if_set (value : pyval) : pyval :=
  if truthy value then VStr (py_str E value) else VNone.

(** [_format_property_value]: what [create_page] and [update_page] make of
    the value given for a property, by the type the database has for that
    property, before they hand it to the API.  A [datetime] comes here as
    the text of its isoformat, so the first two cases of a date are one. *)
Definition _format_property_value (prop_type : string) (value : pyval) : Res pyval :=
  if String.eqb prop_type "title" then
    Ok (VDict [("title", text_content value)])
  else if String.eqb prop_type "rich_text" then
    Ok (VDict [("rich_text", text_content value)])
  else if String.eqb prop_type "number" then
    match value with
    | VNone => Ok (VDict [("number", VNone)])
    | _ => q ← py_float E value; Ok (VDict [("number", VFloat q)])
    end
  else if String.eqb prop_type "select" then
    Ok (VDict [("select", named_if_set value)])
  else if String.eqb prop_type "multi_select" then
    match value with
    | VList l =>
        Ok (VDict [("multi_select",
                    VList (List.map (fun v => VDict [("name", VStr (py_str E v))]) l))])
    | _ =>
        Ok (VDict [("multi_select", VList [VDict [("name", VStr (py_str E value))]])])
    end
  else if String.eqb prop_type "date" then
    match value with
    | VStr d => Ok (VDict [("date", VDict [("start", VStr d)])])
    | _ => Ok (VDict [("date", VNone)])
    end
  else if String.eqb prop_type "checkbox" then
    Ok (VDict [("checkbox", VBool (truthy value))])
  else if String.eqb prop_type "url" then
    Ok (VDict [("url", str_if_set value)])
  else if String.eqb prop_type "email" then
    Ok (VDict [("email", str_if_set value)])
  else if String.eqb prop_type "phone_number" then
    Ok (VDict [("phone_number", str_if_set value)])
  else
    Ok (VDict [("rich_text", text_content value)]).

End WithEnv.
End NotionClient.

(* ===================================================================== *)
(** * [src/core/task_dispatcher.py]                                       *)
(* ===================================================================== *)

Module TaskDispatcher.
Section WithEnv.
Context (E : Env) (classes : task_classes).

(** [_record_task_start] *)
Definition _record_task_start (task_type : pyval) (task_data : pydict)
    (user_id : string) : M string :=
  t1 ← now E;
  let execution_id :=
    user_id ++ "_" ++ py_str E task_type ++ "_" ++ dt_timestamp t1 in
  t2 ← now E;
  s ← get_state;
  _ ← set_task_history
        (<[execution_id :=
             {| execution_id := execution_id;
                he_task_type := task_type;
                he_user_id := user_id;
                task_data := task_data;
                start_time := dt_iso t2;
                status := "running";
                completed := None |}]> (task_history s));
  mret execution_id.

(** [_record_task_result].  The entry holds the very dictionary the handler
    was given, so it shows the corrections [validate_data] made in place:
    [task_data'] is that dictionary after the run. *)
Definition _record_task_result (execution_id : string) (result : TaskResult)
    (task_data' : pydict) : M unit :=
  s ← get_state;
  match task_history s !! execution_id with
  | Some entry =>
      t ← now E;
      set_task_history
        (<[execution_id :=
             {| execution_id := execution_id;
                he_task_type := he_task_type entry;
                he_user_id := he_user_id entry;
                task_data := task_data';
                start_time := start_time entry;
                status := "completed";
                completed :=
                  Some {| end_time := dt_iso t;
                          c_success := success result;
                          result_data := data result;
                          c_message := message result;
                          c_error := error result |} |}]> (task_history s))
  | None => mret tt
  end.

(** [execute_task] *)
Definition execute_task (task_type : pyval) (task_data : pydict)
    (user_id : string) : M TaskResult :=
  try_except
    (task ← lift (create_task classes task_type);
     match task with
     | None =>
         mret (failed ("未知的任务类型: " ++ py_str E task_type) "不支持的任务类型")
     | Some h =>
         execution_id ← _record_task_start task_type task_data user_id;
         '(result, task_data') ← safe_execute h task_data;
         _ ← _record_task_result execution_id result task_data';
         mret result
     end)
    (fun e => mret (failed (exn_msg e) "任务执行过程中出现了系统错误")).

(** [query_data] *)
Definition query_data (data_type : pyval) (filters : pyval) : M TaskResult :=
  try_except
    (task ← lift (create_task classes data_type);
     match task with
     | None =>
         mret (failed ("未知的数据类型: " ++ py_str E data_type) "不支持的查询类型")
     | Some h => query h filters
     end)
    (fun e => mret (failed (exn_msg e) "查询过程中出现了系统错误")).

(** [delete_all_data] *)
Definition delete_all_data (data_type : pyval) : M TaskResult :=
  try_except
    (task ← lift (create_task classes data_type);
     match task with
     | None =>
         mret (failed ("未知的数据类型: " ++ py_str E data_type) "不支持的删除类型")
     | Some h => delete_all h
     end)
    (fun e => mret (failed (exn_msg e) "删除过程中出现了系统错误")).

(** [update_task_status] *)
Definition update_task_status (data_type : pyval)
    (task_name new_status new_priority new_date : pyval) : M TaskResult :=
  try_except
    (task ← lift (create_task classes data_type);
     match task with
     | None =>
         mret (failed ("未知的数据类型: " ++ py_str E data_type) "不支持的更新类型")
     | Some h => update_by_name h task_name new_status new_priority new_date
     end)
    (fun e => mret (failed (exn_msg e) "更新过程中出现了系统错误")).

End WithEnv.

Section History.
(** [timestamp]: [t.timestamp()] of a reading of the clock;
    [iso_timestamp]: [datetime.fromisoformat(text).timestamp()], [None]
    where that raises, as [fromisoformat] does with [ValueError] on a text
    it cannot read. *)
Context (E : Env) (timestamp : datetime -> Q) (iso_timestamp : string -> option Q).

(** [get_task_status] *)
Definition get_task_status (execution_id : string) : M (option hist_entry) :=
  s ← get_state; mret (task_history s !! execution_id).

(** The condition of the comprehension in [cleanup_old_history]:
    [task.get("start_time") and
     datetime.fromisoformat(task["start_time"]).timestamp() < cutoff_time] *)
Definition is_old (cutoff_time : Q) (task : hist_entry) : Res bool :=
  if String.eqb (start_time task) "" then Ok false
  else
    match iso_timestamp (start_time task) with
    | Some started => Ok (Qlt_bool started cutoff_time)
    | None =>
        Raise (PyExn ValueError
                 ("Invalid isoformat string: '" ++ start_time task ++ "'"))
    end.

(** [old_executions]: the ids of the entries that are old. *)
Fixpoint old_executions (cutoff_time : Q) (items : list (string * hist_entry))
  : Res (list string) :=
  match items with
  | [] => Ok []
  | (execution_id, task) :: rest =>
      old ← is_old cutoff_time task;
      more ← old_executions cutoff_time rest;
      Ok (if (old : bool) then execution_id :: more else more)
  end.

(** [t.timestamp() - (days_to_keep * 24 * 3600)]: the product is an [int],
    which the subtraction converts to a float before it takes the
    difference of the two floats. *)
Definition cutoff (t : datetime) (days_to_keep : Z) : Res Q :=
  seconds ← int_to_float E (days_to_keep * 24 * 3600);
  Ok (float_sub E (timestamp t) seconds).

(** [cleanup_old_history].  The ids are collected before any entry is
    deleted, so an entry whose start time does not parse ends the call with
    the history as it was; which entry is looked at first does not show in
    the outcome. *)
Definition cleanup_old_history (days_to_keep : Z) : M unit :=
  try_except
    (t ← now E;
     cutoff_time ← lift (cutoff t days_to_keep);
     s ← get_state;
     old ← lift (old_executions cutoff_time (map_to_list (task_history s)));
     set_task_history (foldr delete (task_history s) old))
    (fun _ => mret tt).

End History.
End TaskDispatcher.

(* ===================================================================== *)
(** * [src/ai/gemini_client.py]                                           *)
(* ===================================================================== *)

Module GeminiClient.

(** [del d[k]] *)
Definition dict_remove (d : pydict) (k : string) : pydict :=
  List.filter (fun kv => negb (String.eqb (fst kv) k)) d.

(** [x in [v1, v2, ...]] *)
Definition py_in (x : pyval) (l : list pyval) : bool := existsb (py_eq x) l.

(** [table.get(key, default)] for a dict literal with [str] keys: a [list]
    or [dict] given as key cannot be hashed. *)
Definition table_get {A} (table : list (string * A)) (key : pyval) (dflt : A) : Res A :=
  match key with
  | VStr s =>
      Ok (default dflt (snd <$> List.find (fun kv => String.eqb (fst kv) s) table))
  | VList _ | VDict _ =>
      Raise (PyExn TypeError ("unhashable type: '" ++ type_name key ++ "'"))
  | _ => Ok dflt
  end.

(** [sorted(items, key=..., reverse=True)] on items paired with their keys.
    The sort is stable: an item moves in front of the items after it only
    past those whose key is smaller.  Python compares keys with [<] alone,
    and a comparison that raises ends the sort. *)
Fixpoint insert_desc {A} (kx : pyval * A) (sorted : list (pyval * A))
  : Res (list (pyval * A)) :=
  match sorted with
  | [] => Ok [kx]
  | ky :: rest =>
      lt ← py_lt (fst kx) (fst ky);
      if (lt : bool) then rest' ← insert_desc kx rest; Ok (ky :: rest')
      else Ok (kx :: ky :: rest)
  end.

Fixpoint sort_desc {A} (keyed : list (pyval * A)) : Res (list (pyval * A)) :=
  match keyed with
  | [] => Ok []
  | kx :: rest => sorted ← sort_desc rest; insert_desc kx sorted
  end.

(** The keys are computed first, one per item, in order. *)
Fixpoint with_keys {A} (key : A -> Res pyval) (items : list A)
  : Res (list (pyval * A)) :=
  match items with
  | [] => Ok []
  | x :: rest => k ← key x; keyed ← with_keys key rest; Ok ((k, x) :: keyed)
  end.

Definition sorted_reverse {A} (key : A -> Res pyval) (items : list A) : Res (list A) :=
  keyed ← with_keys key items;
  sorted ← sort_desc keyed;
  Ok (List.map snd sorted).

(** The sort key of a to-do record in [generate_query_response]. *)
Definition priority_order : list (string * Z) := [("高", 3); ("中", 2); ("低", 1)]%Z.
Definition status_order : list (string * Z) :=
  [("进行中", 3); ("待完成", 2); ("已完成", 1); ("已取消", 0)]%Z.

Definition todo_sort_key (x : pydict) : Res pyval :=
  s ← table_get status_order (dict_get_or x "状态" (VStr "")) 0%Z;
  p ← table_get priority_order (dict_get_or x "优先级" (VStr "")) 0%Z;
  Ok (VList [VInt s; VInt p; dict_get_or x "截止日期" (VStr "9999-12-31")]).

(** The sort key of any other record. *)
Definition other_sort_key (x : pydict) : Res pyval :=
  Ok (dict_get_or x "日期" (dict_get_or x "创建时间" (VStr ""))).

(** The first balanced-looking island of a response: from the first opening
    brace to the last closing one. *)
Definition json_island (response_text : string) : option string :=
  match str_find "{" response_text with
  | Some json_start =>
      let json_end :=
        match str_rfind "}" response_text with Some j => S j | None => 0 end in
      if (json_start <? json_end)%nat
      then Some (str_slice json_start json_end response_text)
      else None
  | None => None
  end.

Section WithEnv.
Context (E : Env).

(** [GeminiClient()] *)
Definition new : Res unit :=
  if gemini_api_key E then Ok tt else Raise (PyExn ValueError "Gemini API密钥未配置").

(** [model.generate_content(prompt)] followed by [response.text] *)
Definition generate (p : prompt) : M string :=
  answer ← external (fun n => generate_content E n p)
                    (fun a => Some (EvGenerate p a));
  match answer with
  | Some text => mret text
  | None => raise (PyExn OtherError "generate_content failed")
  end.

Definition chat_apology : string := "抱歉，我现在无法处理您的消息，请稍后再试。".

(** [chat] *)
Definition chat (message : string) (context : option string) : M string :=
  try_except
    (let p := match context with
              | Some c =>
                  if String.eqb c "" then message
                  else c ++ nl ++ nl ++ "用户：" ++ message
              | None => message
              end in
     response ← generate (PromptChat p);
     mret (py_strip E response))
    (fun _ => mret chat_apology).

(** The two fall-back analyses of [analyze_task]. *)
Definition unparsed_analysis (response_text : string) : pydict :=
  [("task_type", VStr "chat"); ("confidence", VFloat f_0_8);
   ("extracted_data", VDict []); ("response_text", VStr response_text)].

Definition analysis_reply : string := "我理解了您的消息，让我来帮您处理。".

Definition failed_analysis : pydict :=
  [("task_type", VStr "chat"); ("confidence", VFloat f_0_5);
   ("extracted_data", VDict []); ("response_text", VStr analysis_reply)].

(** [analyze_task] *)
Definition analyze_task (message : string) : M pydict :=
  try_except
    (t ← now E;
     response ← generate (PromptTaskRecognition t message);
     let response_text := py_strip E response in
     match json_island response_text with
     | Some json_str =>
         match json_loads E json_str with
         | Loaded (VDict result) => mret result
         | Loaded v =>
             raise (PyExn AttributeError
                      ("'" ++ type_name v ++ "' object has no attribute 'get'"))
         | DecodeError _ => mret (unparsed_analysis response_text)
         | LoadsRaises e => raise e
         end
     | None => mret (unparsed_analysis response_text)
     end)
    (fun _ => mret failed_analysis).

(** The part the three [extract_..._data] and the intent analyses share:
    ask, cut the island out, load it; [None] when there is no island. *)
Definition ask_json (p : prompt) : M (option pyval) :=
  response ← generate p;
  match json_island (py_strip E response) with
  | Some json_str =>
      match json_loads E json_str with
      | Loaded v => mret (Some v)
      | DecodeError msg => raise (PyExn JSONDecodeError msg)
      | LoadsRaises e => raise e
      end
  | None => mret None
  end.

(** [json.loads] of a text that starts with a brace gives a [dict] or
    raises; the case of another value is closed off by an exception. *)
Definition not_a_dict {A} (v : pyval) : M A :=
  raise (PyExn TypeError ("'" ++ type_name v ++ "' object is not a mapping")).

(** [extract_accounting_data] *)
Definition extract_accounting_data (message : string) : M pydict :=
  r ← try_except
        (loaded ← ask_json (PromptExtractAccounting message);
         match loaded with
         | Some (VDict result) =>
             if negb (truthy (dict_get result "date"))
             then t ← now E; mret (Some (dict_set result "date" (VStr (dt_date t))))
             else mret (Some result)
         | Some v => not_a_dict v
         | None => mret None
         end)
        (fun _ => mret None);
  match r with
  | Some result => mret result
  | None =>
      t ← now E;
      mret [("title", VStr "未知支出"); ("amount", VFloat 0); ("category", VStr "其他");
            ("type", VStr "支出"); ("description", VStr message);
            ("date", VStr (dt_date t))]
  end.

(** [extract_subscription_data] *)
Definition extract_subscription_data (message : string) : M pydict :=
  r ← try_except
        (loaded ← ask_json (PromptExtractSubscription message);
         match loaded with
         | Some (VDict result) => mret (Some result)
         | Some v => not_a_dict v
         | None => mret None
         end)
        (fun _ => mret None);
  match r with
  | Some result => mret result
  | None =>
      t ← now E;
      mret [("name", VStr "未知订阅"); ("price", VFloat 0); ("billing_cycle", VStr "月");
            ("category", VStr "其他"); ("description", VStr message);
            ("next_billing_date", VStr (dt_date t))]
  end.

(** [extract_todo_data] *)
Definition extract_todo_data (message : string) : M pydict :=
  t ← now E;
  let current_date := dt_date t in
  r ← try_except
        (loaded ← ask_json (PromptExtractTodo t message);
         match loaded with
         | Some (VDict result) =>
             let result1 :=
               match dict_lookup result "title", dict_lookup result "task" with
               | None, Some task => (dict_remove result "task" ++ [("title", task)])%list
               | _, _ => result
               end in
             let result2 :=
               if negb (truthy (dict_get result1 "due_date"))
               then dict_set result1 "due_date" (VStr current_date)
               else result1 in
             let result3 :=
               if negb (py_in (dict_get result2 "priority")
                              [VStr "高"; VStr "中"; VStr "低"])
               then dict_set result2 "priority" (VStr "中")
               else result2 in
             mret (Some result3)
         | Some v => not_a_dict v
         | None => mret None
         end)
        (fun _ => mret None);
  match r with
  | Some result => mret result
  | None =>
      mret [("title", VStr "未知任务"); ("priority", VStr "中"); ("category", VStr "其他");
            ("description", VStr ""); ("due_date", VStr current_date)]
  end.

(** [generate_smart_reply] *)
Definition generate_smart_reply (message : string) (task_result : pyval) : M string :=
  let p := PromptSmartReply message (json_dumps E task_result) in
  try_except
    (response ← generate p; mret (py_strip E response))
    (fun _ => mret "好的，我已经帮您处理完成了！").

(** ** Replies to queries *)

Definition hashable (v : pyval) : bool :=
  match v with VList _ | VDict _ => false | _ => true end.

Definition unhashable {A} (v : pyval) : Res A :=
  Raise (PyExn TypeError ("unhashable type: '" ++ type_name v ++ "'")).

(** [status_groups], keyed by the status values in the order they were
    first met. *)
Abbreviation groups := (list (pyval * list pydict)).

(** [status_groups[status].append(item)], after the key is created if it is
    new. *)
Fixpoint group_add (g : groups) (status : pyval) (item : pydict) : groups :=
  match g with
  | [] => [(status, [item])]
  | (k, items) :: rest =>
      if py_eq k status then (k, (items ++ [item])%list) :: rest
      else (k, items) :: group_add rest status item
  end.

Fixpoint group_by_status (results : list pydict) (g : groups) : Res groups :=
  match results with
  | [] => Ok g
  | item :: rest =>
      let status := dict_get_or item "状态" (VStr "未知") in
      if hashable status then group_by_status rest (group_add g status item)
      else unhashable status
  end.

Fixpoint group_lookup (g : groups) (status : pyval) : option (list pydict) :=
  match g with
  | [] => None
  | (k, items) :: rest =>
      if py_eq k status then Some items else group_lookup rest status
  end.

(** The statuses the fall-back formatter walks through, in its order. *)
Definition fallback_status_order : list string :=
  ["进行中"; "待完成"; "已完成"; "已取消"].

(** The lines of one to-do record. *)
Definition item_lines (item : pydict) : Res (list string) :=
  let title := dict_get_or item "标题" (VStr "未知任务") in
  let priority := dict_get_or item "优先级" (VStr "") in
  let deadline := dict_get_or item "截止日期" (VStr "") in
  let category := dict_get_or item "分类" (VStr "") in
  let description := dict_get_or item "描述" (VStr "") in
  let url := dict_get_or item "url" (VStr "") in
  let created_time := dict_get_or item "创建时间" (VStr "") in
  let edited_time := dict_get_or item "最后编辑时间" (VStr "") in
  let optional (v : pyval) (line : string) : list string :=
    if truthy v then [line] else [] in
  priority_line ←
    (if truthy priority then
       priority_text ← table_get [("高", "【高】"); ("中", "【中】"); ("低", "【低】")]
                                 priority (py_str E priority);
       Ok ["     优先级：" ++ priority_text]
     else Ok []);
  let title_line := "   - 标题：" ++ py_str E title in
  let deadline_line := optional deadline ("     截止日期：" ++ py_str E deadline) in
  let description_line := optional description ("     描述：" ++ py_str E description) in
  let category_line :=
    if truthy category && negb (py_eq category (VStr "未分类"))
    then ["     分类：" ++ py_str E category] else [] in
  let url_line := optional url ("     Notion链接：<" ++ py_str E url ++ "|链接>") in
  let created_line := optional created_time ("     创建时间：" ++ py_str E created_time) in
  let edited_line := optional edited_time ("     最后编辑时间：" ++ py_str E edited_time) in
  Ok ([title_line] ++ priority_line ++ deadline_line ++ description_line
      ++ category_line ++ url_line ++ created_line ++ edited_line ++ [""])%list.

Fixpoint items_lines (items : list pydict) : Res (list string) :=
  match items with
  | [] => Ok []
  | item :: rest =>
      ls ← item_lines item; more ← items_lines rest; Ok (ls ++ more)%list
  end.

(** The block of one status: nothing if no record has it. *)
Definition status_block (g : groups) (status : string) : Res (list string) :=
  match group_lookup g (VStr status) with
  | None => Ok []
  | Some items =>
      ls ← items_lines items; Ok ((nl ++ "【" ++ status ++ "】") :: ls)
  end.

Fixpoint status_blocks (g : groups) (statuses : list string) : Res (list string) :=
  match statuses with
  | [] => Ok []
  | status :: rest =>
      b ← status_block g status; more ← status_blocks g rest; Ok (b ++ more)%list
  end.

(** [f"{i}. {title}"] for the records of the other types. *)
Fixpoint numbered_lines (i : nat) (items : list pydict) : list string :=
  match items with
  | [] => []
  | item :: rest =>
      (pretty i ++ ". "
       ++ py_str E (dict_get_or item "标题" (dict_get_or item "名称" (VStr "未知项目"))))
      :: numbered_lines (S i) rest
  end.

(** The closing lines: the two counts and what is left unseen. *)
Definition count_lines (query_type : pyval) (total_count shown : nat) : list string :=
  ["总记录数：" ++ pretty total_count;
   "显示记录数：" ++ pretty shown;
   if (shown <? total_count)%nat
   then nl ++ "还有 " ++ pretty (total_count - shown)%nat ++ " 个未显示"
   else nl ++ "您已查看全部" ++ py_str E query_type ++ "。"].

(** [_format_query_results_fallback] *)
Definition _format_query_results_fallback (results : list pydict)
    (query_type : pyval) (total_count : nat) : Res string :=
  match results with
  | [] => Ok ("没有找到" ++ py_str E query_type ++ "记录。")
  | _ =>
      body ←
        (if py_eq query_type (VStr "待办事项") then
           g ← group_by_status results [];
           status_blocks g fallback_status_order
         else Ok (numbered_lines 1 (firstn 10 results)));
      let greeting := "您好，这是您的" ++ py_str E query_type ++ "：" ++ nl in
      Ok (str_join nl
            (greeting :: body
             ++ count_lines query_type total_count (length results))%list)
  end.

(** The records shown: all of them up to ten, else the first ten of the
    sort. *)
Definition displayed_results (query_results : list pydict) (query_type : pyval)
  : Res (list pydict) :=
  if (10 <? length query_results)%nat then
    sorted ← (if py_eq query_type (VStr "待办事项")
              then sorted_reverse todo_sort_key query_results
              else sorted_reverse other_sort_key query_results);
    Ok (firstn 10 sorted)
  else Ok query_results.

(** The note of the prompt on the records left out. *)
Definition hidden_note (total_count shown : nat) : string :=
  if (shown <? total_count)%nat
  then "还有 " ++ pretty (total_count - shown)%nat ++ " 个未显示"
  else "".

Definition query_prompt (displayed : list pydict) (query_type : pyval)
    (total_count : nat) : prompt :=
  PromptQueryResponse (py_str E query_type)
    (json_dumps E (VList (List.map VDict displayed)))
    total_count (length displayed) (hidden_note total_count (length displayed)).

(** [generate_query_response] *)
Definition generate_query_response (query_results : list pydict)
    (query_type : pyval) : M string :=
  match query_results with
  | [] => mret ("没有找到相关的" ++ py_str E query_type ++ "记录。")
  | _ =>
      let total_count := length query_results in
      displayed ← lift (displayed_results query_results query_type);
      try_except
        (response ← generate (query_prompt displayed query_type total_count);
         mret (py_strip E response))
        (fun _ =>
           lift (_format_query_results_fallback displayed query_type total_count))
  end.

End WithEnv.
End GeminiClient.

(* ===================================================================== *)
(** * [src/tasks/todo.py]                                                 *)
(* ===================================================================== *)

Module TodoTask.

(** [a or b] *)
Definition py_or (a b : pyval) : pyval := if truthy a then a else b.

(** The filter made of the parts collected: none, the part itself, or
    their conjunction. *)
Definition combine (filter_parts : list nfilter) : option nfilter :=
  match filter_parts with
  | [] => None
  | [part] => Some part
  | _ => Some (FAnd filter_parts)
  end.

(** [{"records": results, "count": len(results)}] *)
Definition records_data (results : list pydict) : pydict :=
  [("records", VList (List.map VDict results));
   ("count", VInt (Z.of_nat (length results)))].

(** The names that import statements in the body of
    [_select_best_match_with_ai] bind.  A name bound anywhere in a function
    is local to all of it, and unbound until the binding statement has run;
    the module itself imports none of the three. *)
Record locals := {
  bound_GeminiClient : bool;
  bound_asyncio : bool;
  bound_json : bool
}.

Definition on_entry : locals :=
  {| bound_GeminiClient := false; bound_asyncio := false; bound_json := false |}.

Definition after_imports : locals :=
  {| bound_GeminiClient := true; bound_asyncio := true; bound_json := true |}.

(** Reading a local name. *)
Definition load_local (bound : bool) (name : string) : Res unit :=
  if bound then Ok tt
  else Raise (PyExn UnboundLocalError
                ("cannot access local variable '" ++ name
                 ++ "' where it is not associated with a value")).

(** [matched_tasks[selected_index]], for an index already known to lie
    within the list. *)
Definition list_index (matched_tasks : list pydict) (selected_index : pyval)
  : Res pydict :=
  match selected_index with
  | VInt z =>
      match nth_error matched_tasks (Z.to_nat z) with
      | Some task => Ok task
      | None => Raise (PyExn IndexError "list index out of range")
      end
  | VBool b =>
      match nth_error matched_tasks (if b then 1 else 0) with
      | Some task => Ok task
      | None => Raise (PyExn IndexError "list index out of range")
      end
  | _ =>
      Raise (PyExn TypeError
               ("list indices must be integers or slices, not "
                ++ type_name selected_index))
  end.

Section WithEnv.
Context (E : Env).

(** [TodoTask()] *)
Definition new : Res unit := NotionClient.new E.

(** [x not in ['高', '中', '低']] *)
Definition no_priority (x : pyval) : bool :=
  negb (GeminiClient.py_in x [VStr "高"; VStr "中"; VStr "低"]).

(** [execute] *)
Definition execute (data : pydict) : M TaskResult :=
  try_except
    (due_date ←
       match dict_get data "due_date" with
       | VStr d =>
           if truthy (VStr d) then
             match parse_date E d with
             | Some iso => mret (Some iso)
             | None =>
                 raise (PyExn ValueError
                          ("time data '" ++ d ++ "' does not match format '%Y-%m-%d'"))
             end
           else mret None
       | _ => mret None
       end;
     page_id ← NotionClient.add_todo E
                 (dict_get_or data "title" (VStr "未知任务"))
                 (dict_get_or data "priority" (VStr "中"))
                 due_date
                 (dict_get_or data "category" (VStr "其他"))
                 (dict_get_or data "description" (VStr ""));
     match page_id with
     | Some (String a rest as id) =>
         mret (succeeded
                 [("page_id", VStr id);
                  ("title", dict_get data "title");
                  ("priority", dict_get data "priority");
                  ("due_date", match due_date with Some iso => VStr iso | None => VNone end);
                  ("category", dict_get data "category")]
                 ("待办事项创建成功："
                  ++ py_str E (dict_get_or data "title" (VStr "未知任务"))))
     | _ => mret (failed "Notion记录创建失败" "待办事项创建失败，请稍后重试")
     end)
    (fun e => mret (failed (exn_msg e) "创建待办事项过程中出现错误")).

(** [validate_data]: the verdict, and the dictionary with the priority it
    may have corrected. *)
Definition validate_data (data : pydict) : M (bool * pydict) :=
  if negb (truthy (dict_get data "title")) then mret (false, data)
  else
    let data' :=
      if no_priority (dict_get_or data "priority" (VStr "中"))
      then dict_set data "priority" (VStr "中") else data in
    match dict_get data' "due_date" with
    | VStr d =>
        if truthy (VStr d) then
          match parse_date E d with
          | Some _ => mret (true, data')
          | None => mret (false, data')
          end
        else mret (true, data')
    | _ => mret (true, data')
    end.

(** [format_data] *)
Definition format_data (data : pydict) : pydict :=
  let formatted := base_format_data data in
  let formatted1 :=
    match dict_lookup formatted "priority" with
    | Some priority =>
        if no_priority priority then dict_set formatted "priority" (VStr "中")
        else formatted
    | None => dict_set formatted "priority" (VStr "中")
    end in
  match dict_lookup formatted1 "category" with
  | Some category =>
      if truthy category then formatted1
      else dict_set formatted1 "category" (VStr "其他")
  | None => dict_set formatted1 "category" (VStr "其他")
  end.

(** [filters.get(k)] on the argument of [query], given as truthy. *)
Definition filters_dict (filters : pyval) : Res pydict :=
  match filters with
  | VDict d => Ok d
  | _ => Raise (PyExn AttributeError
                  ("'" ++ type_name filters ++ "' object has no attribute 'get'"))
  end.

(** [query] *)
Definition query (filters : pyval) : M TaskResult :=
  try_except
    (let sorts := Some [("截止日期", "ascending")] in
     filter_condition ←
       (if truthy filters then
          filters ← lift (filters_dict filters);
          let status_filter :=
            py_or (dict_get filters "status") (dict_get filters "状态") in
          let priority_filter :=
            py_or (dict_get filters "priority") (dict_get filters "优先级") in
          let category_filter :=
            py_or (dict_get filters "category") (dict_get filters "分类") in
          let due_date_filter :=
            py_or (dict_get filters "due_date") (dict_get filters "截止日期") in
          let parts1 :=
            if truthy status_filter
            then [FSelect "状态" "equals" status_filter] else [] in
          let parts2 :=
            if truthy priority_filter
            then [FSelect "优先级" "equals" priority_filter] else [] in
          let parts3 :=
            if truthy category_filter
            then [FSelect "分类" "equals" category_filter] else [] in
          let parts4 :=
            match due_date_filter with
            | VStr d =>
                if truthy due_date_filter then
                  [FDate "截止日期"
                     [("equals",
                       VStr (if (str_len d =? 10)%nat
                             then d ++ "T00:00:00.000Z" else d))]]
                else []
            | _ => []
            end in
          parts5 ←
            (if truthy (dict_get filters "due_soon")
             then t ← now E;
                  mret [FDate "截止日期" [("on_or_before", VStr (dt_iso_tomorrow t))]]
             else mret []);
          parts6 ←
            (if truthy (dict_get filters "overdue")
             then t ← now E;
                  mret [FAnd [FDate "截止日期" [("before", VStr (dt_iso t))];
                              FSelect "状态" "does_not_equal" (VStr "已完成")]]
             else mret []);
          mret (combine (parts1 ++ parts2 ++ parts3 ++ parts4 ++ parts5 ++ parts6)%list)
        else mret None);
     limit ←
       (if truthy filters then
          filters ← lift (filters_dict filters);
          mret (dict_get_or filters "limit" (VInt 20))
        else mret (VInt 20));
     results ← NotionClient.query_database E "todos" filter_condition sorts limit;
     _ ← match filter_condition, results with
         | Some _, [] =>
             (* the unfiltered look the code takes for its log *)
             _ ← NotionClient.query_database E "todos" None sorts (VInt 5); mret tt
         | _, _ => mret tt
         end;
     mret (succeeded (records_data results)
             ("找到 " ++ pretty (length results) ++ " 条待办事项")))
    (fun e => mret (failed (exn_msg e) "查询待办事项失败")).

(** The loop of [delete_all]: the two counters after the records seen. *)
Fixpoint delete_each (all_todos : list pydict) (deleted_count failed_count : nat)
  : M (nat * nat) :=
  match all_todos with
  | [] => mret (deleted_count, failed_count)
  | todo :: rest =>
      let page_id := dict_get todo "id" in
      if truthy page_id then
        ok ← NotionClient.delete_page E (py_str E page_id);
        if (ok : bool) then delete_each rest (S deleted_count) failed_count
        else delete_each rest deleted_count (S failed_count)
      else delete_each rest deleted_count failed_count
  end.

(** [delete_all] *)
Definition delete_all : M TaskResult :=
  try_except
    (all_todos ← NotionClient.query_database E "todos" None None VNone;
     match all_todos with
     | [] => mret (succeeded [("deleted_count", VInt 0)] "没有待办事项需要删除")
     | _ =>
         '(deleted_count, failed_count) ← delete_each all_todos 0 0;
         if (failed_count =? 0)%nat then
           mret (succeeded [("deleted_count", VInt (Z.of_nat deleted_count))]
                   ("已成功删除 " ++ pretty deleted_count ++ " 条待办事项"))
         else
           mret (succeeded [("deleted_count", VInt (Z.of_nat deleted_count));
                            ("failed_count", VInt (Z.of_nat failed_count))]
                   ("删除了 " ++ pretty deleted_count ++ " 条待办事项，"
                    ++ pretty failed_count ++ " 条删除失败"))
     end)
    (fun e => mret (failed (exn_msg e) "删除待办事项过程中出现错误")).

(** The matching loop of [update_by_name]: the records whose lowered title
    holds the lowered name or is held by it, in order. *)
Fixpoint match_tasks (task_name : pyval) (all_todos : list pydict)
  : Res (list pydict) :=
  match all_todos with
  | [] => Ok []
  | todo :: rest =>
      title ← lower_of E (dict_get_or todo "标题" (VStr ""));
      name ← lower_of E task_name;
      matched ← match_tasks task_name rest;
      if str_contains name title || str_contains title name
      then Ok (todo :: matched)
      else Ok matched
  end.

(** The lines that list the candidates, numbered from [i]. *)
Fixpoint task_list (i : nat) (matched_tasks : list pydict) : list string :=
  match matched_tasks with
  | [] => []
  | task :: rest =>
      (pretty i ++ ". " ++ py_str E (dict_get_or task "标题" (VStr ""))
       ++ " (" ++ py_str E (dict_get_or task "状态" (VStr ""))
       ++ ", 截止: " ++ py_str E (dict_get_or task "截止日期" (VStr "")) ++ ")")
      :: task_list (S i) rest
  end.

(** The result that hands the choice back to the user. *)
Definition ambiguous (task_name : pyval) (matched_tasks : list pydict) : TaskResult :=
  failed "多个匹配任务"
    ("找到多个包含「" ++ py_str E task_name ++ "」的任务，请明确指定：" ++ nl
     ++ str_join nl (task_list 1 matched_tasks)).

(** [candidates_info] *)
Definition candidate_info (i : nat) (task : pydict) : pyval :=
  VDict [("index", VInt (Z.of_nat i));
         ("title", dict_get_or task "标题" (VStr ""));
         ("status", dict_get_or task "状态" (VStr ""));
         ("priority", dict_get_or task "优先级" (VStr ""));
         ("due_date", dict_get_or task "截止日期" (VStr ""));
         ("category", dict_get_or task "分类" (VStr ""));
         ("description", dict_get_or task "描述" (VStr ""))].

Fixpoint candidates_info (i : nat) (matched_tasks : list pydict) : list pyval :=
  match matched_tasks with
  | [] => []
  | task :: rest => candidate_info i task :: candidates_info (S i) rest
  end.

(** [x if x else '无'] *)
Definition or_none (x : pyval) : string :=
  if truthy x then py_str E x else "无".

(** What [_select_best_match_with_ai] makes of the oracle's answer: the
    task chosen, or [None]. *)
Definition select_from_response (matched_tasks : list pydict)
    (response_text : string) : Res (option pydict) :=
  match GeminiClient.json_island response_text with
  | Some json_str =>
      match json_loads E json_str with
      | Loaded (VDict result) =>
          let selected_index := dict_get_or result "selected_index" (VInt (-1)) in
          let confidence := dict_get_or result "confidence" (VFloat 0) in
          nonneg ← py_ge selected_index (VInt 0);
          if (nonneg : bool) then
            below ← py_lt selected_index (VInt (Z.of_nat (length matched_tasks)));
            if (below : bool) then
              sure ← py_ge confidence (VFloat f_0_7);
              if (sure : bool) then
                selected_task ← list_index matched_tasks selected_index;
                Ok (Some selected_task)
              else Ok None
            else Ok None
          else Ok None
      | Loaded v =>
          Raise (PyExn AttributeError
                   ("'" ++ type_name v ++ "' object has no attribute 'get'"))
      | DecodeError msg => Raise (PyExn JSONDecodeError msg)
      | LoadsRaises e => Raise e
      end
  | None => Ok None
  end.

(** [_select_best_match_with_ai] *)
Definition _select_best_match_with_ai (task_name : pyval)
    (matched_tasks : list pydict) (new_status new_priority new_date : pyval)
  : M (option pydict) :=
  try_except
    (let frame := on_entry in
     let info := candidates_info 0 matched_tasks in
     (* the prompt interpolates json.dumps(candidates_info, ...) *)
     _ ← lift (load_local (bound_json frame) "json");
     let p := PromptSelectBest (py_str E task_name) (or_none new_status)
                (or_none new_priority) (or_none new_date)
                (json_dumps E (VList info)) in
     (* from ..ai.gemini_client import GeminiClient; import asyncio;
        import json *)
     let frame := after_imports in
     _ ← lift (load_local (bound_GeminiClient frame) "GeminiClient");
     _ ← lift (GeminiClient.new E);
     _ ← lift (load_local (bound_asyncio frame) "asyncio");
     response ← GeminiClient.generate E p;
     lift (select_from_response matched_tasks (py_strip E response)))
    (fun _ => mret None).

(** The part of [update_by_name] that follows the choice of [best_match]:
    it writes the fields asked for into that record. *)
Definition write_update (task_name : pyval) (best_match : pydict)
    (new_status new_priority new_date : pyval) : M TaskResult :=
  let page_id := dict_get best_match "id" in
  if negb (truthy page_id) then
    mret (failed "无效的任务ID" "找到的任务缺少有效ID")
  else
    let status_part :=
      if truthy new_status
      then [("状态", VDict [("select", VDict [("name", new_status)])])] else [] in
    let priority_part :=
      if truthy new_priority
      then [("优先级", VDict [("select", VDict [("name", new_priority)])])] else [] in
    let date_part :=
      match new_date with
      | VStr d =>
          if truthy new_date && (str_len d =? 10)%nat && strptime_ymd E d
          then [("截止日期", VDict [("date", VDict [("start", new_date)])])] else []
      | _ => []
      end in
    let update_data := (status_part ++ priority_part ++ date_part)%list in
    match update_data with
    | [] => mret (failed "没有可更新的数据" "请指定要更新的状态、优先级或截止日期")
    | _ =>
        ok ← NotionClient.update_page E (py_str E page_id) update_data;
        if (ok : bool) then
          let task_title := dict_get_or best_match "标题" task_name in
          let status_info :=
            if truthy new_status then ["状态: " ++ py_str E new_status] else [] in
          let priority_info :=
            if truthy new_priority then ["优先级: " ++ py_str E new_priority] else [] in
          let date_info :=
            if truthy new_date then ["截止日期: " ++ py_str E new_date] else [] in
          let update_info := (status_info ++ priority_info ++ date_info)%list in
          mret (succeeded
                  [("task_name", task_title); ("page_id", page_id);
                   ("updates", VList (List.map VStr update_info))]
                  ("已更新任务「" ++ py_str E task_title ++ "」: "
                   ++ str_join ", " update_info))
        else mret (failed "Notion更新失败" "更新任务时出错，请稍后重试")
    end.

(** [update_by_name] *)
Definition update_by_name (task_name new_status new_priority new_date : pyval)
  : M TaskResult :=
  try_except
    (all_todos ← NotionClient.query_database E "todos" None None VNone;
     match all_todos with
     | [] => mret (failed "没有找到任何任务" "待办事项列表为空")
     | _ =>
         matched_tasks ← lift (match_tasks task_name all_todos);
         match matched_tasks with
         | [] =>
             mret (failed "任务未找到"
                     ("未找到名称包含「" ++ py_str E task_name ++ "」的任务"))
         | [best_match] =>
             write_update task_name best_match new_status new_priority new_date
         | _ =>
             best_match ← _select_best_match_with_ai task_name matched_tasks
                            new_status new_priority new_date;
             match best_match with
             | Some ((_ :: _) as best_match) =>
                 write_update task_name best_match new_status new_priority new_date
             | _ => mret (ambiguous task_name matched_tasks)
             end
         end
     end)
    (fun e => mret (failed (exn_msg e) "更新待办事项过程中出现错误")).

(** The handler, and the class as the registry holds it. *)
Definition handler : Handler :=
  {| name := "待办事项";
     BaseTask.validate_data := validate_data;
     BaseTask.format_data := fun data => Ok (format_data data);
     BaseTask.execute := execute;
     BaseTask.query := query;
     BaseTask.delete_all := delete_all;
     BaseTask.update_by_name := update_by_name |}.

Definition task_class : Res Handler := _ ← new; Ok handler.

End WithEnv.
End TodoTask.

(* ===================================================================== *)
(** * [src/tasks/accounting.py]: query and validation                     *)
(* ===================================================================== *)

Module AccountingTask.
Section WithEnv.
Context (E : Env).

(** [k in filters] on the argument of [query]: a key of a [dict], a part
    of a [str], an element of a [list]; nothing else can be searched. *)
Definition has_key (filters : pyval) (k : string) : Res bool :=
  match filters with
  | VDict d => Ok (match dict_lookup d k with Some _ => true | None => false end)
  | VStr s => Ok (str_contains k s)
  | VList l => Ok (GeminiClient.py_in (VStr k) l)
  | _ => Raise (PyExn TypeError
                  ("argument of type '" ++ type_name filters ++ "' is not iterable"))
  end.

(** [filters[k]], where [k in filters] holds. *)
Definition item (filters : pyval) (k : string) : Res pyval :=
  match filters with
  | VDict d => Ok (dict_get d k)
  | VStr _ => Raise (PyExn TypeError "string indices must be integers, not 'str'")
  | VList _ =>
      Raise (PyExn TypeError "list indices must be integers or slices, not str")
  | _ => Raise (PyExn TypeError
                  ("'" ++ type_name filters ++ "' object is not subscriptable"))
  end.

(** [filters[k]] under [if k in filters]. *)
Definition item_if_present (filters : pyval) (k : string) : Res (option pyval) :=
  present ← has_key filters k;
  if (present : bool) then v ← item filters k; Ok (Some v) else Ok None.

(** [query].  The keys it reads are [type], [category], [date_from],
    [date_to] and [limit]; any other key of [filters] is not looked at. *)
Definition query (filters : pyval) : M TaskResult :=
  try_except
    (let sorts := Some [("日期", "descending")] in
     filter_condition ←
       (if truthy filters then
          by_type ← lift (item_if_present filters "type");
          by_category ← lift (item_if_present filters "category");
          from ← lift (item_if_present filters "date_from");
          to ← lift (item_if_present filters "date_to");
          let parts1 :=
            match by_type with
            | Some v => [FSelect "类型" "equals" v]
            | None => []
            end in
          let parts2 :=
            match by_category with
            | Some v => [FSelect "分类" "equals" v]
            | None => []
            end in
          let date_from :=
            match from with
            | Some v => [("on_or_after", v)]
            | None => []
            end in
          let date_to :=
            match to with
            | Some v => [("on_or_before", v)]
            | None => []
            end in
          let parts3 :=
            match (date_from ++ date_to)%list with
            | [] => []
            | conds => [FDate "日期" conds]
            end in
          mret (TodoTask.combine (parts1 ++ parts2 ++ parts3)%list)
        else mret None);
     limit ←
       (if truthy filters then
          filters ← lift (TodoTask.filters_dict filters);
          mret (dict_get_or filters "limit" (VInt 20))
        else mret (VInt 20));
     results ← NotionClient.query_database E "accounting" filter_condition sorts limit;
     mret (succeeded (TodoTask.records_data results)
             ("找到 " ++ pretty (length results) ++ " 条记账记录")))
    (fun e => mret (failed (exn_msg e) "查询记账记录失败")).

(** [validate_data]: the verdict, and the dictionary with the type it may
    have corrected.  Of what [float] raises, the [ValueError] and the
    [TypeError] are caught; the [OverflowError] of an [int] too large
    leaves the method. *)
Definition validate_data (data : pydict) : M (bool * pydict) :=
  if negb (truthy (dict_get data "title")) then mret (false, data)
  else
    match py_float E (dict_get_or data "amount" (VInt 0)) with
    | Raise e =>
        match exn_cls e with
        | ValueError | TypeError => mret (false, data)
        | _ => raise e
        end
    | Ok amount =>
        if Qle_bool amount 0 then mret (false, data)
        else
          let type_ := dict_get_or data "type" (VStr "支出") in
          if negb (GeminiClient.py_in type_ [VStr "收入"; VStr "支出"])
          then mret (true, dict_set data "type" (VStr "支出"))
          else mret (true, data)
    end.

End WithEnv.
End AccountingTask.

(* ===================================================================== *)
(** * [src/core/message_processor.py]                                     *)
(* ===================================================================== *)

Module MessageProcessor.

(** [l[-n:]] *)
Definition last_n {A} (n : nat) (l : list A) : list A :=
  skipn (length l - n) l.

(** [result.data.get("records", [])], read as the list of records the
    handlers of this repository put there. *)
Fixpoint as_records (l : list pyval) : Res (list pydict) :=
  match l with
  | [] => Ok []
  | VDict d :: rest => ds ← as_records rest; Ok (d :: ds)
  | v :: _ =>
      Raise (PyExn AttributeError
               ("'" ++ type_name v ++ "' object has no attribute 'get'"))
  end.

Definition records_of (data : pydict) : Res (list pydict) :=
  match dict_get_or data "records" (VList []) with
  | VList l => as_records l
  | v => Raise (PyExn TypeError ("'" ++ type_name v ++ "' object is not a list"))
  end.

(** [intent.get(...)] on what an intent analysis returned. *)
Definition intent_dict (intent : pyval) : Res pydict :=
  match intent with
  | VDict d => Ok d
  | _ => Raise (PyExn AttributeError
                  ("'" ++ type_name intent ++ "' object has no attribute 'get'"))
  end.

Definition processing_apology : string := "抱歉，我现在无法处理您的消息，请稍后再试。".
Definition chat_confusion : string := "我现在有点困惑，能再说一遍吗？".

Section WithEnv.
(** [scheduler]: whether the processor was given a scheduler. *)
Context (E : Env) (classes : task_classes) (scheduler : bool).

(** [_get_task_name] *)
Definition _get_task_name (task_type : pyval) : Res pyval :=
  GeminiClient.table_get
    [("accounting", VStr "记账"); ("subscription", VStr "订阅");
     ("todo", VStr "待办事项")] task_type task_type.

(** [_get_conversation_context] *)
Definition _get_conversation_context (user_id : string) : M (option string) :=
  s ← get_state;
  mret (context <$> conversation_contexts s !! user_id).

(** The summary of the last three messages. *)
Definition context_summary (recent : list ctx_message) : string :=
  fold_left
    (fun acc msg => acc ++ "- " ++ str_take 50 (cm_message msg) ++ "..." ++ nl)
    recent ("最近的对话:" ++ nl).

(** [_update_conversation_context] *)
Definition _update_conversation_context (user_id message : string)
    (analysis : pydict) : M unit :=
  s ← get_state;
  user_context ←
    match conversation_contexts s !! user_id with
    | Some c => mret c
    | None =>
        t ← now E;
        mret {| messages := []; context := ""; last_task_type := VNone;
                updated_at := dt_iso t |}
    end;
  t1 ← now E;
  let appended :=
    (messages user_context
     ++ [{| cm_message := message;
            cm_task_type := dict_get analysis "task_type";
            cm_timestamp := dt_iso t1 |}])%list in
  let kept :=
    if (10 <? length appended)%nat then last_n 10 appended else appended in
  t2 ← now E;
  s' ← get_state;
  set_conversation_contexts
    (<[user_id :=
         {| messages := kept;
            context := context_summary (last_n 3 kept);
            last_task_type := dict_get analysis "task_type";
            updated_at := dt_iso t2 |}]> (conversation_contexts s')).

(** [_handle_chat]; the lowered copy of the message it first makes is not
    used. *)
Definition _handle_chat (message : string) (context : option string) : M string :=
  try_except
    (if scheduler && str_contains "每日推送" message then
       if str_contains "订阅" message || str_contains "开启" message then
         mret "要订阅每日推送，请使用命令：/subscribe_daily"
       else if str_contains "取消" message || str_contains "关闭" message then
         mret "要取消每日推送，请使用命令：/unsubscribe_daily"
       else if str_contains "手动" message || str_contains "立即" message then
         mret "要手动获取今日报告，请使用命令：/daily_report"
       else GeminiClient.chat E message context
     else GeminiClient.chat E message context)
    (fun _ => mret chat_confusion).

(** [_handle_task] *)
Definition _handle_task (task_type : pyval) (message : string)
    (analysis : pydict) (user_id : string) : M string :=
  try_except
    (extracted_data ←
       (if py_eq task_type (VStr "accounting")
        then GeminiClient.extract_accounting_data E message
        else if py_eq task_type (VStr "subscription")
        then GeminiClient.extract_subscription_data E message
        else if py_eq task_type (VStr "todo")
        then GeminiClient.extract_todo_data E message
        else lift (intent_dict (dict_get_or analysis "extracted_data" (VDict []))));
     result ← TaskDispatcher.execute_task E classes task_type extracted_data user_id;
     if success result then
       GeminiClient.generate_smart_reply E message (to_dict result)
     else
       let error_msg :=
         match error result with
         | Some e => if String.eqb e "" then "任务执行失败" else e
         | None => "任务执行失败"
         end in
       mret ("抱歉，" ++ BaseTask.message result ++ "。错误信息：" ++ error_msg))
    (fun _ =>
       task_name ← lift (_get_task_name task_type);
       mret ("处理您的" ++ py_str E task_name ++ "请求时出现了问题，请稍后再试。")).

(** The three intent analyses: the loaded answer, or [None]. *)
Definition analyze_intent (p : prompt) : M (option pyval) :=
  try_except (GeminiClient.ask_json E p) (fun _ => mret None).

Definition _analyze_query_intent (message : string) : M (option pyval) :=
  t ← now E; analyze_intent (PromptQueryIntent t message).

Definition _analyze_delete_intent (message : string) : M (option pyval) :=
  analyze_intent (PromptDeleteIntent message).

Definition _analyze_update_intent (message : string) : M (option pyval) :=
  t ← now E; analyze_intent (PromptUpdateIntent t message).

(** [not intent] *)
Definition no_intent (intent : option pyval) : bool :=
  match intent with
  | Some v => negb (truthy v)
  | None => true
  end.

(** [_handle_query] *)
Definition _handle_query (message : string) (analysis : pydict)
    (user_id : string) : M string :=
  try_except
    (analysed ← _analyze_query_intent message;
     query_intent ←
       (if no_intent analysed then
          mret [("type", VStr "todo");
                ("filters", VDict [("status", VStr "待完成")])]
        else lift (intent_dict (default VNone analysed)));
     let query_type := dict_get query_intent "type" in
     let filters0 := dict_get_or query_intent "filters" (VDict []) in
     let filters :=
       if py_eq query_type (VStr "todo") && negb (truthy filters0)
       then VDict [] else filters0 in
     result ← TaskDispatcher.query_data E classes query_type filters;
     if success result then
       query_results ← lift (records_of (data result));
       shown_type ← lift (_get_task_name query_type);
       GeminiClient.generate_query_response E query_results shown_type
     else mret ("查询失败：" ++ BaseTask.message result))
    (fun _ => mret "查询过程中出现了问题，请稍后再试。").

(** [_handle_delete] *)
Definition _handle_delete (message : string) (analysis : pydict)
    (user_id : string) : M string :=
  try_except
    (analysed ← _analyze_delete_intent message;
     if no_intent analysed then
       mret "抱歉，我无法理解您要删除什么内容。请明确指出要删除的项目。"
     else
       delete_intent ← lift (intent_dict (default VNone analysed));
       let delete_type := dict_get_or delete_intent "type" (VStr "todo") in
       result ← TaskDispatcher.delete_all_data E classes delete_type;
       if success result then
         shown_type ← lift (_get_task_name delete_type);
         mret ("已成功清除所有" ++ py_str E shown_type ++ "！")
       else mret ("删除操作失败：" ++ BaseTask.message result))
    (fun _ => mret "删除过程中出现了问题，请稍后再试。").

(** [_handle_update] *)
Definition _handle_update (message : string) (analysis : pydict)
    (user_id : string) : M string :=
  try_except
    (analysed ← _analyze_update_intent message;
     if no_intent analysed then
       mret "抱歉，我无法理解您要更新什么内容。请明确指出要修改的项目和新的值。"
     else
       update_intent ← lift (intent_dict (default VNone analysed));
       let update_type := dict_get_or update_intent "type" (VStr "todo") in
       let task_name := dict_get_or update_intent "task_name" (VStr "") in
       let new_status := dict_get_or update_intent "new_status" (VStr "") in
       let new_priority := dict_get_or update_intent "new_priority" (VStr "") in
       let new_date := dict_get_or update_intent "new_date" (VStr "") in
       if negb (truthy task_name) then mret "请明确指出要更新的任务名称。"
       else
         result ← TaskDispatcher.update_task_status E classes update_type
                    task_name new_status new_priority new_date;
         if success result then
           let shown := py_str E (dict_get_or (data result) "task_name" task_name) in
           if truthy new_status then
             mret ("✅ 已将任务「" ++ shown ++ "」的状态更新为「"
                   ++ py_str E new_status ++ "」")
           else if truthy new_priority then
             mret ("📝 已将任务「" ++ shown ++ "」的优先级更新为「"
                   ++ py_str E new_priority ++ "」")
           else if truthy new_date then
             mret ("📅 已将任务「" ++ shown ++ "」的截止日期更新为「"
                   ++ py_str E new_date ++ "」")
           else mret ("✅ 已更新任务「" ++ shown ++ "」")
         else mret ("更新失败：" ++ BaseTask.message result))
    (fun _ => mret "更新过程中出现了问题，请稍后再试。").

(** The branch [process_message] takes once the analysis is in and the
    context is updated. *)
Definition route (task_type confidence : pyval) (message : string)
    (context : option string) (analysis : pydict) (user_id : string) : M string :=
  low ← (if py_eq task_type (VStr "chat") then mret true
         else lift (py_lt confidence (VFloat f_0_6)));
  if (low : bool) then _handle_chat message context
  else if GeminiClient.py_in task_type
            [VStr "accounting"; VStr "subscription"; VStr "todo"]
  then _handle_task task_type message analysis user_id
  else if py_eq task_type (VStr "query")
  then _handle_query message analysis user_id
  else if py_eq task_type (VStr "delete")
  then _handle_delete message analysis user_id
  else if py_eq task_type (VStr "update")
  then _handle_update message analysis user_id
  else _handle_chat message context.

(** [process_message] *)
Definition process_message (message user_id platform : string) : M string :=
  try_except
    (context ← _get_conversation_context user_id;
     analysis ← GeminiClient.analyze_task E message;
     let task_type := dict_get_or analysis "task_type" (VStr "chat") in
     let confidence := dict_get_or analysis "confidence" (VFloat 0) in
     _ ← _update_conversation_context user_id message analysis;
     route task_type confidence message context analysis user_id)
    (fun _ => mret processing_apology).

(** [clear_conversation_context] *)
Definition clear_conversation_context (user_id : string) : M unit :=
  s ← get_state;
  match conversation_contexts s !! user_id with
  | Some _ => set_conversation_contexts (delete user_id (conversation_contexts s))
  | None => mret tt
  end.

End WithEnv.

(** [_register_tasks], on the registry as it stands and the three classes
    the processor imports. *)
Definition _register_tasks (classes : task_classes)
    (AccountingTask SubscriptionTask TodoTask : Res Handler) : task_classes :=
  register_task
    (register_task (register_task classes "accounting" AccountingTask)
       "subscription" SubscriptionTask)
    "todo" TodoTask.

End MessageProcessor.

(* ===================================================================== *)
(** * [src/core/scheduler.py]                                             *)
(* ===================================================================== *)

Module TaskScheduler.

Definition weekday_name (d : weekday) : string :=
  match d with
  | Mon => "周一" | Tue => "周二" | Wed => "周三" | Thu => "周四"
  | Fri => "周五" | Sat => "周六" | Sun => "周日"
  end.

Definition no_financial_records : string := "昨日暂无收支记录".
Definition no_dated_todos : string := "今日暂无特定截止日期的任务".
Definition default_greeting : string := "早安！新的一天开始了，愿您工作顺利，心情愉快！".

Section WithEnv.
Context (E : Env).

(** [_generate_morning_greeting] *)
Definition _generate_morning_greeting : M string :=
  try_except
    (response ← GeminiClient.generate E PromptGreeting;
     let greeting := py_strip E response in
     mret (strip_char "'" (strip_char (ascii_of_nat 34) greeting)))
    (fun _ => mret default_greeting).

(** The loop over the records of yesterday: income and expense, each a
    float to which the amounts are added one by one. *)
Fixpoint sum_records (records : list pydict) (income expense : Q) : Res (Q * Q) :=
  match records with
  | [] => Ok (income, expense)
  | record :: rest =>
      amount ← py_float E (dict_get_or record "金额" (VInt 0));
      let record_type := dict_get_or record "类型" (VStr "") in
      if py_eq record_type (VStr "收入")
      then sum_records rest (float_add E income amount) expense
      else if py_eq record_type (VStr "支出")
      then sum_records rest income (float_add E expense amount)
      else sum_records rest income expense
  end.

(** [_get_yesterday_financial_summary] *)
Definition _get_yesterday_financial_summary (yesterday_date : string) : M string :=
  try_except
    (result ← AccountingTask.query E (VDict [("日期", VStr yesterday_date)]);
     if negb (success result) then mret "昨日记账数据获取失败"
     else
       records ← lift (MessageProcessor.records_of (data result));
       match records with
       | [] => mret no_financial_records
       | _ =>
           '(income, expense) ← lift (sum_records records 0 0);
           let income_part :=
             if Qlt_bool 0 income
             then ["收入：" ++ format_2f E income ++ "元"] else [] in
           let expense_part :=
             if Qlt_bool 0 expense
             then ["支出：" ++ format_2f E expense ++ "元"] else [] in
           let net := float_sub E income expense in
           let net_line :=
             if Qlt_bool 0 net then "净收入：" ++ format_2f E net ++ "元"
             else if Qlt_bool net 0 then "净支出：" ++ format_2f E (Qabs net) ++ "元"
             else "收支平衡" in
           let count_line := "共 " ++ pretty (length records) ++ " 笔记录" in
           let net_part :=
             if Qlt_bool 0 income || Qlt_bool 0 expense
             then [net_line; count_line] else [] in
           match (income_part ++ expense_part ++ net_part)%list with
           | [] => mret no_financial_records
           | summary_parts => mret (str_join " | " summary_parts)
           end
       end)
    (fun _ => mret "昨日收支情况获取失败").

(** The loop that sorts the records into those of today and the overdue
    ones. *)
Fixpoint split_todos (today_date : string) (all_todos : list pydict)
  : Res (list pydict * list pydict) :=
  match all_todos with
  | [] => Ok ([], [])
  | todo :: rest =>
      let status := dict_get_or todo "状态" (VStr "") in
      let due_date := dict_get_or todo "截止日期" (VStr "") in
      if GeminiClient.py_in status [VStr "已完成"; VStr "已取消"] then
        split_todos today_date rest
      else if negb (truthy due_date) then
        '(today_todos, overdue_todos) ← split_todos today_date rest;
        Ok (todo :: today_todos, overdue_todos)
      else if py_eq due_date (VStr today_date) then
        '(today_todos, overdue_todos) ← split_todos today_date rest;
        Ok (todo :: today_todos, overdue_todos)
      else
        before ← py_lt due_date (VStr today_date);
        '(today_todos, overdue_todos) ← split_todos today_date rest;
        if (before : bool) then Ok (today_todos, todo :: overdue_todos)
        else Ok (today_todos, overdue_todos)
  end.

Definition priority_text (priority : pyval) : Res string :=
  GeminiClient.table_get [("高", "【高】"); ("中", "【中】"); ("低", "【低】")] priority "".

Definition status_text (status : pyval) : Res string :=
  GeminiClient.table_get [("进行中", "【进行中】"); ("待完成", "【待完成】")] status "".

Fixpoint overdue_lines (todos : list pydict) : Res (list string) :=
  match todos with
  | [] => Ok []
  | todo :: rest =>
      p ← priority_text (dict_get_or todo "优先级" (VStr ""));
      more ← overdue_lines rest;
      Ok (("- " ++ py_str E (dict_get_or todo "标题" (VStr "")) ++ " " ++ p
           ++ " (逾期: " ++ py_str E (dict_get_or todo "截止日期" (VStr "")) ++ ")")
          :: more)
  end.

Fixpoint today_lines (todos : list pydict) : Res (list string) :=
  match todos with
  | [] => Ok []
  | todo :: rest =>
      p ← priority_text (dict_get_or todo "优先级" (VStr ""));
      st ← status_text (dict_get_or todo "状态" (VStr ""));
      more ← today_lines rest;
      Ok (("- " ++ py_str E (dict_get_or todo "标题" (VStr "")) ++ " " ++ p
           ++ " " ++ st) :: more)
  end.

(** [_get_today_todos] *)
Definition _get_today_todos (today_date : string) : M string :=
  try_except
    (all_result ← TodoTask.query E (VDict []);
     if negb (success all_result) then mret "今日待办事项获取失败"
     else
       all_todos ← lift (MessageProcessor.records_of (data all_result));
       '(today_todos, overdue_todos) ← lift (split_todos today_date all_todos);
       overdue_part ←
         match overdue_todos with
         | [] => mret []
         | _ =>
             ls ← lift (overdue_lines (firstn 3 overdue_todos));
             let more :=
               if (3 <? length overdue_todos)%nat
               then ["... 还有 " ++ pretty (length overdue_todos - 3)%nat
                     ++ " 个逾期任务"]
               else [] in
             mret (["【逾期任务】"] ++ ls ++ more ++ [""])%list
         end;
       today_part ←
         match today_todos with
         | [] => mret [no_dated_todos]
         | _ =>
             ls ← lift (today_lines (firstn 5 today_todos));
             let more :=
               if (5 <? length today_todos)%nat
               then ["... 还有 " ++ pretty (length today_todos - 5)%nat ++ " 个任务"]
               else [] in
             mret (["【今日任务】"] ++ ls ++ more)%list
         end;
       match (overdue_part ++ today_part)%list with
       | [] => mret "今日暂无待办事项"
       | todo_parts => mret (str_join nl todo_parts)
       end)
    (fun _ => mret "今日待办事项获取失败").

(** [_generate_daily_report] *)
Definition _generate_daily_report (user_id : string) : M string :=
  try_except
    (t ← now E;
     greeting ← _generate_morning_greeting;
     yesterday_financial ← _get_yesterday_financial_summary (dt_yesterday t);
     today_todos ← _get_today_todos (dt_date t);
     mret (str_join nl
             ["【早安】" ++ greeting;
              "今天是 " ++ dt_date t ++ " " ++ weekday_name (dt_weekday t);
              "";
              "【昨日收支】";
              yesterday_financial;
              "";
              "【今日待办】";
              today_todos;
              "";
              "祝您今天工作顺利，心情愉快！"]))
    (fun _ =>
       t ← now E;
       mret ("早安！今天是 " ++ dt_date t
             ++ "，系统生成报告时出现问题，请稍后查看详细信息。")).

(** [send_manual_daily_report] *)
Definition send_manual_daily_report (platform user_id : string) : M string :=
  try_except
    (_generate_daily_report user_id)
    (fun e => mret ("生成报告失败: " ++ exn_msg e)).

End WithEnv.

(** ** The subscribers of the daily push *)

(** [f"{platform}:{user_id}"] *)
Definition user_key (user_id platform : string) : string :=
  platform ++ ":" ++ user_id.

(** [add_daily_push_user], [remove_daily_push_user], [is_user_subscribed]
    and [get_daily_push_users], on the set [daily_push_users]. *)
Definition add_daily_push_user (daily_push_users : gset string)
    (user_id platform : string) : gset string :=
  {[ user_key user_id platform ]} ∪ daily_push_users.

Definition remove_daily_push_user (daily_push_users : gset string)
    (user_id platform : string) : gset string :=
  daily_push_users ∖ {[ user_key user_id platform ]}.

Definition is_user_subscribed (daily_push_users : gset string)
    (user_id platform : string) : bool :=
  bool_decide (user_key user_id platform ∈ daily_push_users).

Definition get_daily_push_users (daily_push_users : gset string) : gset string :=
  daily_push_users.

(** [user_key.split(":", 1)] bound to two names: the texts before and after
    the first colon; [None] when there is no colon and the assignment
    raises [ValueError]. *)
Fixpoint split_colon (user_key : string) : option (string * string) :=
  match user_key with
  | EmptyString => None
  | String a rest =>
      if Ascii.eqb a ":" then Some (EmptyString, rest)
      else
        match split_colon rest with
        | Some (platform, user_id) => Some (String a platform, user_id)
        | None => None
        end
  end.

(** A bot, by the one method the scheduler calls. *)
Record Bot := { send_message : string -> string -> M bool }.

Section Push.
(** [bots]: the bots added with [add_bot], by platform. *)
Context (E : Env) (bots : gmap string Bot).

(** [_send_daily_report] *)
Definition _send_daily_report (platform user_id : string) : M unit :=
  try_except
    (match bots !! platform with
     | None => mret tt
     | Some bot =>
         report_content ← _generate_daily_report E user_id;
         _ ← send_message bot user_id report_content;
         mret tt
     end)
    (fun _ => mret tt).

(** The body of the two loops over the subscribers. *)
Definition push_to (user_key : string) : M unit :=
  match split_colon user_key with
  | Some (platform, user_id) => _send_daily_report platform user_id
  | None =>
      raise (PyExn ValueError "not enough values to unpack (expected 2, got 1)")
  end.

(** The loop of [_daily_morning_push] over the subscribers, in the order
    the set hands them out. *)
Fixpoint push_each (subscribers : list string) : M unit :=
  match subscribers with
  | [] => mret tt
  | user_key :: rest =>
      _ ← try_except (push_to user_key) (fun _ => mret tt);
      push_each rest
  end.

(** [_daily_morning_push] *)
Definition _daily_morning_push (subscribers : list string) : M unit :=
  try_except (push_each subscribers) (fun _ => mret tt).

(** The loop of [test_daily_push]: [success_count] after the subscribers
    seen. *)
Fixpoint test_each (subscribers : list string) (success_count : nat) : M nat :=
  match subscribers with
  | [] => mret success_count
  | user_key :: rest =>
      pushed ← try_except (_ ← push_to user_key; mret true) (fun _ => mret false);
      test_each rest (if (pushed : bool) then S success_count else success_count)
  end.

(** [test_daily_push] *)
Definition test_daily_push (subscribers : list string) : M string :=
  try_except
    (match subscribers with
     | [] => mret "⚠️ 暂无订阅用户，无法测试推送功能"
     | _ =>
         success_count ← test_each subscribers 0;
         mret ("✅ 测试完成！成功推送 " ++ pretty success_count ++ "/"
               ++ pretty (length subscribers) ++ " 个用户")
     end)
    (fun e => mret ("❌ 测试推送功能失败: " ++ exn_msg e)).

End Push.
End TaskScheduler.

(* ===================================================================== *)
(** * Concrete environments                                               *)
(* ===================================================================== *)

(** Environments on which the definitions above can be run: an ASCII
    runtime, a fixed clock, a scripted oracle and a record store that keeps
    one list of records per database. *)
Module Example.

Definition lower_ascii (a : ascii) : ascii :=
  let n := N_of_ascii a in
  if ((65 <=? n) && (n <=? 90))%N then ascii_of_N (n + 32) else a.

Fixpoint ascii_lower (s : string) : string :=
  match s with
  | EmptyString => EmptyString
  | String a s' => String (lower_ascii a) (ascii_lower s')
  end.

Definition is_space (a : ascii) : bool :=
  let n := N_of_ascii a in (((9 <=? n) && (n <=? 13)) || (n =? 32))%N.

Fixpoint lstrip (s : string) : string :=
  match s with
  | String a s' => if is_space a then lstrip s' else s
  | EmptyString => EmptyString
  end.

Fixpoint rstrip (s : string) : string :=
  match s with
  | EmptyString => EmptyString
  | String a s' =>
      match rstrip s' with
      | EmptyString => if is_space a then EmptyString else String a EmptyString
      | t => String a t
      end
  end.

Definition ascii_strip (s : string) : string := rstrip (lstrip s).

(** [json.loads] by a table of the texts it is given. *)
Fixpoint table_loads (table : list (string * pyval)) (text : string) : loads_outcome :=
  match table with
  | [] => DecodeError "Expecting value"
  | (t, v) :: table' =>
      if String.eqb t text then Loaded v else table_loads table' text
  end.

Definition dq : string := String (ascii_of_nat 34) EmptyString.

(** A rendering of values that is enough to tell them apart. *)
Fixpoint show (v : pyval) : string :=
  match v with
  | VNone => "null"
  | VBool true => "true"
  | VBool false => "false"
  | VInt z => pretty z
  | VFloat q => pretty (Qnum q) ++ "/" ++ pretty (Zpos (Qden q))
  | VStr s => dq ++ s ++ dq
  | VList l => "[" ++ String.concat ", " (List.map show l) ++ "]"
  | VDict d =>
      "{" ++ String.concat ", "
               (List.map (fun kv => dq ++ fst kv ++ dq ++ ": " ++ show (snd kv)) d)
          ++ "}"
  end.

(** The morning of Wednesday 2024-01-10. *)
Definition a_morning : datetime :=
  {| dt_date := "2024-01-10"; dt_hm := "08:00"; dt_hms := "2024-01-10 08:00:00";
     dt_weekday := Wed; dt_tomorrow := "2024-01-11"; dt_yesterday := "2024-01-09";
     dt_iso := "2024-01-10T00:00:00+00:00"; 
     dt_iso_tomorrow := "2024-01-11T00:00:00+00:00"; dt_timestamp := "1704873600.0" |}.

(** Whether a record passes a filter, with dates compared as ISO texts. *)
Definition date_cond (field : pyval) (cond : string * pyval) : bool :=
  match field, snd cond with
  | VStr d, VStr v =>
      if String.eqb (fst cond) "equals" then String.eqb d v
      else if String.eqb (fst cond) "before" then String.ltb d v
      else if String.eqb (fst cond) "after" then String.ltb v d
      else if String.eqb (fst cond) "on_or_before" then String.leb d v
      else if String.eqb (fst cond) "on_or_after" then String.leb v d
      else false
  | _, _ => false
  end.

Fixpoint passes (f : nfilter) (r : pydict) : bool :=
  match f with
  | FSelect p op v =>
      if String.eqb op "equals" then py_eq (dict_get r p) v
      else negb (py_eq (dict_get r p) v)
  | FDate p conds => forallb (date_cond (dict_get r p)) conds
  | FAnd parts => forallb (fun f' => passes f' r) parts
  end.

Definition limited (limit : pyval) (rs : list pydict) : list pydict :=
  match limit with
  | VInt z => if (0 <? z)%Z then firstn (Z.to_nat z) rs else rs
  | _ => rs
  end.

(** [oracle]: the answers of the oracle; [table]: what [json.loads] reads;
    [store]: the records of each database, kept in the order the handlers
    ask for; [update_ok], [delete_ok]: whether a page can be written.
    Amounts are formatted as whole numbers, a date is any text of ten
    characters, and the arithmetic on floats is exact, as it is on the
    whole numbers of the examples: that is all they need. *)
Definition env (oracle : nat -> prompt -> option string)
    (table : list (string * pyval)) (store : string -> list pydict)
    (update_ok delete_ok : string -> bool) : Env :=
  {| py_lower := ascii_lower;
     py_strip := ascii_strip;
     json_loads := table_loads table;
     json_dumps := show;
     repr_other := show;
     format_2f := fun q => pretty (Qnum q / Zpos (Qden q))%Z ++ ".00";
     float_of_str := fun _ => None;
     float_of_int := fun n => Some (inject_Z n);
     float_add := Qplus;
     float_sub := Qminus;
     strptime_ymd := fun s => Nat.eqb (String.length s) 10;
     parse_date := fun s =>
       if Nat.eqb (String.length s) 10 then Some (s ++ "T00:00:00+00:00") else None;
     clock := fun _ => a_morning;
     gemini_api_key := true;
     notion_token := true;
     generate_content := oracle;
     store_query := fun _ db flt _ limit =>
       limited limit
         (match flt with
          | Some f => List.filter (passes f) (store db)
          | None => store db
          end);
     store_update := fun _ page_id _ => update_ok page_id;
     store_archive := fun _ page_id => delete_ok page_id;
     store_create := fun n _ _ => Some ("page-" ++ pretty n) |}.

Definition unreachable_oracle : nat -> prompt -> option string :=
  fun _ _ => None.

(** An oracle that gives the same answer to every prompt. *)
Definition constant_oracle (answer : string) : nat -> prompt -> option string :=
  fun _ _ => Some answer.

(** An oracle that classifies with [classification] and chats with
    [small_talk]. *)
Definition classifying_oracle (classification small_talk : string)
  : nat -> prompt -> option string :=
  fun _ p =>
    match p with
    | PromptTaskRecognition _ _ => Some classification
    | _ => Some small_talk
    end.

Definition empty_store : string -> list pydict := fun _ => [].

(** A store that holds records in one database only. *)
Definition store_of (database : string) (records : list pydict)
  : string -> list pydict :=
  fun db => if String.eqb db database then records else [].

Definition always (b : bool) : string -> bool := fun _ => b.

(** Three to-do records, two of which have ship in their title. *)
Definition ship_release : pydict :=
  [("id", VStr "p1"); ("标题", VStr "Ship release"); ("状态", VStr "待完成");
   ("优先级", VStr "高"); ("截止日期", VStr "2024-02-01")].

Definition ship_docs : pydict :=
  [("id", VStr "p2"); ("标题", VStr "Ship docs"); ("状态", VStr "进行中");
   ("优先级", VStr "中"); ("截止日期", VNone)].

Definition buy_milk : pydict :=
  [("id", VStr "p3"); ("标题", VStr "Buy milk"); ("状态", VStr "待完成");
   ("优先级", VStr "低"); ("截止日期", VStr "2024-01-10")].

Definition three_todos : list pydict := [ship_release; ship_docs; buy_milk].

(** A record as the store returns it when the page has lost its id. *)
Definition draft_without_id : pydict :=
  [("id", VNone); ("标题", VStr "Draft"); ("状态", VStr "待完成")].

(** An answer of the tie-break that is unsure of itself. *)
Definition unsure_answer : string := "{unsure}".
Definition unsure_choice : pyval :=
  VDict [("selected_index", VInt 0); ("confidence", VFloat (3 # 10));
         ("reason", VStr "guess")].

(** An analysis that names a to-do task with little confidence. *)
Definition hesitant_answer : string := "{hesitant}".
Definition hesitant_analysis : pyval :=
  VDict [("task_type", VStr "todo"); ("confidence", VFloat (3 # 10));
         ("extracted_data", VDict []); ("response_text", VStr "")].

(** An expense booked on 2024-01-02, a week before the morning above. *)
Definition lunch : pydict :=
  [("id", VStr "a1"); ("标题", VStr "Lunch"); ("金额", VInt 50);
   ("类型", VStr "支出"); ("日期", VStr "2024-01-02")].



(** Eleven records whose status is none of the four. *)
Definition archived_todo (i : nat) : pydict :=
  [("id", VStr ("x" ++ pretty i)); ("标题", VStr ("Old " ++ pretty i));
   ("状态", VStr "已归档"); ("优先级", VStr "中");
   ("截止日期", VStr "2023-12-01")].

Definition eleven_archived : list pydict := List.map archived_todo (seq 0 11).

(** Eleven records of one status and priority, the first without a due
    date: the store returns [None] for a date that is not set. *)
Definition same_rank_todo (i : nat) : pydict :=
  [("id", VStr ("s" ++ pretty i)); ("标题", VStr ("Step " ++ pretty i));
   ("状态", VStr "进行中"); ("优先级", VStr "中");
   ("截止日期", VStr ("2024-03-" ++ pretty (10 + i)))].

Definition eleven_mixed : list pydict :=
  ship_docs :: List.map same_rank_todo (seq 0 10).

(** The registry once the to-do class is registered. *)
Definition registry (E : Env) : task_classes := {[ "todo" := TodoTask.task_class E ]}.

(** The environments of the examples. *)
Definition ship_env : Env :=
  env (constant_oracle unsure_answer) [(unsure_answer, unsure_choice)]
    (store_of "todos" three_todos) (always true) (always true).

Definition hesitant_env : Env :=
  env (classifying_oracle hesitant_answer "Hello!")
    [(hesitant_answer, hesitant_analysis)] empty_store (always true) (always true).

Definition offline_env : Env :=
  env unreachable_oracle [] empty_store (always true) (always true).

Definition talkative_env (answer : string) : Env :=
  env (constant_oracle answer) [] empty_store (always true) (always true).

(** The page p2 cannot be archived. *)
Definition stubborn_env (records : list pydict) : Env :=
  env unreachable_oracle [] (store_of "todos" records) (always true)
    (fun page_id => negb (String.eqb page_id "p2")).

Definition lunch_env : Env :=
  env unreachable_oracle [] (store_of "accounting" [lunch]) (always true) (always true).

(** The offline environment without a token for the store. *)
Definition tokenless_env : Env :=
  {| py_lower := py_lower offline_env;
     py_strip := py_strip offline_env;
     json_loads := json_loads offline_env;
     json_dumps := json_dumps offline_env;
     repr_other := repr_other offline_env;
     format_2f := format_2f offline_env;
     float_of_str := float_of_str offline_env;
     float_of_int := float_of_int offline_env;
     float_add := float_add offline_env;
     float_sub := float_sub offline_env;
     strptime_ymd := strptime_ymd offline_env;
     parse_date := parse_date offline_env;
     clock := clock offline_env;
     gemini_api_key := gemini_api_key offline_env;
     notion_token := false;
     generate_content := generate_content offline_env;
     store_query := store_query offline_env;
     store_update := store_update offline_env;
     store_archive := store_archive offline_env;
     store_create := store_create offline_env |}.

(** An analysis that names a to-do task and words its confidence. *)
Definition vague_answer : string := "{vague}".
Definition vague_analysis : pyval :=
  VDict [("task_type", VStr "todo"); ("confidence", VStr "high");
         ("extracted_data", VDict []); ("response_text", VStr "")].

Definition vague_env : Env :=
  env (classifying_oracle vague_answer "Hello!")
    [(vague_answer, vague_analysis)] empty_store (always true) (always true).

(** An analysis of a request to delete one to-do; the store holds three,
    and the page p2 cannot be archived. *)
Definition one_todo_answer : string := "{one}".
Definition one_todo_intent : pyval :=
  VDict [("type", VStr "todo"); ("target", VStr "specific");
         ("conditions", VDict [("title", VStr "milk")])].

Definition eager_env : Env :=
  env (constant_oracle one_todo_answer) [(one_todo_answer, one_todo_intent)]
    (store_of "todos" three_todos) (always true)
    (fun page_id => negb (String.eqb page_id "p2")).

(** A to-do due on the morning above, with the time of day that the store
    gives back for a due date written from a datetime. *)
Definition call_mum : pydict :=
  [("id", VStr "p4"); ("标题", VStr "Call mum"); ("状态", VStr "待完成");
   ("优先级", VStr "中"); ("截止日期", VStr "2024-01-10T00:00:00.000+00:00")].

(** Entries of the execution history: a run of six weeks before the
    morning above, one of the day before, and one whose start time is no
    date. *)
Definition run_started (execution_id start_time : string) : hist_entry :=
  {| execution_id := execution_id; he_task_type := VStr "todo";
     he_user_id := "u1"; task_data := []; start_time := start_time;
     status := "completed"; completed := None |}.

Definition old_run : hist_entry := run_started "u1_todo_1" "2023-12-01T00:00:00+00:00".
Definition recent_run : hist_entry := run_started "u1_todo_2" "2024-01-09T00:00:00+00:00".
Definition unread_run : hist_entry := run_started "u1_todo_3" "yesterday".

Definition with_history (entries : list hist_entry) : St :=
  {| tick := 0; trace := [];
     task_history := list_to_map (List.map (fun e => (execution_id e, e)) entries);
     conversation_contexts := ∅ |}.

(** The seconds since the epoch of the two dates above and of the
    morning. *)
Definition read_iso (text : string) : option Q :=
  if String.eqb text "2023-12-01T00:00:00+00:00" then Some (inject_Z 1701388800)
  else if String.eqb text "2024-01-09T00:00:00+00:00" then Some (inject_Z 1704758400)
  else None.

Definition morning_timestamp (_ : datetime) : Q := inject_Z 1704873600.

End Example.

(* ===================================================================== *)
(** * Vocabulary of the properties                                        *)
(* ===================================================================== *)

Module Spec.

(** The calls to the oracle, the writes and the failed archive calls that
    a trace holds. *)
Definition is_generate (ev : event) : bool :=
  match ev with EvGenerate _ _ => true | _ => false end.

Definition is_write (ev : event) : bool :=
  match ev with
  | EvUpdatePage _ _ _ | EvDeletePage _ _ | EvCreatePage _ _ _ => true
  | _ => false
  end.

Definition is_failed_delete (ev : event) : bool :=
  match ev with EvDeletePage _ false => true | _ => false end.

Definition is_delete (ev : event) : bool :=
  match ev with EvDeletePage _ _ => true | _ => false end.

Definition oracle_calls (tr : list event) : list event := List.filter is_generate tr.
Definition writes (tr : list event) : list event := List.filter is_write tr.
Definition failed_deletes (tr : list event) : nat :=
  length (List.filter is_failed_delete tr).
Definition deletes (tr : list event) : nat := length (List.filter is_delete tr).

(** The pages the store was asked to archive, the latest call first. *)
Definition archived_pages (tr : list event) : list string :=
  flat_map (fun ev => match ev with EvDeletePage page_id _ => [page_id] | _ => [] end)
    tr.

(** A record that carries a usable id. *)
Definition has_id (record : pydict) : bool := truthy (dict_get record "id").

(** The title of a record, as [update_by_name] reads it. *)
Definition title_of (todo : pydict) : pyval := dict_get_or todo "标题" (VStr "").

Definition has_text_title (todo : pydict) : bool :=
  match title_of todo with VStr _ => true | _ => false end.

(** ** The order of the to-do records in a reply *)

(** The rank a table gives to a value, 0 to what it does not list. *)
Definition rank_in (table : list (string * Z)) (v : pyval) : Z :=
  match v with
  | VStr s => default 0%Z (snd <$> List.find (fun kv => String.eqb (fst kv) s) table)
  | _ => 0%Z
  end.

Definition status_rank (x : pydict) : Z :=
  rank_in GeminiClient.status_order (dict_get_or x "状态" (VStr "")).

Definition priority_rank (x : pydict) : Z :=
  rank_in GeminiClient.priority_order (dict_get_or x "优先级" (VStr "")).

(** The due date as a text, that of a record without the field being
    9999-12-31. *)
Definition due_text (x : pydict) : string :=
  match dict_get_or x "截止日期" (VStr "9999-12-31") with
  | VStr d => d
  | _ => ""
  end.

Definition sort_key (x : pydict) : Z * Z * string :=
  (status_rank x, priority_rank x, due_text x).

(** The key as the tuple the code builds. *)
Definition key_value (k : Z * Z * string) : pyval :=
  let '(s, p, d) := k in VList [VInt s; VInt p; VStr d].

Definition keyed (x : pydict) : pyval * pydict := (key_value (sort_key x), x).

(** The lexicographic order of the keys: status rank, then priority rank,
    then due date. *)
Definition key_ltb (a b : Z * Z * string) : bool :=
  let '(s1, p1, d1) := a in
  let '(s2, p2, d2) := b in
  (s1 <? s2)%Z
  || ((s1 =? s2)%Z && ((p1 <? p2)%Z || ((p1 =? p2)%Z && String.ltb d1 d2))).


(** A record whose key can be computed and compared: status and priority
    can be hashed, and the due date, if the field is there, is a text. *)
Definition sortable (x : pydict) : bool :=
  GeminiClient.hashable (dict_get_or x "状态" (VStr ""))
  && GeminiClient.hashable (dict_get_or x "优先级" (VStr ""))
  && match dict_get_or x "截止日期" (VStr "9999-12-31") with
     | VStr _ => true
     | _ => false
     end.

(** The stable descending sort by [sort_key]: a record is put in front of
    the sorted rest, behind the records whose key is larger. *)
Fixpoint insert_by_key (x : pydict) (sorted : list pydict) : list pydict :=
  match sorted with
  | [] => [x]
  | y :: rest =>
      if key_ltb (sort_key x) (sort_key y) then y :: insert_by_key x rest
      else x :: y :: rest
  end.

Fixpoint sort_by_key (items : list pydict) : list pydict :=
  match items with
  | [] => []
  | x :: rest => insert_by_key x (sort_by_key rest)
  end.

(** The status under which the fall-back formatter files a record. *)
Definition filed_status (x : pydict) : pyval := dict_get_or x "状态" (VStr "未知").

(** A record filed under one of the four statuses the formatter prints. *)
Definition known_status (x : pydict) : bool :=
  match filed_status x with
  | VStr st => existsb (String.eqb st) GeminiClient.fallback_status_order
  | _ => false
  end.





(** A computation whose final state stands in relation [R] to the state it
    started from. *)
Definition respects (R : St -> St -> Prop) {A} (m : M A) : Prop :=
  forall s, R s (snd (m s)).

(** The conversation contexts are as they were; the dispatcher's history
    and the contexts are. *)
Definition same_contexts (s s' : St) : Prop :=
  conversation_contexts s' = conversation_contexts s.

Definition same_memory (s s' : St) : Prop :=
  task_history s' = task_history s
  /\ conversation_contexts s' = conversation_contexts s.

(** The trace has only grown: what was logged is still there. *)
Definition trace_grows (s s' : St) : Prop := trace s `suffix_of` trace s'.

(** A handler none of whose operations breaks [R]. *)
Definition handler_respects (R : St -> St -> Prop) (h : Handler) : Prop :=
  (forall d, respects R (validate_data h d))
  /\ (forall d, respects R (execute h d))
  /\ (forall filters, respects R (query h filters))
  /\ respects R (delete_all h)
  /\ (forall task_name new_status new_priority new_date,
        respects R (update_by_name h task_name new_status new_priority new_date)).

(** An entry of the history whose start time is set and lies before
    [cutoff_time], and one whose start time is not set or can be read. *)
Definition started_before (iso_timestamp : string -> option Q) (cutoff_time : Q)
    (task : hist_entry) : bool :=
  negb (String.eqb (start_time task) "")
  && match iso_timestamp (start_time task) with
     | Some started => Qlt_bool started cutoff_time
     | None => false
     end.

Definition readable_start (iso_timestamp : string -> option Q)
    (task : hist_entry) : bool :=
  String.eqb (start_time task) ""
  || match iso_timestamp (start_time task) with
     | Some _ => true
     | None => false
     end.

(** A value that [BaseTask.format_data] keeps: neither [None] nor the
    empty text. *)
Definition kept_value (v : pyval) : bool :=
  negb (py_eq v VNone) && negb (py_eq v (VStr "")).

(** The daily report: a to-do that is neither done nor cancelled, one the
    report lists as of today, and one it lists as overdue. *)
Definition is_open (todo : pydict) : bool :=
  negb (GeminiClient.py_in (dict_get_or todo "状态" (VStr ""))
          [VStr "已完成"; VStr "已取消"]).

Definition listed_today (today_date : string) (todo : pydict) : bool :=
  let due_date := dict_get_or todo "截止日期" (VStr "") in
  is_open todo && (negb (truthy due_date) || py_eq due_date (VStr today_date)).

Definition listed_overdue (today_date : string) (todo : pydict) : bool :=
  let due_date := dict_get_or todo "截止日期" (VStr "") in
  is_open todo && truthy due_date && negb (py_eq due_date (VStr today_date))
  && match due_date with
     | VStr d => String.ltb d today_date
     | _ => false
     end.

(** A record whose due date is a text or is not set. *)
Definition due_is_text_or_unset (todo : pydict) : bool :=
  match dict_get_or todo "截止日期" (VStr "") with
  | VStr _ => true
  | v => negb (truthy v)
  end.

(** The messages kept for a user, none for a user without a context. *)
Definition history_of (s : St) (user_id : string) : list ctx_message :=
  default [] (messages <$> conversation_contexts s !! user_id).

(** A computation whose reply, when it returns one, is not empty. *)
Definition replies_nonempty (m : M string) : Prop :=
  forall s r s', m s = (Ok r, s') -> r <> "".

Section WithEnv.
Context (E : Env).

(** What the store returns to the unfiltered query that [update_by_name]
    and [delete_all] start with, and the state once it has answered. *)
Definition todos_seen (s : St) : list pydict :=
  store_query E (tick s) "todos" None None VNone.

Definition after_query (s : St) : St :=
  snd (NotionClient.query_database E "todos" None None VNone s).

(** The answer of the oracle to the call [analyze_task] makes from state
    [s]: the clock is read first. *)
Definition classification_answer (message : string) (s : St) : option string :=
  generate_content E (S (tick s)) (PromptTaskRecognition (clock E (tick s)) message).

(** No answer of the oracle is blank; an oracle that cannot be reached at
    all is a case of it. *)
Definition answers_not_blank : Prop :=
  forall n p text, generate_content E n p = Some text -> py_strip E text <> "".

Definition oracle_unreachable : Prop :=
  forall n p, generate_content E n p = None.

(** The candidates of a target name, as the specification words them: the
    records whose title, case set aside, is part of the name or has the
    name as a part. *)
Definition is_candidate (name : string) (todo : pydict) : bool :=
  match title_of todo with
  | VStr title =>
      str_contains (py_lower E title) (py_lower E name)
      || str_contains (py_lower E name) (py_lower E title)
  | _ => false
  end.



(** The outline of the fall-back report as the specification words it:
    for each status that has records, in the order of [statuses], the
    heading of the status and then, for each record filed under it, the
    line that gives its title. *)
Definition title_line (x : pydict) : string :=
  "   - 标题：" ++ py_str E (dict_get_or x "标题" (VStr "未知任务")).






(** The data from which the to-do handler creates a record: the title is
    truthy and the due date, if it is a text that is not empty, is a date
    the runtime can read. *)
Definition due_date_reads (data : pydict) : bool :=
  match dict_get data "due_date" with
  | VStr d => String.eqb d "" || match parse_date E d with Some _ => true | None => false end
  | _ => true
  end.

Definition creatable (data : pydict) : bool :=
  truthy (dict_get data "title") && due_date_reads data.

(** The properties [execute] sends to the store for a dictionary. *)
Definition todo_properties (data : pydict) : pydict :=
  ([("标题", dict_get_or data "title" (VStr "未知任务"));
    ("优先级", dict_get_or data "priority" (VStr "中"));
    ("状态", VStr "待完成");
    ("分类", dict_get_or data "category" (VStr "其他"));
    ("描述", dict_get_or data "description" (VStr ""))]
   ++ match dict_get data "due_date" with
      | VStr d =>
          if String.eqb d "" then []
          else match parse_date E d with
               | Some iso => [("截止日期", VStr iso)]
               | None => []
               end
      | _ => []
      end)%list.

(** The line that presents candidate number [i]. *)
Definition candidate_line (i : nat) (task : pydict) : string :=
  pretty i ++ ". " ++ py_str E (dict_get_or task "标题" (VStr ""))
  ++ " (" ++ py_str E (dict_get_or task "状态" (VStr ""))
  ++ ", 截止: " ++ py_str E (dict_get_or task "截止日期" (VStr "")) ++ ")".

End WithEnv.
End Spec.
Export Spec.

(* ===================================================================== *)
(** * Properties                                                          *)
(* ===================================================================== *)

(** ** The dispatcher *)

Section DispatcherProperties.
Context (E : Env) (classes : task_classes).

(** An unregistered type is resolved to no handler. *)
Lemma create_task_unknown (task_type : string) :
  classes !! task_type = None ->
  create_task classes (VStr task_type) = Ok None.
Proof. intros H. unfold create_task. now rewrite H. Qed.

(** C10.  For a task-type string that is not registered, [execute_task]
    returns a failed [TaskResult] carrying the unknown-task-type error and
    leaves the whole state, and so the execution history, as it was: the
    history entry is written only once a handler has been resolved. *)
Theorem execute_task_unknown_type (task_type : string) task_data user_id s :
  classes !! task_type = None ->
  exists r,
    TaskDispatcher.execute_task E classes (VStr task_type) task_data user_id s
      = (Ok r, s)
    /\ success r = false
    /\ error r = Some ("未知的任务类型: " ++ task_type)
    /\ message r = "不支持的任务类型"
    /\ task_history
         (snd (TaskDispatcher.execute_task E classes (VStr task_type)
                 task_data user_id s))
       = task_history s.
Proof.
  intros Hnone.
  assert (Hrun :
    TaskDispatcher.execute_task E classes (VStr task_type) task_data user_id s
    = (Ok (failed ("未知的任务类型: " ++ task_type) "不支持的任务类型"), s)).
  { unfold TaskDispatcher.execute_task, try_except, lift.
    unfold mbind, M_bind.
    now rewrite (create_task_unknown _ Hnone). }
  eexists. rewrite Hrun. repeat split.
Qed.

End DispatcherProperties.

(** ** The to-do handler: updating by name *)

Section TodoProperties.
Context (E : Env).

Lemma query_todos s :
  NotionClient.query_database E "todos" None None VNone s
  = (Ok (todos_seen E s), after_query E s).
Proof. reflexivity. Qed.

Lemma trace_after_query s :
  trace (after_query E s)
  = EvQuery "todos" None None VNone (length (todos_seen E s)) :: trace s.
Proof. reflexivity. Qed.

(** The tie-break helper gives [None] whatever it is called with, and
    without a call to the oracle: building the prompt reads the local name
    [json] before the import that binds it. *)
Lemma select_best_match_none task_name matched new_status new_priority new_date s :
  TodoTask._select_best_match_with_ai E task_name matched
    new_status new_priority new_date s = (Ok None, s).
Proof. reflexivity. Qed.

(** With two candidates or more, [update_by_name] hands the list back. *)
Lemma update_by_name_several task_name new_status new_priority new_date s matched :
  TodoTask.match_tasks E task_name (todos_seen E s) = Ok matched ->
  (2 <= length matched)%nat ->
  TodoTask.update_by_name E task_name new_status new_priority new_date s
  = (Ok (TodoTask.ambiguous E task_name matched), after_query E s).
Proof.
  intros Hmatch Hlen.
  unfold TodoTask.update_by_name, try_except.
  unfold mbind at 1, M_bind at 1. rewrite query_todos.
  destruct (todos_seen E s) as [|todo rest] eqn:Hseen.
  { cbn in Hmatch. injection Hmatch as <-. cbn in Hlen. lia. }
  unfold mbind at 1, M_bind at 1, lift. rewrite Hmatch.
  destruct matched as [|a [|b more]]; cbn in Hlen; try lia.
  unfold mbind at 1, M_bind at 1. rewrite select_best_match_none.
  reflexivity.
Qed.

(** Each candidate has its line in the list, at its place. *)
Lemma task_list_nth matched : forall k i task,
  nth_error matched i = Some task ->
  nth_error (TodoTask.task_list E k matched) i = Some (candidate_line E (k + i) task).
Proof.
  induction matched as [|t rest IH]; intros k [|i] task H; cbn in *; try discriminate.
  - injection H as ->. now rewrite Nat.add_0_r.
  - rewrite (IH (S k) i task H). do 2 f_equal. lia.
Qed.

Lemma task_list_length matched : forall k,
  length (TodoTask.task_list E k matched) = length matched.
Proof. induction matched as [|t rest IH]; intros k; cbn; [reflexivity|now rewrite IH]. Qed.

(** A task comes out of the oracle's answer only if the answer is an object
    whose index lies within the candidates and whose confidence reaches
    0.7. *)
Lemma select_from_response_accepts matched response_text chosen :
  TodoTask.select_from_response E matched response_text = Ok (Some chosen) ->
  exists json_str result i q,
    GeminiClient.json_island response_text = Some json_str
    /\ json_loads E json_str = Loaded (VDict result)
    /\ num_of (dict_get_or result "selected_index" (VInt (-1)))
       = Some (inject_Z (Z.of_nat i))
    /\ (i < length matched)%nat
    /\ nth_error matched i = Some chosen
    /\ num_of (dict_get_or result "confidence" (VFloat 0)) = Some q
    /\ (f_0_7 <= q)%Q.
Proof.
  unfold TodoTask.select_from_response.
  destruct (GeminiClient.json_island response_text) as [json_str|] eqn:Hisland;
    [|discriminate].
  destruct (json_loads E json_str) as [v| |] eqn:Hloads; try discriminate.
  destruct v as [| | | | | |result]; try discriminate.
  set (idx := dict_get_or result "selected_index" (VInt (-1))).
  set (conf := dict_get_or result "confidence" (VFloat 0)).
  intros H.
  assert (Hconf : forall b, py_ge conf (VFloat f_0_7) = Ok b -> b = true ->
                  exists q, num_of conf = Some q /\ (f_0_7 <= q)%Q).
  { intros b Hb ->. unfold py_ge in Hb.
    destruct conf; cbn in Hb; try discriminate;
      injection Hb as Hb; apply Qle_bool_iff in Hb; eauto. }
  assert (Hidx : forall t, TodoTask.list_index matched idx = Ok t ->
                 py_ge idx (VInt 0) = Ok true ->
                 exists i, num_of idx = Some (inject_Z (Z.of_nat i))
                           /\ nth_error matched i = Some t).
  { intros t Ht Hge. destruct idx as [|b|z| | | |]; cbn in Ht; try discriminate.
    - exists (if b then 1 else 0)%nat. split; [now destruct b|].
      destruct (nth_error matched (if b then 1 else 0)%nat); [congruence|discriminate].
    - exists (Z.to_nat z). cbn in Hge. injection Hge as Hge.
      apply Qle_bool_iff in Hge. unfold Qle in Hge. cbn in Hge.
      split; [cbn; do 2 f_equal; lia|].
      destruct (nth_error matched (Z.to_nat z)); [congruence|discriminate]. }
  unfold mbind, Res_bind in H.
  destruct (py_ge idx (VInt 0)) as [[|]|] eqn:Hge; try discriminate.
  destruct (py_lt idx _) as [[|]|] eqn:Hlt; try discriminate.
  destruct (py_ge conf _) as [[|]|] eqn:Hsure; try discriminate.
  destruct (TodoTask.list_index matched idx) as [t|] eqn:Hsel; try discriminate.
  injection H as ->.
  destruct (Hconf true eq_refl eq_refl) as (q & Hq & Hle).
  destruct (Hidx chosen eq_refl eq_refl) as (i & Hi & Hnth).
  exists json_str, result, i, q.
  split; [reflexivity|]. split; [exact Hloads|]. split; [exact Hi|].
  split; [apply nth_error_Some; congruence|]. now repeat split.
Qed.

(** The matching loop computes the candidates of the specification. *)
Lemma match_tasks_candidates name all :
  forallb has_text_title all = true ->
  TodoTask.match_tasks E (VStr name) all = Ok (List.filter (is_candidate E name) all).
Proof.
  induction all as [|todo rest IH]; [reflexivity|].
  cbn [forallb]. intros H. apply andb_true_iff in H as [Htitle Hrest].
  specialize (IH Hrest).
  cbn [TodoTask.match_tasks List.filter].
  unfold is_candidate at 1. fold (title_of todo).
  unfold has_text_title in Htitle.
  destruct (title_of todo) as [| | | |t| |] eqn:Ht; try discriminate.
  cbn [lower_of].
  unfold mbind, Res_bind. rewrite IH.
  rewrite (orb_comm (str_contains (py_lower E t) (py_lower E name))).
  now destruct (_ || _).
Qed.

(** Writing the update consults no oracle. *)
Lemma write_update_no_oracle task_name best new_status new_priority new_date s :
  oracle_calls
    (trace (snd (TodoTask.write_update E task_name best
                   new_status new_priority new_date s)))
  = oracle_calls (trace s).
Proof.
  unfold TodoTask.write_update.
  destruct (negb _); [reflexivity|].
  destruct (_ ++ _)%list; [reflexivity|].
  unfold mbind, M_bind, NotionClient.update_page, external.
  cbn. now destruct (store_update E _ _ _).
Qed.

(** With no candidate, [update_by_name] fails with a not-found error. *)
Lemma update_by_name_none task_name new_status new_priority new_date s :
  TodoTask.match_tasks E task_name (todos_seen E s) = Ok [] ->
  exists r,
    TodoTask.update_by_name E task_name new_status new_priority new_date s
      = (Ok r, after_query E s)
    /\ success r = false
    /\ (error r = Some "任务未找到" \/ error r = Some "没有找到任何任务").
Proof.
  intros Hmatch.
  unfold TodoTask.update_by_name, try_except.
  unfold mbind at 1, M_bind at 1. rewrite query_todos.
  destruct (todos_seen E s) as [|todo rest] eqn:Hseen.
  { eexists. split; [reflexivity|]. split; [reflexivity|]. now right. }
  unfold mbind at 1, M_bind at 1, lift. rewrite Hmatch.
  eexists. split; [reflexivity|]. split; [reflexivity|]. now left.
Qed.

(** With one candidate, [update_by_name] goes on to write into it. *)
Lemma update_by_name_single task_name new_status new_priority new_date s best :
  TodoTask.match_tasks E task_name (todos_seen E s) = Ok [best] ->
  TodoTask.update_by_name E task_name new_status new_priority new_date s
  = TodoTask.write_update E task_name best new_status new_priority new_date
      (after_query E s).
Proof.
  intros Hmatch.
  unfold TodoTask.update_by_name, try_except.
  unfold mbind at 1, M_bind at 1. rewrite query_todos.
  destruct (todos_seen E s) as [|todo rest] eqn:Hseen; [discriminate|].
  unfold mbind at 1, M_bind at 1, lift. rewrite Hmatch.
  destruct (TodoTask.write_update _ _ _ _ _ _ _) as [[r|e] s'] eqn:Hw;
    [reflexivity|].
  exfalso. revert Hw. unfold TodoTask.write_update.
  destruct (negb _); [discriminate|].
  destruct (_ ++ _)%list; [discriminate|].
  unfold mbind, M_bind, NotionClient.update_page, external.
  now destruct (store_update E _ _ _).
Qed.

(** C1.  When the target name matches two records or more, [update_by_name]
    returns a failed result whose message lists every candidate, one line
    each and in order, and the only call it makes to the store is the
    query: nothing is written and no candidate is picked.  This holds
    whatever the tie-break would report, so in particular when its
    confidence is below 0.7 or its index out of range; and an answer of
    the oracle leads to a choice only if its index lies within the
    candidates and its confidence is at least 0.7. *)
Theorem ambiguous_target_is_enumerated
    task_name new_status new_priority new_date s matched :
  TodoTask.match_tasks E task_name (todos_seen E s) = Ok matched ->
  (2 <= length matched)%nat ->
  (exists r s',
     TodoTask.update_by_name E task_name new_status new_priority new_date s
       = (Ok r, s')
     /\ success r = false
     /\ error r = Some "多个匹配任务"
     /\ message r
        = "找到多个包含「" ++ py_str E task_name ++ "」的任务，请明确指定：" ++ nl
          ++ str_join nl (TodoTask.task_list E 1 matched)
     /\ length (TodoTask.task_list E 1 matched) = length matched
     /\ (forall i task,
           nth_error matched i = Some task ->
           nth_error (TodoTask.task_list E 1 matched) i
           = Some (candidate_line E (S i) task))
     /\ writes (trace s') = writes (trace s)
     /\ oracle_calls (trace s') = oracle_calls (trace s))
  /\ (forall response_text chosen,
        TodoTask.select_from_response E matched response_text = Ok (Some chosen) ->
        exists json_str result i q,
          GeminiClient.json_island response_text = Some json_str
          /\ json_loads E json_str = Loaded (VDict result)
          /\ num_of (dict_get_or result "selected_index" (VInt (-1)))
             = Some (inject_Z (Z.of_nat i))
          /\ (i < length matched)%nat
          /\ nth_error matched i = Some chosen
          /\ num_of (dict_get_or result "confidence" (VFloat 0)) = Some q
          /\ (f_0_7 <= q)%Q).
Proof.
  intros Hmatch Hlen. split.
  - exists (TodoTask.ambiguous E task_name matched), (after_query E s).
    split; [now apply update_by_name_several|].
    repeat split.
    + apply task_list_length.
    + intros i task Hnth. apply (task_list_nth matched 1 i task Hnth).
  - intros response_text chosen. apply select_from_response_accepts.
Qed.


(** C2.  The candidates of [update_by_name] are exactly the records whose
    title, in lower case, is part of the lowered target name or has it as a
    part.  With none of them the operation fails with a not-found error;
    with exactly one it goes straight on to write into that record, and
    the oracle is not asked. *)
Theorem fuzzy_resolution (name : string) new_status new_priority new_date s :
  forallb has_text_title (todos_seen E s) = true ->
  let candidates := List.filter (is_candidate E name) (todos_seen E s) in
  TodoTask.match_tasks E (VStr name) (todos_seen E s) = Ok candidates
  /\ (candidates = [] ->
      exists r,
        TodoTask.update_by_name E (VStr name) new_status new_priority new_date s
          = (Ok r, after_query E s)
        /\ success r = false
        /\ (error r = Some "任务未找到" \/ error r = Some "没有找到任何任务"))
  /\ (forall best,
        candidates = [best] ->
        TodoTask.update_by_name E (VStr name) new_status new_priority new_date s
        = TodoTask.write_update E (VStr name) best new_status new_priority new_date
            (after_query E s)
        /\ oracle_calls
             (trace (snd (TodoTask.update_by_name E (VStr name)
                            new_status new_priority new_date s)))
           = oracle_calls (trace s)).
Proof.
  intros Htitles candidates.
  pose proof (match_tasks_candidates name _ Htitles) as Hmatch.
  fold candidates in Hmatch.
  split; [exact Hmatch|]. split.
  - intros Hnone. rewrite Hnone in Hmatch. now apply update_by_name_none.
  - intros best Hone. rewrite Hone in Hmatch.
    rewrite (update_by_name_single _ _ _ _ _ _ Hmatch).
    split; [reflexivity|]. now rewrite write_update_no_oracle.
Qed.

End TodoProperties.

(** ** The to-do handler: deleting everything *)

Section DeleteAllProperties.
Context (E : Env).

(** The loop of [delete_all] never raises; it makes one archive call per
    record that has an id and counts each call in one of its counters. *)
Lemma delete_each_counts all_todos : forall deleted_count failed_count s,
  exists d f s',
    TodoTask.delete_each E all_todos deleted_count failed_count s = (Ok (d, f), s')
    /\ (d + f = deleted_count + failed_count + length (List.filter has_id all_todos))%nat
    /\ (failed_count <= f)%nat
    /\ failed_deletes (trace s') = (failed_deletes (trace s) + (f - failed_count))%nat
    /\ deletes (trace s') = (deletes (trace s) + length (List.filter has_id all_todos))%nat.
Proof.
  induction all_todos as [|todo rest IH]; intros dc fc s.
  - exists dc, fc, s. cbn. repeat split; lia.
  - cbn [TodoTask.delete_each List.filter]. fold (has_id todo).
    destruct (has_id todo) eqn:Hid.
    + unfold mbind at 1, M_bind at 1, NotionClient.delete_page, external.
      set (page := py_str E (dict_get todo "id")).
      destruct (store_archive E (tick s) page) eqn:Hok.
      * match goal with
        | |- context [TodoTask.delete_each E rest (S dc) fc ?s1] =>
            destruct (IH (S dc) fc s1) as (d & f & s' & Hrun & Hsum & Hle & Hfail & Hdel)
        end.
        exists d, f, s'. split; [exact Hrun|].
        cbn [trace failed_deletes deletes] in Hfail, Hdel.
        unfold failed_deletes, deletes in *. cbn in Hfail, Hdel |- *.
        repeat split; lia.
      * match goal with
        | |- context [TodoTask.delete_each E rest dc (S fc) ?s1] =>
            destruct (IH dc (S fc) s1) as (d & f & s' & Hrun & Hsum & Hle & Hfail & Hdel)
        end.
        exists d, f, s'. split; [exact Hrun|].
        unfold failed_deletes, deletes in *. cbn in Hfail, Hdel |- *.
        repeat split; lia.
    + destruct (IH dc fc s) as (d & f & s' & Hrun & Hsum & Hle & Hfail & Hdel).
      exists d, f, s'. repeat split; assumption.
Qed.

(** The archive calls of the loop: one for each record that has an id, in
    the order of the records, and none for a record without. *)
Lemma delete_each_archives all_todos : forall deleted_count failed_count s,
  archived_pages
    (trace (snd (TodoTask.delete_each E all_todos deleted_count failed_count s)))
  = (rev (List.map (fun todo => py_str E (dict_get todo "id"))
            (List.filter has_id all_todos))
     ++ archived_pages (trace s))%list.
Proof.
  induction all_todos as [|todo rest IH]; intros dc fc s; [reflexivity|].
  cbn [TodoTask.delete_each List.filter]. fold (has_id todo).
  destruct (has_id todo) eqn:Hid; [|apply IH].
  unfold mbind at 1, M_bind at 1, NotionClient.delete_page, external.
  cbn [List.map rev]. rewrite <- app_assoc. cbn [app].
  destruct (store_archive E (tick s) (py_str E (dict_get todo "id")));
    rewrite IH; reflexivity.
Qed.

Lemma filter_all_length {A} (p : A -> bool) (l : list A) :
  forallb p l = true -> length (List.filter p l) = length l.
Proof.
  induction l as [|x l IH]; cbn; [reflexivity|].
  intros H. apply andb_true_iff in H as [Hx Hl]. rewrite Hx. cbn. now rewrite IH.
Qed.

(** What [delete_all] returns on a collection that is not empty. *)
Lemma delete_all_nonempty s :
  todos_seen E s <> [] ->
  exists d f s',
    TodoTask.delete_each E (todos_seen E s) 0 0 (after_query E s) = (Ok (d, f), s')
    /\ TodoTask.delete_all E s
       = (Ok (if (f =? 0)%nat
              then succeeded [("deleted_count", VInt (Z.of_nat d))]
                     ("已成功删除 " ++ pretty d ++ " 条待办事项")
              else succeeded [("deleted_count", VInt (Z.of_nat d));
                              ("failed_count", VInt (Z.of_nat f))]
                     ("删除了 " ++ pretty d ++ " 条待办事项，"
                      ++ pretty f ++ " 条删除失败")), s').
Proof.
  intros Hne.
  destruct (delete_each_counts (todos_seen E s) 0 0 (after_query E s))
    as (d & f & s' & Hrun & _).
  exists d, f, s'. split; [exact Hrun|].
  unfold TodoTask.delete_all, try_except.
  unfold mbind at 1, M_bind at 1. rewrite query_todos.
  destruct (todos_seen E s) as [|todo rest] eqn:Hseen; [congruence|].
  unfold mbind, M_bind. rewrite Hrun. now destruct (f =? 0)%nat.
Qed.

(** C6.  On an empty collection [delete_all] succeeds with
    [deleted_count] 0.  It never reports a failure, however many archive
    calls fail.  On N records that all carry an id, if exactly one archive
    call fails it succeeds with [deleted_count] N-1 and [failed_count] 1.
    A record without an id is skipped: the archive calls are those for the
    records that have an id, one each in the order of the collection, and
    the two counters add up to the number of these records,
    [failed_count] being the number of the calls that failed. *)
Theorem delete_all_counts s :
  (todos_seen E s = [] ->
   TodoTask.delete_all E s
   = (Ok (succeeded [("deleted_count", VInt 0)] "没有待办事项需要删除"),
      after_query E s))
  /\ (exists r s', TodoTask.delete_all E s = (Ok r, s') /\ success r = true)
  /\ (forallb has_id (todos_seen E s) = true ->
      failed_deletes (trace (snd (TodoTask.delete_all E s)))
      = S (failed_deletes (trace s)) ->
      exists r s',
        TodoTask.delete_all E s = (Ok r, s')
        /\ success r = true
        /\ data r
           = [("deleted_count", VInt (Z.of_nat (length (todos_seen E s) - 1)));
              ("failed_count", VInt 1)])
  /\ (exists r s' deleted_count failed_count,
        TodoTask.delete_all E s = (Ok r, s')
        /\ archived_pages (trace s')
           = (rev (List.map (fun todo => py_str E (dict_get todo "id"))
                     (List.filter has_id (todos_seen E s)))
              ++ archived_pages (trace s))%list
        /\ (deleted_count + failed_count)%nat
           = length (List.filter has_id (todos_seen E s))
        /\ failed_deletes (trace s')
           = (failed_deletes (trace s) + failed_count)%nat
        /\ dict_get (data r) "deleted_count" = VInt (Z.of_nat deleted_count)
        /\ dict_lookup (data r) "failed_count"
           = (if (failed_count =? 0)%nat then None
              else Some (VInt (Z.of_nat failed_count)))).
Proof.
  assert (Hempty : todos_seen E s = [] ->
    TodoTask.delete_all E s
    = (Ok (succeeded [("deleted_count", VInt 0)] "没有待办事项需要删除"),
       after_query E s)).
  { intros Hnil. unfold TodoTask.delete_all, try_except.
    unfold mbind at 1, M_bind at 1. rewrite query_todos. now rewrite Hnil. }
  split; [exact Hempty|].
  destruct (todos_seen E s) as [|todo rest] eqn:Hseen.
  { rewrite (Hempty eq_refl). split; [eauto|]. split.
    - intros _ Hfail. cbn in Hfail. unfold failed_deletes in Hfail. cbn in Hfail. lia.
    - exists (succeeded [("deleted_count", VInt 0)] "没有待办事项需要删除"),
        (after_query E s), 0%nat, 0%nat.
      repeat split; try reflexivity.
      unfold failed_deletes. cbn. lia. }
  assert (Hne : todos_seen E s <> []) by (rewrite Hseen; discriminate).
  destruct (delete_all_nonempty s Hne) as (d & f & s' & Hrun & Hall).
  destruct (delete_each_counts (todos_seen E s) 0 0 (after_query E s))
    as (d0 & f0 & s0 & Hrun0 & Hsum & _ & Hfail & _).
  rewrite Hrun in Hrun0. injection Hrun0 as <- <- <-.
  pose proof (delete_each_archives (todos_seen E s) 0 0 (after_query E s)) as Harch.
  rewrite Hrun in Harch. cbn [snd] in Harch.
  rewrite Hall. split; [|split].
  - destruct (f =? 0)%nat; eauto.
  - intros Hids Hone. cbn [snd] in Hone.
    rewrite <- Hseen in Hids. rewrite (filter_all_length _ _ Hids) in Hsum.
    rewrite Hfail in Hone. unfold failed_deletes in Hone. cbn in Hone.
    assert (Hf : f = 1%nat) by lia. subst f. cbn [Nat.eqb].
    eexists _, _. split; [reflexivity|]. split; [reflexivity|].
    cbn [data succeeded]. rewrite Hseen in Hsum. do 4 f_equal. cbn [length] in *. lia.
  - eexists _, s', d, f. split; [reflexivity|].
    rewrite <- Hseen. split; [exact Harch|]. split; [lia|].
    split; [rewrite Hfail; unfold failed_deletes; cbn; lia|].
    destruct (f =? 0)%nat; split; reflexivity.
Qed.

End DeleteAllProperties.

(** ** Classification and routing *)

(** Sequencing after a step that returns, and after one that raises. *)
Lemma bind_ok {A B} (m : M A) (f : A -> M B) s a s' :
  m s = (Ok a, s') -> (m ≫= f) s = f a s'.
Proof. intros H. unfold mbind, M_bind. now rewrite H. Qed.

Lemma bind_raise {A B} (m : M A) (f : A -> M B) s e s' :
  m s = (Raise e, s') -> (m ≫= f) s = (Raise e, s').
Proof. intros H. unfold mbind, M_bind. now rewrite H. Qed.

Ltac step_with H := erewrite bind_ok; [|exact H].
Ltac step := erewrite bind_ok; [|reflexivity].

(** A [try] whose handler returns a value cannot raise. *)
Lemma try_except_total {A} (body : M A) (h : exn -> A) s :
  exists a s', try_except body (fun e => mret (h e)) s = (Ok a, s').
Proof.
  unfold try_except. destruct (body s) as [[a|e] s']; eauto.
Qed.

Lemma try_except_ok {A} (body : M A) (h : exn -> M A) s a s' :
  body s = (Ok a, s') -> try_except body h s = (Ok a, s').
Proof. intros H. unfold try_except. now rewrite H. Qed.

Lemma try_except_raise {A} (body : M A) (h : exn -> M A) s e s' :
  body s = (Raise e, s') -> try_except body h s = h e s'.
Proof. intros H. unfold try_except. now rewrite H. Qed.

Section PipelineProperties.
Context (E : Env) (classes : task_classes) (scheduler : bool).

(** [analyze_task], case by case on the oracle's answer. *)
Lemma analyze_task_cases message s :
  match classification_answer E message s with
  | None => fst (GeminiClient.analyze_task E message s) = Ok GeminiClient.failed_analysis
  | Some text =>
      match GeminiClient.json_island (py_strip E text) with
      | None =>
          fst (GeminiClient.analyze_task E message s)
          = Ok (GeminiClient.unparsed_analysis (py_strip E text))
      | Some json_str =>
          match json_loads E json_str with
          | Loaded (VDict result) =>
              fst (GeminiClient.analyze_task E message s) = Ok result
          | DecodeError _ =>
              fst (GeminiClient.analyze_task E message s)
              = Ok (GeminiClient.unparsed_analysis (py_strip E text))
          | _ =>
              fst (GeminiClient.analyze_task E message s)
              = Ok GeminiClient.failed_analysis
          end
      end
  end.
Proof.
  unfold classification_answer, GeminiClient.analyze_task, try_except,
    GeminiClient.generate, now, external, mbind, M_bind, mret, M_ret, raise. cbn.
  destruct (generate_content E _ _) as [text|]; [|reflexivity]. cbn.
  destruct (GeminiClient.json_island _) as [json_str|]; [|reflexivity].
  destruct (json_loads E json_str) as [v| |]; try reflexivity.
  now destruct v.
Qed.

(** C5.  [analyze_task] never raises.  When the call to the oracle
    fails, or loading the JSON island of its answer raises anything other
    than a decode error, it returns the chat analysis with confidence 0.5
    and a fixed reply text.  When the answer holds no JSON island, or the
    island does not decode, it returns the chat analysis with confidence
    0.8 whose reply text is the oracle's own answer, stripped.  Both
    confidences lie between 0.5 and 0.8. *)
Theorem analyze_task_falls_back_to_chat message s :
  (exists analysis s', GeminiClient.analyze_task E message s = (Ok analysis, s'))
  /\ (classification_answer E message s = None ->
      fst (GeminiClient.analyze_task E message s)
      = Ok [("task_type", VStr "chat"); ("confidence", VFloat f_0_5);
            ("extracted_data", VDict []);
            ("response_text", VStr "我理解了您的消息，让我来帮您处理。")])
  /\ (forall text,
        classification_answer E message s = Some text ->
        (GeminiClient.json_island (py_strip E text) = None
         \/ exists json_str msg,
              GeminiClient.json_island (py_strip E text) = Some json_str
              /\ json_loads E json_str = DecodeError msg) ->
        fst (GeminiClient.analyze_task E message s)
        = Ok [("task_type", VStr "chat"); ("confidence", VFloat f_0_8);
              ("extracted_data", VDict []);
              ("response_text", VStr (py_strip E text))])
  /\ (forall text json_str e,
        classification_answer E message s = Some text ->
        GeminiClient.json_island (py_strip E text) = Some json_str ->
        json_loads E json_str = LoadsRaises e ->
        fst (GeminiClient.analyze_task E message s)
        = Ok [("task_type", VStr "chat"); ("confidence", VFloat f_0_5);
              ("extracted_data", VDict []);
              ("response_text", VStr "我理解了您的消息，让我来帮您处理。")])
  /\ (f_0_5 <= f_0_5 <= f_0_8)%Q /\ (f_0_5 <= f_0_8 <= f_0_8)%Q.
Proof.
  split; [apply try_except_total|].
  pose proof (analyze_task_cases message s) as Hcases.
  split; [|split; [|split]].
  - intros Hnone. now rewrite Hnone in Hcases.
  - intros text Hsome Hbad. rewrite Hsome in Hcases.
    destruct Hbad as [Hnone|(json_str & msg & Hisland & Hdecode)].
    + now rewrite Hnone in Hcases.
    + now rewrite Hisland, Hdecode in Hcases.
  - intros text json_str e Hsome Hisland Hraises.
    now rewrite Hsome, Hisland, Hraises in Hcases.
  - unfold f_0_5, f_0_8, Qle; cbn; lia.
Qed.

(** Updating the conversation context cannot raise. *)
Lemma update_context_ok user_id message analysis s :
  exists s',
    MessageProcessor._update_conversation_context E user_id message analysis s
    = (Ok tt, s').
Proof.
  unfold MessageProcessor._update_conversation_context, get_state, now, external,
    set_conversation_contexts, mbind, M_bind, mret, M_ret.
  destruct (conversation_contexts s !! user_id); cbn; eauto.
Qed.

(** Handling a message as chat cannot raise. *)
Lemma handle_chat_ok message ctx s :
  exists r s', MessageProcessor._handle_chat E scheduler message ctx s = (Ok r, s').
Proof. apply try_except_total. Qed.

(** A number below 0.6 compares as such. *)
Lemma py_lt_below confidence q :
  num_of confidence = Some q -> (q < f_0_6)%Q ->
  py_lt confidence (VFloat f_0_6) = Ok true.
Proof.
  intros Hnum Hlt.
  assert (Hb : Qlt_bool q f_0_6 = true).
  { unfold Qlt_bool. apply negb_true_iff. apply not_true_iff_false.
    intros Hle. apply Qle_bool_iff in Hle. now apply Qlt_not_le in Hlt. }
  destruct confidence; cbn in Hnum; try discriminate;
    injection Hnum as <-; cbn; now rewrite Hb.
Qed.

(** C3.  When the analysis of a message carries a confidence below 0.6,
    [process_message] handles the message as chat, whatever task type the
    analysis names: its reply and final state are those of [_handle_chat],
    run with the context read at the start, after the context update. *)
Theorem low_confidence_routes_to_chat message user_id platform s analysis s1 q :
  GeminiClient.analyze_task E message s = (Ok analysis, s1) ->
  num_of (dict_get_or analysis "confidence" (VFloat 0)) = Some q ->
  (q < f_0_6)%Q ->
  MessageProcessor.process_message E classes scheduler message user_id platform s
  = MessageProcessor._handle_chat E scheduler message
      (context <$> conversation_contexts s !! user_id)
      (snd (MessageProcessor._update_conversation_context E user_id message
              analysis s1)).
Proof.
  intros Hanalysis Hnum Hlow.
  destruct (update_context_ok user_id message analysis s1) as (s2 & Hupd).
  rewrite Hupd. cbn [snd].
  destruct (handle_chat_ok message (context <$> conversation_contexts s !! user_id) s2)
    as (r & s3 & Hchat).
  rewrite Hchat.
  unfold MessageProcessor.process_message.
  apply try_except_ok.
  unfold MessageProcessor._get_conversation_context.
  step. step_with Hanalysis. step_with Hupd.
  unfold MessageProcessor.route.
  rewrite (bind_ok _ _ s2 true s2); [exact Hchat|].
  destruct (py_eq _ _); [reflexivity|].
  unfold lift. now rewrite (py_lt_below _ _ Hnum Hlow).
Qed.

(** *** Replies are not empty *)

Lemma ne_ret (r : string) : r <> "" -> replies_nonempty (mret r).
Proof. intros Hr s r' s' H. injection H as <- _. exact Hr. Qed.

Lemma ne_bind {A} (m : M A) (f : A -> M string) :
  (forall a, replies_nonempty (f a)) -> replies_nonempty (m ≫= f).
Proof.
  intros Hf s r s'. unfold mbind, M_bind.
  destruct (m s) as [[a|e] s1]; [apply Hf|discriminate].
Qed.

Lemma ne_try (body : M string) (h : exn -> M string) :
  replies_nonempty body -> (forall e, replies_nonempty (h e)) ->
  replies_nonempty (try_except body h).
Proof.
  intros Hb Hh s r s'. unfold try_except.
  destruct (body s) as [[a|e] s1] eqn:Hrun.
  - intros H. injection H as <- <-. exact (Hb _ _ _ Hrun).
  - apply Hh.
Qed.

Lemma ne_lift (x : Res string) :
  (forall r, x = Ok r -> r <> "") -> replies_nonempty (lift x).
Proof. intros Hx s r s' H. injection H as H _. now apply Hx. Qed.

Ltac literal := apply ne_ret; cbn; discriminate.

Section NotBlank.
Hypothesis Hanswers : answers_not_blank E.

Lemma ne_generate_strip p :
  replies_nonempty (GeminiClient.generate E p ≫= fun response => mret (py_strip E response)).
Proof.
  intros s r s'.
  unfold GeminiClient.generate, external, mbind, M_bind, mret, M_ret, raise. cbn.
  destruct (generate_content E (tick s) p) as [text|] eqn:Hgen; [|discriminate].
  intros H. injection H as <- _. exact (Hanswers _ _ _ Hgen).
Qed.

Lemma ne_chat message ctx : replies_nonempty (GeminiClient.chat E message ctx).
Proof.
  apply ne_try; [apply ne_generate_strip|]. intros _. literal.
Qed.

Lemma ne_handle_chat message ctx :
  replies_nonempty (MessageProcessor._handle_chat E scheduler message ctx).
Proof.
  apply ne_try; [|intros _; literal].
  repeat match goal with
         | |- replies_nonempty (if ?b then _ else _) => destruct b
         end; try literal; apply ne_chat.
Qed.

Lemma ne_smart_reply message result :
  replies_nonempty (GeminiClient.generate_smart_reply E message result).
Proof.
  apply ne_try; [apply ne_generate_strip|]. intros _. literal.
Qed.

Lemma ne_handle_task task_type message analysis user_id :
  replies_nonempty
    (MessageProcessor._handle_task E classes task_type message analysis user_id).
Proof.
  apply ne_try.
  - apply ne_bind. intros extracted. apply ne_bind. intros result.
    destruct (success result); [apply ne_smart_reply|literal].
  - intros _. apply ne_bind. intros task_name. literal.
Qed.

Lemma str_join_starts (first : string) rest :
  first <> "" -> str_join nl (first :: rest) <> "".
Proof.
  intros Hfirst. unfold str_join. cbn [String.concat].
  destruct rest; [exact Hfirst|].
  destruct first; [congruence|]. cbn. discriminate.
Qed.

Lemma fallback_nonempty results query_type total_count r :
  GeminiClient._format_query_results_fallback E results query_type total_count = Ok r ->
  r <> "".
Proof.
  unfold GeminiClient._format_query_results_fallback.
  destruct results as [|x rest].
  { intros H. injection H as <-. cbn. discriminate. }
  unfold mbind, Res_bind.
  destruct (if py_eq query_type (VStr "待办事项") then _ else _) as [body|e];
    [|discriminate].
  intros H. injection H as <-. apply str_join_starts. cbn. discriminate.
Qed.

Lemma ne_query_response query_results query_type :
  replies_nonempty (GeminiClient.generate_query_response E query_results query_type).
Proof.
  unfold GeminiClient.generate_query_response.
  destruct query_results as [|x rest]; [literal|].
  apply ne_bind. intros displayed.
  apply ne_try; [apply ne_generate_strip|].
  intros _. apply ne_lift. apply fallback_nonempty.
Qed.

Lemma ne_handle_query message analysis user_id :
  replies_nonempty (MessageProcessor._handle_query E classes message analysis user_id).
Proof.
  apply ne_try; [|intros _; literal].
  apply ne_bind. intros analysed. apply ne_bind. intros query_intent.
  apply ne_bind. intros result.
  destruct (success result); [|literal].
  apply ne_bind. intros query_results. apply ne_bind. intros shown.
  apply ne_query_response.
Qed.

Lemma ne_handle_delete message analysis user_id :
  replies_nonempty (MessageProcessor._handle_delete E classes message analysis user_id).
Proof.
  apply ne_try; [|intros _; literal].
  apply ne_bind. intros analysed.
  destruct (MessageProcessor.no_intent analysed); [literal|].
  apply ne_bind. intros delete_intent. apply ne_bind. intros result.
  destruct (success result); [|literal].
  apply ne_bind. intros shown. literal.
Qed.

Lemma ne_handle_update message analysis user_id :
  replies_nonempty (MessageProcessor._handle_update E classes message analysis user_id).
Proof.
  apply ne_try; [|intros _; literal].
  apply ne_bind. intros analysed.
  destruct (MessageProcessor.no_intent analysed); [literal|].
  apply ne_bind. intros update_intent. cbv zeta.
  destruct (negb _); [literal|].
  apply ne_bind. intros result.
  destruct (success result); [|literal].
  repeat match goal with
         | |- replies_nonempty (if ?b then _ else _) => destruct b
         end; literal.
Qed.

Lemma ne_process_message message user_id platform :
  replies_nonempty
    (MessageProcessor.process_message E classes scheduler message user_id platform).
Proof.
  apply ne_try; [|intros _; literal].
  apply ne_bind. intros ctx. apply ne_bind. intros analysis.
  apply ne_bind. intros _. unfold MessageProcessor.route.
  apply ne_bind. intros low.
  repeat match goal with
         | |- replies_nonempty (if ?b then _ else _) => destruct b
         end;
    auto using ne_handle_chat, ne_handle_task, ne_handle_query,
      ne_handle_delete, ne_handle_update.
Qed.

End NotBlank.

Lemma unreachable_not_blank : oracle_unreachable E -> answers_not_blank E.
Proof. intros Hnone n p text H. now rewrite Hnone in H. Qed.

(** C4.  [process_message] never raises: for every message, user
    and platform it returns a reply, any exception of the pipeline having
    been turned into text.  The reply is not empty as long as the oracle
    returns no blank answer, and so in particular when every call to the
    oracle fails. *)
Theorem process_message_absorbs_failures message user_id platform s :
  (exists reply s',
     MessageProcessor.process_message E classes scheduler message user_id platform s
     = (Ok reply, s'))
  /\ (answers_not_blank E ->
      forall reply s',
        MessageProcessor.process_message E classes scheduler message user_id
          platform s = (Ok reply, s') ->
        reply <> "")
  /\ (oracle_unreachable E ->
      forall reply s',
        MessageProcessor.process_message E classes scheduler message user_id
          platform s = (Ok reply, s') ->
        reply <> "").
Proof.
  split; [apply try_except_total|]. split.
  - intros Hanswers reply s'. apply (ne_process_message Hanswers).
  - intros Hnone reply s'.
    apply (ne_process_message (unreachable_not_blank Hnone)).
Qed.

End PipelineProperties.

(** ** Replies to queries: the order of the records *)

(** The order of texts is a strict total order. *)
Lemma ascii_compare_lt_trans a b c :
  Ascii.compare a b = Lt -> Ascii.compare b c = Lt -> Ascii.compare a c = Lt.
Proof.
  unfold Ascii.compare. rewrite !N.compare_lt_iff. apply N.lt_trans.
Qed.

Lemma string_compare_lt_trans a : forall b c,
  String.compare a b = Lt -> String.compare b c = Lt -> String.compare a c = Lt.
Proof.
  induction a as [|x a IH]; intros [|y b] [|z c]; cbn; try discriminate; try reflexivity.
  destruct (Ascii.compare x y) eqn:Hxy; try discriminate;
    destruct (Ascii.compare y z) eqn:Hyz; try discriminate; intros Hab Hbc.
  - apply Ascii.compare_eq_iff in Hxy, Hyz. subst.
    assert (Hzz : Ascii.compare z z = Eq).
    { unfold Ascii.compare. apply N.compare_refl. }
    rewrite Hzz. now apply (IH b c).
  - apply Ascii.compare_eq_iff in Hxy. subst. now rewrite Hyz.
  - apply Ascii.compare_eq_iff in Hyz. subst. now rewrite Hxy.
  - now rewrite (ascii_compare_lt_trans _ _ _ Hxy Hyz).
Qed.


Lemma string_ltb_negtrans a b c :
  String.ltb a b = false -> String.ltb b c = false -> String.ltb a c = false.
Proof.
  unfold String.ltb. intros Hab Hbc.
  destruct (String.compare a c) eqn:Hac; try reflexivity. exfalso.
  destruct (String.compare a b) eqn:Hcab; try discriminate.
  - apply String.compare_eq_iff in Hcab. subst. now rewrite Hac in Hbc.
  - assert (Hba : String.compare b a = Lt).
    { rewrite String.compare_antisym, Hcab. reflexivity. }
    now rewrite (string_compare_lt_trans _ _ _ Hba Hac) in Hbc.
Qed.


Lemma key_ltb_negtrans a b c :
  key_ltb a b = false -> key_ltb b c = false -> key_ltb a c = false.
Proof.
  destruct a as [[s1 p1] d1], b as [[s2 p2] d2], c as [[s3 p3] d3]. unfold key_ltb.
  destruct (Z.ltb_spec s1 s2), (Z.eqb_spec s1 s2); try lia; cbn; try congruence;
    destruct (Z.ltb_spec s2 s3), (Z.eqb_spec s2 s3); try lia; cbn; try congruence;
    destruct (Z.ltb_spec s1 s3), (Z.eqb_spec s1 s3); try lia; cbn; try congruence.
  destruct (Z.ltb_spec p1 p2), (Z.eqb_spec p1 p2); try lia; cbn; try congruence;
    destruct (Z.ltb_spec p2 p3), (Z.eqb_spec p2 p3); try lia; cbn; try congruence;
    destruct (Z.ltb_spec p1 p3), (Z.eqb_spec p1 p3); try lia; cbn; try congruence.
  apply string_ltb_negtrans.
Qed.






(** The sort is stable: the records of one key keep their order. *)
Lemma insert_by_key_stable k x sorted :
  List.filter (fun y => negb (key_ltb (sort_key y) k) && negb (key_ltb k (sort_key y)))
    (insert_by_key x sorted)
  = List.filter (fun y => negb (key_ltb (sort_key y) k) && negb (key_ltb k (sort_key y)))
      (x :: sorted).
Proof.
  induction sorted as [|y rest IH]; [reflexivity|].
  cbn [insert_by_key].
  destruct (key_ltb (sort_key x) (sort_key y)) eqn:Hlt; [|reflexivity].
  cbn [List.filter] in *. rewrite IH.
  destruct (negb (key_ltb (sort_key x) k) && negb (key_ltb k (sort_key x))) eqn:Hx;
    [|reflexivity].
  destruct (negb (key_ltb (sort_key y) k) && negb (key_ltb k (sort_key y))) eqn:Hy;
    [|reflexivity].
  exfalso.
  apply andb_true_iff in Hx as [Hx1 Hx2], Hy as [Hy1 Hy2].
  apply negb_true_iff in Hx1, Hx2, Hy1, Hy2.
  pose proof (key_ltb_negtrans _ _ _ Hx1 Hy2) as Hxy. congruence.
Qed.

Lemma sort_by_key_stable k items :
  List.filter (fun y => negb (key_ltb (sort_key y) k) && negb (key_ltb k (sort_key y)))
    (sort_by_key items)
  = List.filter (fun y => negb (key_ltb (sort_key y) k) && negb (key_ltb k (sort_key y)))
      items.
Proof.
  induction items as [|x rest IH]; [reflexivity|].
  cbn [sort_by_key]. rewrite insert_by_key_stable. cbn [List.filter]. now rewrite IH.
Qed.











(** ** Replies to queries: the fall-back report *)




Section FallbackProperties.
Context (E : Env).





Lemma append_cons a (s t : string) : String a s ++ t = String a (s ++ t).
Proof. reflexivity. Qed.

Lemma append_nil (t : string) : "" ++ t = t.
Proof. reflexivity. Qed.

















End FallbackProperties.





Section QueryReplyProperties.
Context (E : Env).







End QueryReplyProperties.

(** ** The daily report *)

(** C8.  The report asked for on 2024-01-10, with no to-do record and one
    expense booked on 2024-01-02: no accounting record is dated
    2024-01-09, yet the section on yesterday counts the expense, since
    [AccountingTask.query] does not read the key under which the date is
    passed. *)
Theorem daily_report_counts_older_records :
  let E := Example.lunch_env in
  let report :=
    str_join nl
      ["【早安】早安！新的一天开始了，愿您工作顺利，心情愉快！";
       "今天是 2024-01-10 周三";
       "";
       "【昨日收支】";
       "支出：50.00元 | 净支出：50.00元 | 共 1 笔记录";
       "";
       "【今日待办】";
       "今日暂无特定截止日期的任务";
       "";
       "祝您今天工作顺利，心情愉快！"] in
  store_query E 0 "todos" None None VNone = []
  /\ List.filter (fun r => py_eq (dict_get r "日期") (VStr (dt_yesterday Example.a_morning)))
       (store_query E 0 "accounting" None None VNone) = []
  /\ fst (TaskScheduler.send_manual_daily_report E "synology_chat" "u1" initial_state)
     = Ok report
  /\ str_contains TaskScheduler.no_financial_records report = false.
Proof. vm_compute. repeat split. Qed.

(** With no record in either collection the report has the greeting and
    both phrases. *)
Lemma daily_report_of_empty_store :
  fst (TaskScheduler.send_manual_daily_report Example.offline_env
         "synology_chat" "u1" initial_state)
  = Ok (str_join nl
          ["【早安】" ++ TaskScheduler.default_greeting;
           "今天是 2024-01-10 周三";
           "";
           "【昨日收支】";
           TaskScheduler.no_financial_records;
           "";
           "【今日待办】";
           TaskScheduler.no_dated_todos;
           "";
           "祝您今天工作顺利，心情愉快！"]).
Proof. vm_compute. reflexivity. Qed.

(** ** Outside the hypotheses of the reply properties *)

(** The ranks of the four statuses and of the three priorities. *)
Lemma ranks_of_statuses_and_priorities :
  List.map (fun st => rank_in GeminiClient.status_order (VStr st))
    ["进行中"; "待完成"; "已完成"; "已取消"] = [3; 2; 1; 0]%Z
  /\ List.map (fun p => rank_in GeminiClient.priority_order (VStr p))
       ["高"; "中"; "低"] = [3; 2; 1]%Z.
Proof. split; reflexivity. Qed.

(** A due date that is not set comes back as [None]; among records of one
    status and priority it cannot be compared with a date, and the sort
    raises before any reply is built. *)
Lemma mixed_due_dates_stop_the_sort :
  forallb sortable Example.eleven_mixed = false
  /\ is_ok (GeminiClient.displayed_results Example.eleven_mixed (VStr "待办事项"))
     = false
  /\ is_ok (fst (GeminiClient.generate_query_response Example.offline_env
                   Example.eleven_mixed (VStr "待办事项") initial_state))
     = false.
Proof. vm_compute. repeat split. Qed.

(** A record filed under a status that is none of the four is counted by
    the fall-back report and not printed. *)
Lemma unfiled_status_is_left_out :
  forallb known_status Example.eleven_archived = false
  /\ fst (GeminiClient.generate_query_response Example.offline_env
            Example.eleven_archived (VStr "待办事项") initial_state)
     = Ok (str_join nl
             ["您好，这是您的待办事项：" ++ nl;
              "总记录数：11";
              "显示记录数：10";
              nl ++ "还有 1 个未显示"]).
Proof. vm_compute. repeat split. Qed.

(** ** The properties at work *)

Lemma execute_task_unknown_type_witness :
  let classes := Example.registry Example.offline_env in
  classes !! "weather" = None
  /\ exists r,
       TaskDispatcher.execute_task Example.offline_env classes (VStr "weather")
         [("city", VStr "Paris")] "u1" initial_state = (Ok r, initial_state)
       /\ success r = false
       /\ error r = Some "未知的任务类型: weather".
Proof.
  cbv zeta. split; [vm_compute; reflexivity|].
  destruct (execute_task_unknown_type Example.offline_env
              (Example.registry Example.offline_env) "weather"
              [("city", VStr "Paris")] "u1" initial_state)
    as (r & Hr & Hs & He & _); [vm_compute; reflexivity|].
  exists r. split; [exact Hr|]. split; [exact Hs|exact He].
Defined.

Lemma ambiguous_target_is_enumerated_witness :
  TodoTask.match_tasks Example.ship_env (VStr "ship")
    (todos_seen Example.ship_env initial_state)
  = Ok [Example.ship_release; Example.ship_docs]
  /\ (2 <= length [Example.ship_release; Example.ship_docs])%nat
  /\ exists r s',
       TodoTask.update_by_name Example.ship_env (VStr "ship") (VStr "已完成")
         (VStr "") (VStr "") initial_state = (Ok r, s')
       /\ success r = false
       /\ message r
          = str_join nl
              ["找到多个包含「ship」的任务，请明确指定：";
               "1. Ship release (待完成, 截止: 2024-02-01)";
               "2. Ship docs (进行中, 截止: None)"]
       /\ writes (trace s') = [].
Proof.
  split; [reflexivity|]. split; [cbn; lia|].
  destruct (ambiguous_target_is_enumerated Example.ship_env (VStr "ship")
              (VStr "已完成") (VStr "") (VStr "") initial_state
              [Example.ship_release; Example.ship_docs])
    as [(r & s' & Hrun & Hs & _ & Hm & _ & _ & Hw & _) _];
    [reflexivity|cbn; lia|].
  exists r, s'. split; [exact Hrun|]. split; [exact Hs|].
  split; [rewrite Hm; reflexivity|exact Hw].
Defined.


Lemma fuzzy_resolution_witness :
  forallb has_text_title (todos_seen Example.ship_env initial_state) = true
  /\ TodoTask.match_tasks Example.ship_env (VStr "MILK")
       (todos_seen Example.ship_env initial_state)
     = Ok [Example.buy_milk]
  /\ TodoTask.update_by_name Example.ship_env (VStr "MILK") (VStr "已完成")
       (VStr "") (VStr "") initial_state
     = TodoTask.write_update Example.ship_env (VStr "MILK") Example.buy_milk
         (VStr "已完成") (VStr "") (VStr "") (after_query Example.ship_env initial_state)
  /\ oracle_calls
       (trace (snd (TodoTask.update_by_name Example.ship_env (VStr "MILK")
                      (VStr "已完成") (VStr "") (VStr "") initial_state)))
     = [].
Proof.
  split; [reflexivity|].
  destruct (fuzzy_resolution Example.ship_env "MILK" (VStr "已完成") (VStr "")
              (VStr "") initial_state)
    as (Hmatch & _ & Hone); [reflexivity|].
  split; [exact Hmatch|].
  destruct (Hone Example.buy_milk) as (Hrun & Horacle); [reflexivity|].
  split; [exact Hrun|exact Horacle].
Defined.

(** C6 needs every record to carry an id: of two records, one without id
    and one whose archive call fails, none is deleted, where N-1 = 1. *)
Lemma delete_all_skips_records_without_id :
  let E := Example.stubborn_env [Example.draft_without_id; Example.ship_docs] in
  let run := TodoTask.delete_all E initial_state in
  length (todos_seen E initial_state) = 2%nat
  /\ deletes (trace (snd run)) = 1%nat
  /\ failed_deletes (trace (snd run)) = 1%nat
  /\ (exists r, fst run = Ok r
                /\ success r = true
                /\ data r = [("deleted_count", VInt 0); ("failed_count", VInt 1)])
  /\ VInt 0 <> VInt (Z.of_nat (2 - 1)).
Proof.
  cbv zeta. split; [reflexivity|]. split; [reflexivity|]. split; [reflexivity|].
  split; [|discriminate].
  eexists. split; [vm_compute; reflexivity|]. split; reflexivity.
Qed.

Lemma delete_all_counts_witness :
  let E := Example.stubborn_env Example.three_todos in
  forallb has_id (todos_seen E initial_state) = true
  /\ failed_deletes (trace (snd (TodoTask.delete_all E initial_state)))
     = S (failed_deletes (trace initial_state))
  /\ (exists r s',
       TodoTask.delete_all E initial_state = (Ok r, s')
       /\ success r = true
       /\ data r = [("deleted_count", VInt 2); ("failed_count", VInt 1)])
  /\ exists r s',
       TodoTask.delete_all
         (Example.stubborn_env [Example.draft_without_id; Example.ship_docs])
         initial_state
       = (Ok r, s')
       /\ archived_pages (trace s') = ["p2"].
Proof.
  cbv zeta. split; [reflexivity|]. split; [reflexivity|].
  destruct (delete_all_counts (Example.stubborn_env Example.three_todos) initial_state)
    as (_ & _ & Hone & _).
  destruct Hone as (r & s' & Hrun & Hs & Hd); [reflexivity|reflexivity|].
  split; [exists r, s'; split; [exact Hrun|]; split; [exact Hs|exact Hd]|].
  destruct (delete_all_counts
              (Example.stubborn_env [Example.draft_without_id; Example.ship_docs])
              initial_state)
    as (_ & _ & _ & r2 & s2 & _ & _ & Hrun2 & Harchived & _).
  exists r2, s2. split; [exact Hrun2|]. rewrite Harchived. reflexivity.
Defined.

Lemma low_confidence_routes_to_chat_witness :
  let E := Example.hesitant_env in
  let analysis :=
    [("task_type", VStr "todo"); ("confidence", VFloat (3 # 10));
     ("extracted_data", VDict []); ("response_text", VStr "")] in
  let s1 := snd (GeminiClient.analyze_task E "remind me to ship" initial_state) in
  GeminiClient.analyze_task E "remind me to ship" initial_state = (Ok analysis, s1)
  /\ num_of (dict_get_or analysis "confidence" (VFloat 0)) = Some (3 # 10)%Q
  /\ (3 # 10 < f_0_6)%Q
  /\ MessageProcessor.process_message E (Example.registry E) false
       "remind me to ship" "u1" "telegram" initial_state
     = MessageProcessor._handle_chat E false "remind me to ship" None
         (snd (MessageProcessor._update_conversation_context E "u1"
                 "remind me to ship" analysis s1))
  /\ fst (MessageProcessor.process_message E (Example.registry E) false
            "remind me to ship" "u1" "telegram" initial_state) = Ok "Hello!".
Proof.
  cbv zeta. split; [reflexivity|]. split; [reflexivity|]. split; [reflexivity|].
  split; [|reflexivity].
  apply (low_confidence_routes_to_chat Example.hesitant_env
           (Example.registry Example.hesitant_env) false
           "remind me to ship" "u1" "telegram" initial_state _ _ (3 # 10)%Q);
    reflexivity.
Defined.

(** C4 needs the answers of the oracle not to be blank: an oracle that
    answers with blanks gets the empty text for a reply. *)
Lemma blank_answer_gives_empty_reply :
  fst (MessageProcessor.process_message (Example.talkative_env "  ")
         (Example.registry (Example.talkative_env "  ")) false
         "hi" "u1" "telegram" initial_state)
  = Ok "".
Proof. vm_compute. reflexivity. Qed.

Lemma process_message_absorbs_failures_witness :
  oracle_unreachable Example.offline_env
  /\ answers_not_blank Example.offline_env
  /\ exists reply s',
       MessageProcessor.process_message Example.offline_env
         (Example.registry Example.offline_env) false
         "hi" "u1" "telegram" initial_state = (Ok reply, s')
       /\ reply <> "".
Proof.
  assert (Hoff : oracle_unreachable Example.offline_env) by (intros n p; reflexivity).
  assert (Hnb : answers_not_blank Example.offline_env)
    by (intros n p text H; discriminate H).
  split; [exact Hoff|]. split; [exact Hnb|].
  destruct (process_message_absorbs_failures Example.offline_env
              (Example.registry Example.offline_env) false
              "hi" "u1" "telegram" initial_state)
    as ((reply & s' & Hrun) & Hne & _).
  exists reply, s'. split; [exact Hrun|]. exact (Hne Hnb reply s' Hrun).
Defined.

(** C5 on an answer that holds no JSON object: the reply hint is then the
    text of the oracle, whatever it is, and no fixed text of the code. *)
Lemma unparsed_answer_becomes_reply_hint :
  GeminiClient.json_island "Sure, noted." = None
  /\ fst (GeminiClient.analyze_task (Example.talkative_env "Sure, noted.")
            "hello" initial_state)
     = Ok [("task_type", VStr "chat"); ("confidence", VFloat f_0_8);
           ("extracted_data", VDict []); ("response_text", VStr "Sure, noted.")]
  /\ fst (GeminiClient.analyze_task (Example.talkative_env "On it!")
            "hello" initial_state)
     = Ok [("task_type", VStr "chat"); ("confidence", VFloat f_0_8);
           ("extracted_data", VDict []); ("response_text", VStr "On it!")]
  /\ "Sure, noted." <> GeminiClient.analysis_reply
  /\ "Sure, noted." <> GeminiClient.chat_apology.
Proof. repeat split; try reflexivity; discriminate. Qed.

Lemma analyze_task_falls_back_to_chat_witness :
  let E := Example.talkative_env "Sure, noted." in
  classification_answer E "hello" initial_state = Some "Sure, noted."
  /\ GeminiClient.json_island (py_strip E "Sure, noted.") = None
  /\ fst (GeminiClient.analyze_task E "hello" initial_state)
     = Ok [("task_type", VStr "chat"); ("confidence", VFloat f_0_8);
           ("extracted_data", VDict []); ("response_text", VStr "Sure, noted.")]
  /\ classification_answer Example.offline_env "hello" initial_state = None
  /\ fst (GeminiClient.analyze_task Example.offline_env "hello" initial_state)
     = Ok GeminiClient.failed_analysis.
Proof.
  cbv zeta. split; [reflexivity|]. split; [reflexivity|].
  destruct (analyze_task_falls_back_to_chat (Example.talkative_env "Sure, noted.")
              "hello" initial_state) as (_ & _ & Hunparsed & _).
  split; [apply (Hunparsed "Sure, noted."); [reflexivity|left; reflexivity]|].
  destruct (analyze_task_falls_back_to_chat Example.offline_env
              "hello" initial_state) as (_ & Hfailed & _).
  split; [reflexivity|]. apply Hfailed. reflexivity.
Defined.



(* ===================================================================== *)
(** * Further properties                                                  *)
(* ===================================================================== *)

(** ** The conversation contexts *)

Section ContextProperties.
Context (E : Env).

Lemma last_n_length {A} (n : nat) (l : list A) :
  length (MessageProcessor.last_n n l) = Nat.min n (length l).
Proof. unfold MessageProcessor.last_n. rewrite length_skipn. lia. Qed.

Lemma last_n_all {A} (n : nat) (l : list A) :
  (length l <= n)%nat -> MessageProcessor.last_n n l = l.
Proof.
  intros H. unfold MessageProcessor.last_n.
  replace (length l - n)%nat with 0%nat by lia. reflexivity.
Qed.

Lemma last_n_snoc {A} (n : nat) (l : list A) (x : A) :
  last (MessageProcessor.last_n (S n) (l ++ [x])) = Some x.
Proof.
  unfold MessageProcessor.last_n. rewrite length_app. cbn [length].
  replace (length l + 1 - S n)%nat with (length l - n)%nat by lia.
  rewrite skipn_app.
  replace (length l - n - length l)%nat with 0%nat by lia.
  cbn [skipn]. apply last_snoc.
Qed.

Lemma kept_last_ten {A} (l : list A) :
  (if (10 <? length l)%nat then MessageProcessor.last_n 10 l else l)
  = MessageProcessor.last_n 10 l.
Proof.
  destruct (10 <? length l)%nat eqn:H; [reflexivity|].
  apply Nat.ltb_ge in H. rewrite last_n_all; [reflexivity|lia].
Qed.

(** What [_update_conversation_context] leaves behind. *)
Lemma update_context_result user_id message analysis s :
  exists s' stamp updated,
    MessageProcessor._update_conversation_context E user_id message analysis s
    = (Ok tt, s')
    /\ task_history s' = task_history s
    /\ conversation_contexts s'
       = <[user_id :=
             let kept :=
               MessageProcessor.last_n 10
                 (history_of s user_id
                  ++ [{| cm_message := message;
                         cm_task_type := dict_get analysis "task_type";
                         cm_timestamp := stamp |}]) in
             {| messages := kept;
                context := MessageProcessor.context_summary
                             (MessageProcessor.last_n 3 kept);
                last_task_type := dict_get analysis "task_type";
                updated_at := updated |}]> (conversation_contexts s).
Proof.
  unfold MessageProcessor._update_conversation_context, history_of.
  destruct (conversation_contexts s !! user_id) as [c|] eqn:Hc.
  - do 3 eexists. split.
    + step. rewrite Hc. step. step. step. step. reflexivity.
    + split; [reflexivity|]. cbn [conversation_contexts]. cbv zeta.
      rewrite kept_last_ten. reflexivity.
  - do 3 eexists. split.
    + step. rewrite Hc. step. step. step. step. reflexivity.
    + split; [reflexivity|]. cbn [conversation_contexts messages]. cbv zeta.
      rewrite kept_last_ten. reflexivity.
Qed.

(** X1.  After [_update_conversation_context] the user has a context whose
    history is the last ten of the messages kept before followed by the new
    one: it holds at most ten messages, the newest last, and the entries
    that fall out are the oldest.  The call cannot raise. *)
Theorem context_keeps_the_last_ten user_id message analysis s :
  exists s' c stamp,
    MessageProcessor._update_conversation_context E user_id message analysis s
    = (Ok tt, s')
    /\ conversation_contexts s' !! user_id = Some c
    /\ messages c
       = MessageProcessor.last_n 10
           (history_of s user_id
            ++ [{| cm_message := message;
                   cm_task_type := dict_get analysis "task_type";
                   cm_timestamp := stamp |}])
    /\ (length (messages c) <= 10)%nat
    /\ cm_message <$> last (messages c) = Some message
    /\ last_task_type c = dict_get analysis "task_type".
Proof.
  destruct (update_context_result user_id message analysis s)
    as (s' & stamp & updated & Hrun & _ & Hctx).
  eexists s', _, stamp. split; [exact Hrun|].
  rewrite Hctx, lookup_insert_eq. split; [reflexivity|]. cbn.
  split; [reflexivity|]. split; [rewrite last_n_length; lia|].
  split; [|reflexivity].
  now rewrite last_n_snoc.
Qed.

End ContextProperties.

Section ContextRoundTrips.
Context (E : Env).

(** X2.  [_update_conversation_context] for one user leaves the context of
    every other user, and the dispatcher's history, as they were. *)
Theorem context_update_is_per_user user_id other message analysis s :
  other <> user_id ->
  exists s',
    MessageProcessor._update_conversation_context E user_id message analysis s
    = (Ok tt, s')
    /\ conversation_contexts s' !! other = conversation_contexts s !! other
    /\ task_history s' = task_history s.
Proof.
  intros Hother.
  destruct (update_context_result E user_id message analysis s)
    as (s' & stamp & updated & Hrun & Hhist & Hctx).
  exists s'. split; [exact Hrun|]. split; [|exact Hhist].
  rewrite Hctx. now apply lookup_insert_ne.
Qed.

(** What [clear_conversation_context] leaves behind. *)
Lemma clear_context_result user_id s :
  exists s',
    MessageProcessor.clear_conversation_context user_id s = (Ok tt, s')
    /\ conversation_contexts s' = delete user_id (conversation_contexts s)
    /\ task_history s' = task_history s
    /\ trace s' = trace s /\ tick s' = tick s.
Proof.
  unfold MessageProcessor.clear_conversation_context.
  destruct (conversation_contexts s !! user_id) as [c|] eqn:Hc.
  - eexists. split; [step; rewrite Hc; reflexivity|]. now cbn.
  - exists s. split; [step; rewrite Hc; reflexivity|].
    split; [|auto]. symmetry. now apply delete_id.
Qed.

(** X3.  Once [clear_conversation_context] has run for a user, no context
    is read back for that user, the contexts of the other users are as they
    were, and the next message of that user starts a history of its own:
    after the next update the user's history is that message alone. *)
Theorem cleared_context_is_forgotten user_id message analysis s :
  exists s1,
    MessageProcessor.clear_conversation_context user_id s = (Ok tt, s1)
    /\ MessageProcessor._get_conversation_context user_id s1 = (Ok None, s1)
    /\ (forall other, other <> user_id ->
        conversation_contexts s1 !! other = conversation_contexts s !! other)
    /\ exists s2 stamp,
         MessageProcessor._update_conversation_context E user_id message analysis s1
         = (Ok tt, s2)
         /\ history_of s2 user_id
            = [{| cm_message := message;
                  cm_task_type := dict_get analysis "task_type";
                  cm_timestamp := stamp |}].
Proof.
  destruct (clear_context_result user_id s) as (s1 & Hclear & Hctx & _).
  exists s1. split; [exact Hclear|].
  assert (Hgone : conversation_contexts s1 !! user_id = None).
  { rewrite Hctx. apply lookup_delete_eq. }
  split.
  { unfold MessageProcessor._get_conversation_context. step.
    now rewrite Hgone. }
  split.
  { intros other Hother. rewrite Hctx. now apply lookup_delete_ne. }
  destruct (update_context_result E user_id message analysis s1)
    as (s2 & stamp & updated & Hrun & _ & Hctx2).
  exists s2, stamp. split; [exact Hrun|].
  unfold history_of at 1. rewrite Hctx2, lookup_insert_eq. cbn.
  unfold history_of. rewrite Hgone. reflexivity.
Qed.

End ContextRoundTrips.

(** ** The subscribers of the daily push *)

Lemma str_find_cons c a (s : string) :
  str_find c (String a s)
  = if Ascii.eqb a c then Some 0%nat else S <$> str_find c s.
Proof. reflexivity. Qed.

Lemma split_colon_cons a (rest : string) :
  TaskScheduler.split_colon (String a rest)
  = if Ascii.eqb a ":" then Some (EmptyString, rest)
    else match TaskScheduler.split_colon rest with
         | Some (platform, user_id) => Some (String a platform, user_id)
         | None => None
         end.
Proof. reflexivity. Qed.

Lemma str_find_cons_none c a (s : string) :
  str_find c (String a s) = None -> Ascii.eqb a c = false /\ str_find c s = None.
Proof.
  rewrite str_find_cons. destruct (Ascii.eqb a c); [discriminate|].
  destruct (str_find c s); [discriminate|]. auto.
Qed.

(** The key of a subscriber splits back into platform and user when the
    platform holds no colon. *)
Lemma split_colon_user_key user_id (platform : string) :
  str_find ":" platform = None ->
  TaskScheduler.split_colon (TaskScheduler.user_key user_id platform)
  = Some (platform, user_id).
Proof.
  unfold TaskScheduler.user_key.
  induction platform as [|a p IH]; intros Hnone; [reflexivity|].
  apply str_find_cons_none in Hnone as [Ha Hp].
  change (String a p ++ ":" ++ user_id) with (String a (p ++ ":" ++ user_id)).
  rewrite split_colon_cons, Ha, (IH Hp). reflexivity.
Qed.

(** Whatever the platform, the key has a colon to split at. *)
Lemma split_colon_user_key_some user_id (platform : string) :
  exists p u,
    TaskScheduler.split_colon (TaskScheduler.user_key user_id platform) = Some (p, u).
Proof.
  unfold TaskScheduler.user_key.
  induction platform as [|a p IH]; [cbn; eauto|].
  change (String a p ++ ":" ++ user_id) with (String a (p ++ ":" ++ user_id)).
  rewrite split_colon_cons.
  destruct (Ascii.eqb a ":"); [eauto|].
  destruct IH as (p' & u' & ->). eauto.
Qed.

Lemma user_key_injective user_id user_id' (platform platform' : string) :
  str_find ":" platform = None ->
  str_find ":" platform' = None ->
  TaskScheduler.user_key user_id platform = TaskScheduler.user_key user_id' platform' ->
  user_id = user_id' /\ platform = platform'.
Proof.
  intros H1 H2 Heq.
  pose proof (split_colon_user_key user_id platform H1) as S1.
  pose proof (split_colon_user_key user_id' platform' H2) as S2.
  rewrite Heq in S1. rewrite S1 in S2. now injection S2.
Qed.

(** X4.  A user who is added to the subscribers of a platform is
    subscribed and is among the users [get_daily_push_users] gives; a user
    who is removed is not subscribed, whether or not the user was before;
    adding twice is adding once; and removing a user who was just added
    gives back the set of before, if the user was not in it. *)
Theorem subscription_round_trip (users : gset string) user_id platform :
  TaskScheduler.is_user_subscribed
    (TaskScheduler.add_daily_push_user users user_id platform) user_id platform
  = true
  /\ TaskScheduler.user_key user_id platform
     ∈ TaskScheduler.get_daily_push_users
         (TaskScheduler.add_daily_push_user users user_id platform)
  /\ TaskScheduler.is_user_subscribed
       (TaskScheduler.remove_daily_push_user users user_id platform)
       user_id platform
     = false
  /\ TaskScheduler.add_daily_push_user
       (TaskScheduler.add_daily_push_user users user_id platform) user_id platform
     = TaskScheduler.add_daily_push_user users user_id platform
  /\ (TaskScheduler.is_user_subscribed users user_id platform = false ->
      TaskScheduler.remove_daily_push_user
        (TaskScheduler.add_daily_push_user users user_id platform)
        user_id platform
      = users
      /\ TaskScheduler.remove_daily_push_user users user_id platform = users).
Proof.
  unfold TaskScheduler.is_user_subscribed, TaskScheduler.add_daily_push_user,
    TaskScheduler.remove_daily_push_user, TaskScheduler.get_daily_push_users.
  set (key := TaskScheduler.user_key user_id platform).
  split; [apply bool_decide_eq_true, elem_of_union_l, elem_of_singleton_2; reflexivity|].
  split; [apply elem_of_union_l, elem_of_singleton_2; reflexivity|].
  split.
  { apply bool_decide_eq_false. intros [_ Hnot]%elem_of_difference.
    apply Hnot. now apply elem_of_singleton_2. }
  split.
  { apply leibniz_equiv. intros x. rewrite !elem_of_union, !elem_of_singleton. tauto. }
  intros Hnot. apply bool_decide_eq_false in Hnot.
  split; apply leibniz_equiv; intros x;
    rewrite ?elem_of_difference, ?elem_of_union, !elem_of_singleton;
    split; try tauto; intros Hx; (split; [tauto|]); intros ->; tauto.
Qed.

(** X5.  On platforms whose names hold no colon, subscriptions are kept per
    user and platform: adding or removing one user on one platform changes
    the answer of [is_user_subscribed] for no other pair of user and
    platform. *)
Theorem subscriptions_are_per_user (users : gset string)
    user_id platform user_id' platform' :
  str_find ":" platform = None ->
  str_find ":" platform' = None ->
  (user_id, platform) <> (user_id', platform') ->
  TaskScheduler.is_user_subscribed
    (TaskScheduler.add_daily_push_user users user_id platform) user_id' platform'
  = TaskScheduler.is_user_subscribed users user_id' platform'
  /\ TaskScheduler.is_user_subscribed
       (TaskScheduler.remove_daily_push_user users user_id platform)
       user_id' platform'
     = TaskScheduler.is_user_subscribed users user_id' platform'.
Proof.
  intros H1 H2 Hne.
  assert (Hkey : TaskScheduler.user_key user_id' platform'
                 <> TaskScheduler.user_key user_id platform).
  { intros Heq. apply Hne.
    destruct (user_key_injective _ _ _ _ H2 H1 Heq) as [-> ->]. reflexivity. }
  unfold TaskScheduler.is_user_subscribed, TaskScheduler.add_daily_push_user,
    TaskScheduler.remove_daily_push_user.
  split; apply bool_decide_ext;
    rewrite ?elem_of_union, ?elem_of_difference, elem_of_singleton; tauto.
Qed.

Section PushProperties.
Context (E : Env) (bots : gmap string TaskScheduler.Bot).

(** Sending a report cannot raise. *)
Lemma send_daily_report_ok platform user_id s :
  exists s', TaskScheduler._send_daily_report E bots platform user_id s = (Ok tt, s').
Proof.
  destruct (try_except_total
              (match bots !! platform with
               | None => mret tt
               | Some bot =>
                   report_content ← TaskScheduler._generate_daily_report E user_id;
                   _ ← TaskScheduler.send_message bot user_id report_content;
                   mret tt
               end) (fun _ => tt) s) as ([] & s' & H).
  exists s'. exact H.
Qed.

Lemma test_each_counts subscribers : forall success_count s,
  Forall (fun key => exists user_id platform,
            key = TaskScheduler.user_key user_id platform) subscribers ->
  exists s',
    TaskScheduler.test_each E bots subscribers success_count s
    = (Ok (success_count + length subscribers)%nat, s').
Proof.
  induction subscribers as [|key rest IH]; intros n s Hkeys.
  - exists s. cbn. now rewrite Nat.add_0_r.
  - inversion Hkeys as [|? ? (user_id & platform & ->) Hrest]; subst.
    destruct (split_colon_user_key_some user_id platform) as (p & u & Hsplit).
    destruct (send_daily_report_ok p u s) as (s1 & Hsend).
    destruct (IH (S n) s1 Hrest) as (s2 & Hloop).
    exists s2. cbn [TaskScheduler.test_each].
    rewrite (bind_ok _ _ s true s1).
    + rewrite Hloop. f_equal. f_equal. cbn [length]. lia.
    + apply try_except_ok. unfold TaskScheduler.push_to. rewrite Hsplit.
      now rewrite (bind_ok _ _ s tt s1 Hsend).
Qed.

(** X6.  [test_daily_push] reports every subscriber as pushed: with
    subscribers that [add_daily_push_user] put in, its answer is the line
    of success with n out of n, n their number, whatever bots there are,
    whether or not a bot exists for a subscriber's platform, and whether
    the bot delivered the report, refused it or raised. *)
Theorem test_daily_push_counts_every_subscriber (subscribers : list string) s :
  subscribers <> [] ->
  Forall (fun key => exists user_id platform,
            key = TaskScheduler.user_key user_id platform) subscribers ->
  exists s',
    TaskScheduler.test_daily_push E bots subscribers s
    = (Ok ("✅ 测试完成！成功推送 " ++ pretty (length subscribers) ++ "/"
           ++ pretty (length subscribers) ++ " 个用户"), s').
Proof.
  intros Hsome Hkeys.
  destruct (test_each_counts subscribers 0 s Hkeys) as (s' & Hloop).
  exists s'. unfold TaskScheduler.test_daily_push. apply try_except_ok.
  destruct subscribers as [|key rest]; [congruence|].
  rewrite (bind_ok _ _ _ _ _ Hloop). reflexivity.
Qed.

End PushProperties.

(** ** The dispatcher: refusals *)

Section RefusalProperties.
Context (E : Env) (classes : task_classes).

(** X7.  For a data type that is not registered, [query_data],
    [delete_all_data] and [update_task_status] each return the failed
    result that names the unknown type, and leave the state as it was: no
    handler is built, nothing is asked of the store or the oracle. *)
Theorem unregistered_data_type_is_refused (data_type : string)
    filters task_name new_status new_priority new_date s :
  classes !! data_type = None ->
  TaskDispatcher.query_data E classes (VStr data_type) filters s
  = (Ok (failed ("未知的数据类型: " ++ data_type) "不支持的查询类型"), s)
  /\ TaskDispatcher.delete_all_data E classes (VStr data_type) s
     = (Ok (failed ("未知的数据类型: " ++ data_type) "不支持的删除类型"), s)
  /\ TaskDispatcher.update_task_status E classes (VStr data_type)
       task_name new_status new_priority new_date s
     = (Ok (failed ("未知的数据类型: " ++ data_type) "不支持的更新类型"), s).
Proof.
  intros Hnone.
  unfold TaskDispatcher.query_data, TaskDispatcher.delete_all_data,
    TaskDispatcher.update_task_status, try_except, lift, mbind, M_bind.
  now rewrite (create_task_unknown classes _ Hnone).
Qed.

(** X8.  When the constructor of the registered class raises, as those of
    the task classes do without a store token, each of the four operations
    of the dispatcher returns a failed result whose error is the message of
    that exception, and leaves the state, the execution history with it, as
    it was. *)
Theorem failing_constructor_is_reported (task_type : string) e
    task_data user_id filters task_name new_status new_priority new_date s :
  classes !! task_type = Some (Raise e) ->
  TaskDispatcher.execute_task E classes (VStr task_type) task_data user_id s
  = (Ok (failed (exn_msg e) "任务执行过程中出现了系统错误"), s)
  /\ TaskDispatcher.query_data E classes (VStr task_type) filters s
     = (Ok (failed (exn_msg e) "查询过程中出现了系统错误"), s)
  /\ TaskDispatcher.delete_all_data E classes (VStr task_type) s
     = (Ok (failed (exn_msg e) "删除过程中出现了系统错误"), s)
  /\ TaskDispatcher.update_task_status E classes (VStr task_type)
       task_name new_status new_priority new_date s
     = (Ok (failed (exn_msg e) "更新过程中出现了系统错误"), s).
Proof.
  intros Hclass.
  unfold TaskDispatcher.execute_task, TaskDispatcher.query_data,
    TaskDispatcher.delete_all_data, TaskDispatcher.update_task_status,
    try_except, lift, mbind, M_bind, create_task.
  rewrite Hclass. cbn. auto.
Qed.

End RefusalProperties.

(** ** What the handlers leave alone *)

Section Frame.
Context (R : St -> St -> Prop) `{!Reflexive R} `{!Transitive R}.

Lemma respects_ret {A} (a : A) : respects R (mret a).
Proof. intros s. cbn. reflexivity. Qed.

Lemma respects_raise {A} e : respects R (@raise A e).
Proof. intros s. cbn. reflexivity. Qed.

Lemma respects_lift {A} (r : Res A) : respects R (lift r).
Proof. intros s. cbn. reflexivity. Qed.

Lemma respects_get_state : respects R get_state.
Proof. intros s. cbn. reflexivity. Qed.

Lemma respects_bind {A B} (m : M A) (f : A -> M B) :
  respects R m -> (forall a, respects R (f a)) -> respects R (m ≫= f).
Proof.
  intros Hm Hf s. unfold mbind, M_bind.
  specialize (Hm s). destruct (m s) as [[a|e] s1]; cbn in *; [|exact Hm].
  etransitivity; [exact Hm|apply Hf].
Qed.

Lemma respects_try {A} (body : M A) (h : exn -> M A) :
  respects R body -> (forall e, respects R (h e)) -> respects R (try_except body h).
Proof.
  intros Hm Hh s. unfold try_except.
  specialize (Hm s). destruct (body s) as [[a|e] s1]; cbn in *; [exact Hm|].
  etransitivity; [exact Hm|apply Hh].
Qed.

End Frame.

#[local] Instance same_contexts_refl : Reflexive same_contexts.
Proof. intros s. reflexivity. Qed.

#[local] Instance same_contexts_trans : Transitive same_contexts.
Proof. intros a b c H1 H2. unfold same_contexts in *. congruence. Qed.

#[local] Instance same_memory_refl : Reflexive same_memory.
Proof. intros s. split; reflexivity. Qed.

#[local] Instance same_memory_trans : Transitive same_memory.
Proof. intros a b c [H1 H2] [H3 H4]. split; congruence. Qed.

Lemma external_same_memory {A} (answer : nat -> A) log :
  respects same_memory (external answer log).
Proof. intros s. split; reflexivity. Qed.

Lemma same_memory_contexts {A} (m : M A) :
  respects same_memory m -> respects same_contexts m.
Proof. intros H s. apply H. Qed.

#[local] Instance trace_grows_refl : Reflexive trace_grows.
Proof. intros s. unfold trace_grows. reflexivity. Qed.

#[local] Instance trace_grows_trans : Transitive trace_grows.
Proof.
  intros a b c H1 H2. unfold trace_grows in *. now transitivity (trace b).
Qed.

Lemma external_same_contexts {A} (answer : nat -> A) log :
  respects same_contexts (external answer log).
Proof. intros s. reflexivity. Qed.

Lemma external_trace_grows {A} (answer : nat -> A) log :
  respects trace_grows (external answer log).
Proof.
  intros s. unfold trace_grows, external. cbn.
  destruct (log (answer (tick s))); [apply suffix_cons_r|]; reflexivity.
Qed.

Lemma set_task_history_same_contexts h : respects same_contexts (set_task_history h).
Proof. intros s. reflexivity. Qed.

Lemma set_task_history_trace_grows h : respects trace_grows (set_task_history h).
Proof. intros s. unfold trace_grows. reflexivity. Qed.

Lemma set_contexts_trace_grows c : respects trace_grows (set_conversation_contexts c).
Proof. intros s. unfold trace_grows. reflexivity. Qed.

(** An event that was logged stays in a trace that grows. *)
Lemma logged_stays {A} (m : M A) ev s :
  respects trace_grows m -> In ev (trace s) -> In ev (trace (snd (m s))).
Proof.
  intros Hm Hin. destruct (Hm s) as (added & ->).
  apply in_or_app. now right.
Qed.

(** Steps through a computation made of the operations above. *)
Ltac frame :=
  repeat
    match goal with
    | |- Reflexive _ => typeclasses eauto
    | |- Transitive _ => typeclasses eauto
    | H : forall A answer log, respects _ (external answer log)
      |- respects _ (external _ _) => apply H
    | H : forall h, respects _ (set_task_history h)
      |- respects _ (set_task_history _) => apply H
    | |- forall _, _ => intro
    | |- respects _ (mret _) => apply respects_ret
    | |- respects _ (raise _) => apply respects_raise
    | |- respects _ (lift _) => apply respects_lift
    | |- respects _ get_state => apply respects_get_state
    | |- respects _ (external _ _) =>
        first [ apply external_same_memory | apply external_same_contexts
              | apply external_trace_grows ]
    | |- respects _ (set_task_history _) =>
        first [ apply set_task_history_same_contexts
              | apply set_task_history_trace_grows ]
    | |- respects _ (set_conversation_contexts _) => apply set_contexts_trace_grows
    | |- respects _ (try_except _ _) => apply respects_try
    | |- respects _ (_ ≫= _) => apply respects_bind
    | |- respects _ (match ?x with _ => _ end) => destruct x
    | |- respects _ (let '(_, _) := ?x in _) => destruct x
    end.

Section FrameOfTheHandlers.
Context (E : Env).

Lemma generate_same_memory p : respects same_memory (GeminiClient.generate E p).
Proof. unfold GeminiClient.generate. frame. Qed.

Lemma delete_each_same_memory all_todos : forall deleted_count failed_count,
  respects same_memory (TodoTask.delete_each E all_todos deleted_count failed_count).
Proof.
  induction all_todos as [|todo rest IH]; intros d f; cbn [TodoTask.delete_each].
  - frame.
  - destruct (truthy _); [|apply IH].
    unfold NotionClient.delete_page. frame; apply IH.
Qed.

Lemma select_best_same_memory task_name matched new_status new_priority new_date :
  respects same_memory
    (TodoTask._select_best_match_with_ai E task_name matched
       new_status new_priority new_date).
Proof.
  unfold TodoTask._select_best_match_with_ai. frame. apply generate_same_memory.
Qed.

Lemma write_update_same_memory task_name best new_status new_priority new_date :
  respects same_memory
    (TodoTask.write_update E task_name best new_status new_priority new_date).
Proof.
  unfold TodoTask.write_update, NotionClient.update_page. frame.
Qed.

(** No operation of the to-do handler touches the dispatcher's history or
    the conversation contexts. *)
Lemma todo_handler_same_memory : handler_respects same_memory (TodoTask.handler E).
Proof.
  unfold handler_respects, TodoTask.handler.
  cbn [BaseTask.validate_data BaseTask.execute BaseTask.query BaseTask.delete_all
       BaseTask.update_by_name].
  refine (conj _ (conj _ (conj _ (conj _ _)))).
  - intros d. unfold TodoTask.validate_data. frame.
  - intros d. unfold TodoTask.execute, NotionClient.add_todo, NotionClient.create_page.
    frame.
  - intros filters. unfold TodoTask.query, NotionClient.query_database, now. frame.
  - unfold TodoTask.delete_all, NotionClient.query_database. frame.
    apply delete_each_same_memory.
  - intros. unfold TodoTask.update_by_name, NotionClient.query_database. frame.
    all: first [apply write_update_same_memory | apply select_best_same_memory].
Qed.

End FrameOfTheHandlers.

(** ** The dispatcher: the execution history *)

(** [safe_execute] cannot raise. *)
Lemma safe_execute_ok h d s :
  exists r d' s', safe_execute h d s = (Ok (r, d'), s').
Proof.
  unfold safe_execute.
  destruct (validate_data h d s) as [[[[] d']|e] s1]; eauto.
  destruct (format_data h d') as [formatted|e]; eauto.
  destruct (execute h formatted s1) as [[r|e] s2]; eauto.
Qed.

Lemma safe_execute_respects (R : St -> St -> Prop) `{!Reflexive R} `{!Transitive R}
    h d :
  handler_respects R h -> respects R (safe_execute h d).
Proof.
  intros (Hvalidate & Hexecute & _) s. unfold safe_execute.
  specialize (Hvalidate d s).
  destruct (validate_data h d s) as [[[[] d']|e] s1]; cbn in *; try exact Hvalidate.
  destruct (format_data h d') as [formatted|e]; cbn; try exact Hvalidate.
  specialize (Hexecute formatted s1).
  destruct (execute h formatted s1) as [[r|e] s2]; cbn in *;
    (etransitivity; [exact Hvalidate|exact Hexecute]).
Qed.

Section HistoryProperties.
Context (E : Env) (classes : task_classes).

(** X9.  When the type is registered and the handler leaves the
    dispatcher's history alone, as the to-do handler does, [execute_task]
    returns the result that the handler's [safe_execute] gives for the
    data, run once the start is recorded, and the history gains, or has
    replaced, exactly the entry of this run: it is filed under the id made
    of the user, the type and the time of the start, it names the user and
    the type and holds the data as [safe_execute] left them, its status is
    completed, and its success flag, message, error and data are those of
    the result returned; [get_task_status] gives that entry for the id. *)
Theorem execute_task_records_the_run (task_type : string) h task_data user_id s :
  classes !! task_type = Some (Ok h) ->
  handler_respects same_memory h ->
  exists result task_data' s' entry done,
    TaskDispatcher.execute_task E classes (VStr task_type) task_data user_id s
    = (Ok result, s')
    /\ fst (safe_execute h task_data
              (snd (TaskDispatcher._record_task_start E (VStr task_type)
                      task_data user_id s)))
       = Ok (result, task_data')
    /\ task_history s'
       = <[user_id ++ "_" ++ task_type ++ "_" ++ dt_timestamp (clock E (tick s))
           := entry]> (task_history s)
    /\ execution_id entry
       = user_id ++ "_" ++ task_type ++ "_" ++ dt_timestamp (clock E (tick s))
    /\ he_user_id entry = user_id
    /\ he_task_type entry = VStr task_type
    /\ World.task_data entry = task_data'
    /\ start_time entry = dt_iso (clock E (S (tick s)))
    /\ status entry = "completed"
    /\ completed entry = Some done
    /\ c_success done = success result
    /\ c_message done = message result
    /\ c_error done = error result
    /\ result_data done = data result
    /\ TaskDispatcher.get_task_status
         (user_id ++ "_" ++ task_type ++ "_" ++ dt_timestamp (clock E (tick s))) s'
       = (Ok (Some entry), s').
Proof.
  intros Hclass Hframe.
  set (id := user_id ++ "_" ++ task_type ++ "_" ++ dt_timestamp (clock E (tick s))).
  pose (running :=
    {| execution_id := id; he_task_type := VStr task_type; he_user_id := user_id;
       task_data := task_data; start_time := dt_iso (clock E (S (tick s)));
       status := "running"; completed := None |}).
  pose (s1 :=
    {| tick := S (S (tick s)); trace := trace s;
       task_history := <[id := running]> (task_history s);
       conversation_contexts := conversation_contexts s |}).
  assert (Hstart :
    TaskDispatcher._record_task_start E (VStr task_type) task_data user_id s
    = (Ok id, s1)) by reflexivity.
  destruct (safe_execute_ok h task_data s1) as (result & d' & s2 & Hrun).
  pose proof (safe_execute_respects same_memory h task_data Hframe s1) as [Hhist _].
  rewrite Hrun in Hhist. cbn [snd] in Hhist.
  assert (Hlookup : task_history s2 !! id = Some running).
  { rewrite Hhist. apply lookup_insert_eq. }
  assert (Hresult : exists s3 entry,
    TaskDispatcher._record_task_result E id result d' s2 = (Ok tt, s3)
    /\ task_history s3 = <[id := entry]> (task_history s2)
    /\ entry
       = {| execution_id := id; he_task_type := VStr task_type;
            he_user_id := user_id; task_data := d';
            start_time := dt_iso (clock E (S (tick s)));
            status := "completed";
            completed :=
              Some {| end_time := dt_iso (clock E (tick s2));
                      c_success := success result; result_data := data result;
                      c_message := message result; c_error := error result |} |}).
  { do 2 eexists. split.
    - unfold TaskDispatcher._record_task_result. step. cbv beta. rewrite Hlookup.
      reflexivity.
    - split; reflexivity. }
  destruct Hresult as (s3 & entry & Hresult & Hhist3 & ->).
  eexists result, d', s3, _, _. split.
  { unfold TaskDispatcher.execute_task. apply try_except_ok.
    unfold lift, create_task. rewrite (bind_ok _ _ s (Some h) s).
    2:{ now rewrite Hclass. }
    step_with Hstart. rewrite (bind_ok _ _ s1 (result, d') s2 Hrun).
    step_with Hresult. reflexivity. }
  split; [now rewrite Hstart; cbn [snd]; rewrite Hrun|].
  assert (Hstatus :
    TaskDispatcher.get_task_status id s3
    = (Ok (task_history s3 !! id), s3)) by reflexivity.
  fold id. rewrite Hstatus, Hhist3, lookup_insert_eq, Hhist. unfold s1.
  cbn [task_history]. rewrite insert_insert_eq. repeat split; reflexivity.
Qed.

End HistoryProperties.

Section CleanupProperties.
Context (E : Env) (timestamp : datetime -> Q) (iso_timestamp : string -> option Q).

Lemma is_old_readable cutoff_time task :
  readable_start iso_timestamp task = true ->
  TaskDispatcher.is_old iso_timestamp cutoff_time task
  = Ok (started_before iso_timestamp cutoff_time task).
Proof.
  unfold readable_start, TaskDispatcher.is_old, started_before.
  destruct (String.eqb (start_time task) ""); [reflexivity|].
  destruct (iso_timestamp (start_time task)); [reflexivity|discriminate].
Qed.

Lemma old_executions_readable cutoff_time items :
  Forall (fun kv => readable_start iso_timestamp (snd kv) = true) items ->
  TaskDispatcher.old_executions iso_timestamp cutoff_time items
  = Ok (List.map fst
          (List.filter (fun kv => started_before iso_timestamp cutoff_time (snd kv))
             items)).
Proof.
  induction 1 as [|[id task] rest Hhead _ IH]; [reflexivity|].
  cbn [TaskDispatcher.old_executions List.filter snd].
  rewrite (is_old_readable _ _ Hhead), IH. cbn.
  now destruct (started_before _ _ task).
Qed.

Lemma old_executions_unreadable cutoff_time items :
  Exists (fun kv => readable_start iso_timestamp (snd kv) = false) items ->
  exists e, TaskDispatcher.old_executions iso_timestamp cutoff_time items = Raise e.
Proof.
  induction 1 as [[id task] rest Hbad|[id task] rest _ (e & IH)];
    cbn [TaskDispatcher.old_executions].
  - unfold readable_start in Hbad. unfold TaskDispatcher.is_old. cbn [snd] in Hbad.
    destruct (String.eqb (start_time task) ""); [discriminate|].
    destruct (iso_timestamp (start_time task)); [discriminate|]. cbn. eauto.
  - destruct (TaskDispatcher.is_old _ _ task) as [old|e']; cbn; [|eauto].
    rewrite IH. cbn. eauto.
Qed.

(** The cutoff, by what the runtime makes of the seconds to keep. *)
Lemma cutoff_cases t days_to_keep :
  TaskDispatcher.cutoff E timestamp t days_to_keep
  = match float_of_int E (days_to_keep * 24 * 3600) with
    | Some seconds => Ok (float_sub E (timestamp t) seconds)
    | None => Raise (PyExn OverflowError "int too large to convert to float")
    end.
Proof.
  unfold TaskDispatcher.cutoff, int_to_float.
  now destruct (float_of_int E (days_to_keep * 24 * 3600)).
Qed.

(** X10.  When the start time of every entry can be read,
    [cleanup_old_history] removes from the history exactly the entries
    that started before the cutoff, which is the float the runtime gives
    for the time of the call less the seconds of the days to keep: such an
    entry is gone afterwards, and every other entry is kept as it was.
    When the seconds are too many to be a float, no entry is removed.  The
    call cannot raise. *)
Theorem cleanup_drops_exactly_the_old_entries days_to_keep s :
  (forall id task,
     task_history s !! id = Some task ->
     readable_start iso_timestamp task = true) ->
  exists s',
    TaskDispatcher.cleanup_old_history E timestamp iso_timestamp days_to_keep s
    = (Ok tt, s')
    /\ conversation_contexts s' = conversation_contexts s
    /\ forall id,
         task_history s' !! id
         = match task_history s !! id with
           | Some task =>
               match float_of_int E (days_to_keep * 24 * 3600) with
               | Some seconds =>
                   if started_before iso_timestamp
                        (float_sub E (timestamp (clock E (tick s))) seconds) task
                   then None else Some task
               | None => Some task
               end
           | None => None
           end.
Proof.
  intros Hreadable.
  pose proof (cutoff_cases (clock E (tick s)) days_to_keep) as Hcutoff.
  destruct (float_of_int E (days_to_keep * 24 * 3600)) as [seconds|].
  2:{ eexists. split.
      { unfold TaskDispatcher.cleanup_old_history.
        erewrite try_except_raise; [reflexivity|].
        step. unfold lift. erewrite bind_raise; [reflexivity|].
        now rewrite Hcutoff. }
      split; [reflexivity|]. cbn [task_history]. intros id.
      now destruct (task_history s !! id). }
  set (cutoff_time := float_sub E (timestamp (clock E (tick s))) seconds) in *.
  set (old :=
         List.map fst
           (List.filter
              (fun kv => started_before iso_timestamp cutoff_time (snd kv))
              (map_to_list (task_history s)))).
  assert (Hold :
    TaskDispatcher.old_executions iso_timestamp cutoff_time
      (map_to_list (task_history s)) = Ok old).
  { apply old_executions_readable. apply Forall_forall. intros [id task] Hin.
    cbn [snd]. apply (Hreadable id). now apply elem_of_map_to_list. }
  eexists. split.
  { unfold TaskDispatcher.cleanup_old_history. apply try_except_ok.
    step. unfold lift at 1. erewrite bind_ok; [|now rewrite Hcutoff].
    step. cbn [task_history]. unfold lift.
    rewrite Hold. reflexivity. }
  split; [reflexivity|]. cbn [task_history]. intros id.
  assert (Hin : forall task,
            task_history s !! id = Some task ->
            (id ∈ old <-> started_before iso_timestamp cutoff_time task = true)).
  { intros task Hid. unfold old. rewrite list_elem_of_In, in_map_iff. split.
    - intros ([id' task'] & <- & Hin'). cbn [fst] in *.
      apply filter_In in Hin' as [Hin' Hold']. cbn [snd] in Hold'.
      apply (proj2 (list_elem_of_In _ _)), elem_of_map_to_list in Hin'.
      rewrite Hid in Hin'.
      now injection Hin' as ->.
    - intros Hold'. exists (id, task). split; [reflexivity|].
      apply filter_In. split; [|exact Hold'].
      apply (proj1 (list_elem_of_In _ _)). now apply elem_of_map_to_list. }
  destruct (task_history s !! id) as [task|] eqn:Hid.
  - destruct (started_before iso_timestamp cutoff_time task) eqn:Hb.
    + apply lookup_foldr_delete. now apply (Hin task).
    + rewrite lookup_foldr_delete_not_elem_of; [exact Hid|].
      intros Hmem. apply (Hin task eq_refl) in Hmem. congruence.
  - destruct (decide (id ∈ old)) as [Hmem|Hmem].
    + now apply lookup_foldr_delete.
    + now rewrite lookup_foldr_delete_not_elem_of.
Qed.

(** X11.  When the history holds an entry whose start time is set and
    cannot be read, [cleanup_old_history] removes nothing at all: it
    returns without raising and the history is as it was, the entries that
    are old included. *)
Theorem cleanup_is_all_or_nothing days_to_keep s id task :
  task_history s !! id = Some task ->
  readable_start iso_timestamp task = false ->
  exists s',
    TaskDispatcher.cleanup_old_history E timestamp iso_timestamp days_to_keep s
    = (Ok tt, s')
    /\ task_history s' = task_history s
    /\ conversation_contexts s' = conversation_contexts s.
Proof.
  intros Hid Hbad.
  destruct (TaskDispatcher.cutoff E timestamp (clock E (tick s)) days_to_keep)
    as [cutoff_time|e0] eqn:Hcutoff.
  2:{ eexists. split.
      { unfold TaskDispatcher.cleanup_old_history.
        erewrite try_except_raise; [reflexivity|].
        step. unfold lift. erewrite bind_raise; [reflexivity|].
        now rewrite Hcutoff. }
      split; reflexivity. }
  destruct (old_executions_unreadable cutoff_time
              (map_to_list (task_history s))) as (e & Hraise).
  { apply Exists_exists. exists (id, task). split; [|exact Hbad].
    now apply elem_of_map_to_list. }
  eexists. split.
  { unfold TaskDispatcher.cleanup_old_history.
    erewrite try_except_raise; [reflexivity|].
    step. unfold lift at 1. erewrite bind_ok; [|now rewrite Hcutoff].
    step. cbn [task_history]. unfold lift.
    erewrite bind_raise; [reflexivity|]. now rewrite Hraise. }
  split; reflexivity.
Qed.

End CleanupProperties.

(** ** Dictionaries *)

Lemma dict_lookup_set_eq d k v : dict_lookup (dict_set d k v) k = Some v.
Proof.
  induction d as [|[k' v'] d IH]; cbn.
  - now rewrite String.eqb_refl.
  - destruct (String.eqb k' k) eqn:Hk; cbn; now rewrite Hk.
Qed.

Lemma dict_lookup_set_ne d k v k' :
  k <> k' -> dict_lookup (dict_set d k v) k' = dict_lookup d k'.
Proof.
  intros Hne. induction d as [|[k0 v0] d IH]; cbn.
  - apply String.eqb_neq in Hne. now rewrite Hne.
  - destruct (String.eqb k0 k) eqn:Hk; cbn; [|now rewrite IH].
    apply String.eqb_eq in Hk as ->.
    apply String.eqb_neq in Hne. now rewrite Hne.
Qed.

Lemma dict_get_set_eq d k v : dict_get (dict_set d k v) k = v.
Proof. unfold dict_get. now rewrite dict_lookup_set_eq. Qed.

Lemma dict_get_set_ne d k v k' :
  k <> k' -> dict_get (dict_set d k v) k' = dict_get d k'.
Proof. intros H. unfold dict_get. now rewrite dict_lookup_set_ne. Qed.

Lemma dict_lookup_absent d k :
  ~ In k (List.map fst d) -> dict_lookup d k = None.
Proof.
  induction d as [|[k' v'] d IH]; cbn; [reflexivity|]. intros Hnot.
  destruct (String.eqb k' k) eqn:Hk.
  - apply String.eqb_eq in Hk. tauto.
  - apply IH. tauto.
Qed.

Lemma dict_set_keys d k v :
  List.map fst (dict_set d k v)
  = match dict_lookup d k with
    | Some _ => List.map fst d
    | None => (List.map fst d ++ [k])%list
    end.
Proof.
  induction d as [|[k' v'] d IH]; cbn; [reflexivity|].
  destruct (String.eqb k' k) eqn:Hk; cbn; [reflexivity|].
  rewrite IH. now destruct (dict_lookup d k).
Qed.

Lemma dict_lookup_present d k :
  dict_lookup d k = None -> ~ In k (List.map fst d).
Proof.
  induction d as [|[k' v'] d IH]; cbn; [tauto|].
  destruct (String.eqb k' k) eqn:Hk; [discriminate|].
  apply String.eqb_neq in Hk. intros Hnone [Heq|Hin]; [tauto|]. now apply IH.
Qed.

Lemma dict_set_nodup d k v :
  List.NoDup (List.map fst d) -> List.NoDup (List.map fst (dict_set d k v)).
Proof.
  intros Hd. rewrite dict_set_keys.
  destruct (dict_lookup d k) eqn:Hk; [exact Hd|].
  apply NoDup_ListNoDup, NoDup_app. apply NoDup_ListNoDup in Hd.
  split; [exact Hd|]. split; [|apply NoDup_singleton].
  intros x Hx Hx'. apply list_elem_of_singleton in Hx' as ->.
  apply (dict_lookup_present _ _ Hk). now apply list_elem_of_In.
Qed.

(** [BaseTask.format_data] on a dictionary: an entry is looked up as
    before if its value is kept, and is not found otherwise. *)
Lemma dict_lookup_base_format d k :
  List.NoDup (List.map fst d) ->
  dict_lookup (base_format_data d) k
  = match dict_lookup d k with
    | Some v => if kept_value v then Some v else None
    | None => None
    end.
Proof.
  unfold base_format_data.
  induction d as [|[k' v'] d IH]; cbn; [reflexivity|]. intros Hd.
  inversion Hd as [|? ? Hnot Hd']; subst.
  fold (kept_value v').
  destruct (String.eqb k' k) eqn:Hk.
  - destruct (kept_value v'); cbn; [now rewrite Hk|].
    apply String.eqb_eq in Hk as ->. rewrite (IH Hd').
    now rewrite (dict_lookup_absent _ _ Hnot).
  - destruct (kept_value v'); cbn; [rewrite Hk|]; apply (IH Hd').
Qed.

Lemma base_format_kept d : forallb (fun kv => kept_value (snd kv)) (base_format_data d) = true.
Proof.
  unfold base_format_data. induction d as [|[k v] d IH]; [reflexivity|]. cbn.
  fold (kept_value v). destruct (kept_value v) eqn:Hv; cbn; [now rewrite Hv|exact IH].
Qed.

Lemma base_format_id d :
  forallb (fun kv => kept_value (snd kv)) d = true -> base_format_data d = d.
Proof.
  unfold base_format_data. induction d as [|[k v] d IH]; [reflexivity|]. cbn.
  fold (kept_value v). intros [Hv Hd]%andb_true_iff. rewrite Hv. now rewrite IH.
Qed.

Lemma dict_set_kept d k v :
  kept_value v = true ->
  forallb (fun kv => kept_value (snd kv)) d = true ->
  forallb (fun kv => kept_value (snd kv)) (dict_set d k v) = true.
Proof.
  intros Hv. induction d as [|[k' v'] d IH]; cbn; [now rewrite Hv|].
  intros [Hv' Hd]%andb_true_iff.
  destruct (String.eqb k' k); cbn; [now rewrite Hv|]. now rewrite Hv', IH.
Qed.

(** A priority among the three is one of the three texts. *)
Lemma priority_is_text p :
  TodoTask.no_priority p = false ->
  p = VStr "高" \/ p = VStr "中" \/ p = VStr "低".
Proof.
  unfold TodoTask.no_priority, GeminiClient.py_in. cbn.
  destruct p as [| | | |t| |]; cbn; try discriminate.
  intros H. apply negb_false_iff in H.
  repeat (apply orb_true_iff in H as [H|H]);
    try discriminate; apply String.eqb_eq in H; subst; auto.
Qed.

Lemma priority_kept p : TodoTask.no_priority p = false -> kept_value p = true.
Proof. intros [->|[->| ->]]%priority_is_text; reflexivity. Qed.

Lemma truthy_kept v : truthy v = true -> kept_value v = true.
Proof.
  destruct v as [|b|z|q|t|l|d]; cbn; intros H; try reflexivity; try discriminate.
  unfold kept_value. cbn. now rewrite H.
Qed.

(** ** The to-do handler: creating a record *)

Section CreateProperties.
Context (E : Env).

Lemma string_neq (a b : string) : String.eqb a b = false -> a <> b.
Proof. apply String.eqb_neq. Qed.

(** What [format_data] guarantees of its result. *)
Lemma todo_format_data_result data :
  exists p c,
    dict_lookup (TodoTask.format_data data) "priority" = Some p
    /\ TodoTask.no_priority p = false
    /\ dict_lookup (TodoTask.format_data data) "category" = Some c
    /\ truthy c = true
    /\ forallb (fun kv => kept_value (snd kv)) (TodoTask.format_data data) = true.
Proof.
  unfold TodoTask.format_data.
  pose proof (base_format_kept data) as Hkept0.
  set (formatted := base_format_data data) in *.
  set (formatted1 :=
         match dict_lookup formatted "priority" with
         | Some priority =>
             if TodoTask.no_priority priority
             then dict_set formatted "priority" (VStr "中") else formatted
         | None => dict_set formatted "priority" (VStr "中")
         end).
  assert (H1 : exists p, dict_lookup formatted1 "priority" = Some p
                         /\ TodoTask.no_priority p = false
                         /\ forallb (fun kv => kept_value (snd kv)) formatted1 = true).
  { unfold formatted1. destruct (dict_lookup formatted "priority") as [p|] eqn:Hp.
    - destruct (TodoTask.no_priority p) eqn:Hvalid.
      + exists (VStr "中"). rewrite dict_lookup_set_eq.
        split; [reflexivity|]. split; [reflexivity|]. now apply dict_set_kept.
      + exists p. auto.
    - exists (VStr "中"). rewrite dict_lookup_set_eq.
      split; [reflexivity|]. split; [reflexivity|]. now apply dict_set_kept. }
  destruct H1 as (p & Hp & Hvalid & Hkept1).
  exists p.
  destruct (dict_lookup formatted1 "category") as [c|] eqn:Hc.
  - destruct (truthy c) eqn:Htruthy.
    + exists c. auto.
    + exists (VStr "其他"). rewrite dict_lookup_set_eq.
      rewrite dict_lookup_set_ne by (apply string_neq; reflexivity).
      repeat split; auto. now apply dict_set_kept.
  - exists (VStr "其他"). rewrite dict_lookup_set_eq.
    rewrite dict_lookup_set_ne by (apply string_neq; reflexivity).
    repeat split; auto. now apply dict_set_kept.
Qed.

(** X12.  [TodoTask.format_data] gives a dictionary whose priority is one
    of the three, whose category is set, and none of whose values is [None]
    or the empty text; formatting it again changes nothing. *)
Theorem todo_format_data_is_complete_and_idempotent data :
  TodoTask.no_priority (dict_get (TodoTask.format_data data) "priority") = false
  /\ truthy (dict_get (TodoTask.format_data data) "category") = true
  /\ forallb (fun kv => kept_value (snd kv)) (TodoTask.format_data data) = true
  /\ TodoTask.format_data (TodoTask.format_data data) = TodoTask.format_data data.
Proof.
  destruct (todo_format_data_result data) as (p & c & Hp & Hvalid & Hc & Htruthy & Hkept).
  unfold dict_get. rewrite Hp, Hc. cbn [default].
  repeat split; auto.
  unfold TodoTask.format_data at 1.
  rewrite (base_format_id _ Hkept), Hp, Hvalid, Hc, Htruthy. reflexivity.
Qed.

End CreateProperties.

Section SafeExecuteProperties.
Context (E : Env).

(** The dictionary as [validate_data] leaves it. *)
Lemma todo_validate_data_result data s :
  TodoTask.validate_data E data s
  = (Ok (creatable E data,
         if truthy (dict_get data "title") then
           if TodoTask.no_priority (dict_get_or data "priority" (VStr "中"))
           then dict_set data "priority" (VStr "中") else data
         else data), s).
Proof.
  unfold TodoTask.validate_data, creatable, due_date_reads.
  destruct (truthy (dict_get data "title")); [|reflexivity]. cbn [negb andb].
  assert (Hdue :
            dict_get (if TodoTask.no_priority (dict_get_or data "priority" (VStr "中"))
                      then dict_set data "priority" (VStr "中") else data) "due_date"
            = dict_get data "due_date").
  { destruct (TodoTask.no_priority _); [|reflexivity].
    apply dict_get_set_ne. apply String.eqb_neq. reflexivity. }
  rewrite Hdue.
  destruct (dict_get data "due_date") as [| | | |d| |]; try reflexivity.
  cbn [truthy]. destruct (String.eqb d ""); [reflexivity|]. cbn [negb orb].
  now destruct (parse_date E d).
Qed.

Lemma todo_format_other_keys data k :
  k <> "priority" -> k <> "category" ->
  dict_lookup (TodoTask.format_data data) k = dict_lookup (base_format_data data) k.
Proof.
  intros Hp Hc. unfold TodoTask.format_data.
  set (formatted := base_format_data data).
  set (formatted1 :=
         match dict_lookup formatted "priority" with
         | Some priority =>
             if TodoTask.no_priority priority
             then dict_set formatted "priority" (VStr "中") else formatted
         | None => dict_set formatted "priority" (VStr "中")
         end).
  assert (H1 : dict_lookup formatted1 k = dict_lookup formatted k).
  { unfold formatted1. destruct (dict_lookup formatted "priority") as [p|].
    - destruct (TodoTask.no_priority p); [|reflexivity].
      apply dict_lookup_set_ne. congruence.
    - apply dict_lookup_set_ne. congruence. }
  destruct (dict_lookup formatted1 "category") as [c|].
  - destruct (truthy c); [exact H1|].
    rewrite dict_lookup_set_ne by congruence. exact H1.
  - rewrite dict_lookup_set_ne by congruence. exact H1.
Qed.

Lemma todo_formatted_lookup data k :
  List.NoDup (List.map fst data) ->
  k <> "priority" -> k <> "category" ->
  dict_get (TodoTask.format_data data) k
  = if kept_value (dict_get data k) then dict_get data k else VNone.
Proof.
  intros Hnodup Hp Hc. unfold dict_get.
  rewrite todo_format_other_keys, dict_lookup_base_format by assumption.
  destruct (dict_lookup data k) as [v|]; [|reflexivity]. cbn.
  now destruct (kept_value v).
Qed.

Lemma todo_format_keeps_priority data q :
  List.NoDup (List.map fst data) ->
  dict_lookup data "priority" = Some q ->
  TodoTask.no_priority q = false ->
  dict_lookup (TodoTask.format_data data) "priority" = Some q.
Proof.
  intros Hnodup Hq Hvalid. unfold TodoTask.format_data.
  assert (Hbase : dict_lookup (base_format_data data) "priority" = Some q).
  { rewrite dict_lookup_base_format, Hq by assumption.
    now rewrite (priority_kept _ Hvalid). }
  rewrite Hbase, Hvalid.
  destruct (dict_lookup (base_format_data data) "category") as [c|].
  - destruct (truthy c); [exact Hbase|].
    rewrite dict_lookup_set_ne by discriminate. exact Hbase.
  - rewrite dict_lookup_set_ne by discriminate. exact Hbase.
Qed.

Lemma todo_format_sets_priority data :
  List.NoDup (List.map fst data) ->
  dict_lookup data "priority" = None ->
  dict_lookup (TodoTask.format_data data) "priority" = Some (VStr "中").
Proof.
  intros Hnodup Hq. unfold TodoTask.format_data.
  assert (Hbase : dict_lookup (base_format_data data) "priority" = None).
  { now rewrite dict_lookup_base_format, Hq by assumption. }
  rewrite Hbase.
  set (formatted1 := dict_set (base_format_data data) "priority" (VStr "中")).
  assert (H1 : dict_lookup formatted1 "priority" = Some (VStr "中"))
    by apply dict_lookup_set_eq.
  destruct (dict_lookup formatted1 "category") as [c|].
  - destruct (truthy c); [exact H1|].
    rewrite dict_lookup_set_ne by discriminate. exact H1.
  - rewrite dict_lookup_set_ne by discriminate. exact H1.
Qed.

(** [execute] on a dictionary whose due date can be read: one page is
    asked of the store, and the result tells whether it was made. *)
Lemma todo_execute_creates data s :
  due_date_reads E data = true ->
  exists r,
    TodoTask.execute E data s
    = (Ok r,
       {| tick := S (tick s);
          trace := EvCreatePage "todos" (todo_properties E data)
                     (store_create E (tick s) "todos" (todo_properties E data))
                   :: trace s;
          task_history := task_history s;
          conversation_contexts := conversation_contexts s |})
    /\ success r
       = match store_create E (tick s) "todos" (todo_properties E data) with
         | Some (String _ _) => true
         | _ => false
         end.
Proof.
  unfold due_date_reads, TodoTask.execute, todo_properties, try_except,
    NotionClient.add_todo, NotionClient.create_page, external, mbind, M_bind,
    mret, M_ret, raise.
  intros Hreads.
  destruct (dict_get data "due_date") as [| | | |d| |];
    cbn [truthy app];
    try (destruct (store_create E (tick s) "todos" _) as [[|a rest]|];
         eexists; split; reflexivity).
  destruct (String.eqb d ""); cbn [negb orb] in *.
  - destruct (store_create E (tick s) "todos" _) as [[|a rest]|];
      eexists; split; reflexivity.
  - destruct (parse_date E d) as [iso|]; [|discriminate].
    destruct (store_create E (tick s) "todos" _) as [[|a rest]|];
      eexists; split; reflexivity.
Qed.

(** What [safe_execute] of the to-do handler does. *)
Lemma todo_safe_execute_result data s :
  List.NoDup (List.map fst data) ->
  exists r data' s',
    safe_execute (TodoTask.handler E) data s = (Ok (r, data'), s')
    /\ if creatable E data then
         exists props,
           trace s' = EvCreatePage "todos" props
                        (store_create E (tick s) "todos" props) :: trace s
           /\ dict_get props "标题" = dict_get data "title"
           /\ TodoTask.no_priority (dict_get props "优先级") = false
           /\ dict_get props "优先级"
              = (if TodoTask.no_priority (dict_get data "priority")
                 then VStr "中" else dict_get data "priority")
           /\ dict_get props "状态" = VStr "待完成"
           /\ truthy (dict_get props "分类") = true
           /\ dict_lookup props "截止日期"
              = match dict_get data "due_date" with
                | VStr d =>
                    if String.eqb d "" then None else VStr <$> parse_date E d
                | _ => None
                end
           /\ success r
              = match store_create E (tick s) "todos" props with
                | Some (String _ _) => true
                | _ => false
                end
       else
         r = failed "任务数据验证失败" "请检查输入数据的格式和完整性" /\ s' = s.
Proof.
  intros Hnodup.
  unfold safe_execute. cbn [BaseTask.validate_data BaseTask.format_data
                            BaseTask.execute TodoTask.handler].
  rewrite todo_validate_data_result.
  destruct (creatable E data) eqn:Hvalid; [|eauto 6].
  apply andb_true_iff in Hvalid as [Htitle Hreads]. rewrite Htitle.
  set (data' := if TodoTask.no_priority (dict_get_or data "priority" (VStr "中"))
                then dict_set data "priority" (VStr "中") else data).
  assert (Hnodup' : List.NoDup (List.map fst data')).
  { unfold data'. destruct (TodoTask.no_priority _); [|exact Hnodup].
    now apply dict_set_nodup. }
  assert (Hother : forall k, k <> "priority" -> dict_get data' k = dict_get data k).
  { intros k Hk. unfold data'. destruct (TodoTask.no_priority _); [|reflexivity].
    apply dict_get_set_ne. congruence. }
  set (formatted := TodoTask.format_data data').
  assert (Hdue : dict_get formatted "due_date"
                 = if kept_value (dict_get data "due_date")
                   then dict_get data "due_date" else VNone).
  { unfold formatted. rewrite todo_formatted_lookup by (assumption || discriminate).
    now rewrite Hother by discriminate. }
  assert (Htitle' : dict_lookup formatted "title" = Some (dict_get data "title")).
  { unfold formatted.
    rewrite todo_format_other_keys, dict_lookup_base_format
      by (assumption || discriminate).
    pose proof (Hother "title" ltac:(discriminate)) as Ht. unfold dict_get in Ht.
    unfold dict_get in Htitle |- *.
    destruct (dict_lookup data "title") as [t|] eqn:Hold;
      simpl in Htitle, Ht |- *; [|discriminate].
    destruct (dict_lookup data' "title") as [t'|] eqn:Hnew; simpl in Ht |- *.
    - subst t'. now rewrite (truthy_kept _ Htitle).
    - subst t. discriminate. }
  assert (Hreads' : due_date_reads E formatted = true).
  { unfold due_date_reads in *. rewrite Hdue.
    destruct (dict_get data "due_date") as [| | | |d| |]; try reflexivity.
    unfold kept_value. cbn [py_eq negb andb num_of].
    destruct (String.eqb d "") eqn:Hd; cbn [negb]; [reflexivity|].
    rewrite Hd. exact Hreads. }
  destruct (todo_execute_creates formatted s Hreads') as (r & Hrun & Hsuccess).
  rewrite Hrun. eexists r, data', _. split; [reflexivity|].
  exists (todo_properties E formatted). cbn [trace].
  split; [reflexivity|].
  destruct (todo_format_data_result data')
    as (p & c & Hp & Hpvalid & Hc & Hctruthy & _).
  fold formatted in Hp, Hc.
  assert (Hprops : forall k,
            k <> "截止日期" ->
            dict_lookup (todo_properties E formatted) k
            = dict_lookup
                [("标题", dict_get data "title"); ("优先级", p);
                 ("状态", VStr "待完成"); ("分类", c);
                 ("描述", dict_get_or formatted "description" (VStr ""))] k).
  { intros k Hk. unfold todo_properties, dict_get_or.
    rewrite Htitle', Hp, Hc. cbn -[String.eqb].
    repeat (destruct (String.eqb _ k); [reflexivity|]).
    destruct (dict_get formatted "due_date") as [| | | |d| |]; try reflexivity.
    destruct (String.eqb d ""); [reflexivity|].
    destruct (parse_date E d); [|reflexivity]. cbn -[String.eqb].
    destruct (String.eqb_spec "截止日期" k); [congruence|reflexivity]. }
  assert (Hget : forall k,
            k <> "截止日期" ->
            dict_get (todo_properties E formatted) k
            = dict_get
                [("标题", dict_get data "title"); ("优先级", p);
                 ("状态", VStr "待完成"); ("分类", c);
                 ("描述", dict_get_or formatted "description" (VStr ""))] k).
  { intros k Hk. unfold dict_get at 1 3. now rewrite Hprops. }
  rewrite !Hget by discriminate.
  split; [reflexivity|]. split; [exact Hpvalid|]. split.
  { change (p = if TodoTask.no_priority (dict_get data "priority")
                then VStr "中" else dict_get data "priority").
    unfold formatted in Hp. unfold data', dict_get_or, dict_get in Hp |- *.
    destruct (dict_lookup data "priority") as [q|] eqn:Hq; simpl in Hp |- *.
    - destruct (TodoTask.no_priority q) eqn:Hgiven.
      + rewrite (todo_format_keeps_priority _ (VStr "中")) in Hp;
          [now injection Hp|now apply dict_set_nodup|apply dict_lookup_set_eq
          |reflexivity].
      + rewrite (todo_format_keeps_priority data q Hnodup Hq Hgiven) in Hp.
        now injection Hp.
    - change (TodoTask.no_priority (VStr "中")) with false in Hp.
      change (TodoTask.no_priority VNone) with true.
      rewrite (todo_format_sets_priority data Hnodup Hq) in Hp. now injection Hp. }
  split; [reflexivity|]. split; [exact Hctruthy|]. split; [|exact Hsuccess].
  unfold todo_properties. rewrite Hdue.
  destruct (dict_get data "due_date") as [| | | |d| |]; try reflexivity.
  unfold kept_value. cbn [py_eq num_of negb andb].
  destruct (String.eqb d "") eqn:Hd; [reflexivity|]. cbn [negb]. rewrite Hd.
  destruct (parse_date E d); reflexivity.
Qed.

(** X13.  [safe_execute] of the to-do handler, on a dictionary without
    repeated keys, sends a record to the store exactly when the title is
    truthy and the due date can be read.  The record then goes to the to-do
    database with that title, a priority among the three, which is the one
    given if that was one of them and the middle one otherwise, the status
    of a task to be done, a category, and the due date if one was given;
    the result is a success
    exactly when the store returns a page id.  Otherwise the result is the
    validation failure and nothing at all is asked of the store. *)
Theorem todo_is_created_iff_valid data s :
  List.NoDup (List.map fst data) ->
  exists r data' s',
    safe_execute (TodoTask.handler E) data s = (Ok (r, data'), s')
    /\ if creatable E data then
         exists props,
           trace s' = EvCreatePage "todos" props
                        (store_create E (tick s) "todos" props) :: trace s
           /\ dict_get props "标题" = dict_get data "title"
           /\ TodoTask.no_priority (dict_get props "优先级") = false
           /\ dict_get props "优先级"
              = (if TodoTask.no_priority (dict_get data "priority")
                 then VStr "中" else dict_get data "priority")
           /\ dict_get props "状态" = VStr "待完成"
           /\ truthy (dict_get props "分类") = true
           /\ dict_lookup props "截止日期"
              = match dict_get data "due_date" with
                | VStr d =>
                    if String.eqb d "" then None else VStr <$> parse_date E d
                | _ => None
                end
           /\ success r
              = match store_create E (tick s) "todos" props with
                | Some (String _ _) => true
                | _ => false
                end
       else
         r = failed "任务数据验证失败" "请检查输入数据的格式和完整性" /\ s' = s.
Proof. exact (todo_safe_execute_result data s). Qed.

End SafeExecuteProperties.

(** ** The island of a response *)

Lemma str_find_app_none c (p : string) rest :
  str_find c p = None ->
  str_find c (p ++ String c rest) = Some (String.length p).
Proof.
  induction p as [|a p IH]; intros Hnone.
  - change (str_find c (String c rest) = Some 0%nat).
    rewrite str_find_cons. now rewrite Ascii.eqb_refl.
  - apply str_find_cons_none in Hnone as [Ha Hp].
    change (String a p ++ String c rest) with (String a (p ++ String c rest)).
    rewrite str_find_cons, Ha, (IH Hp). reflexivity.
Qed.

Lemma str_rfind_cons c a (s : string) :
  str_rfind c (String a s)
  = match str_rfind c s with
    | Some i => Some (S i)
    | None => if Ascii.eqb a c then Some 0%nat else None
    end.
Proof. reflexivity. Qed.

Lemma str_rfind_app_none c (p post : string) :
  str_rfind c post = None ->
  str_rfind c (p ++ String c post) = Some (String.length p).
Proof.
  intros Hnone. induction p as [|a p IH].
  - change (str_rfind c (String c post) = Some 0%nat).
    rewrite str_rfind_cons, Hnone. now rewrite Ascii.eqb_refl.
  - change (String a p ++ String c post) with (String a (p ++ String c post)).
    rewrite str_rfind_cons, IH. reflexivity.
Qed.

Lemma substring_skip (p t : string) n :
  String.substring (String.length p) n (p ++ t) = String.substring 0 n t.
Proof.
  induction p as [|a p IH]; [reflexivity|].
  rewrite append_cons. exact IH.
Qed.

Lemma substring_prefix (u post : string) :
  String.substring 0 (String.length u) (u ++ post) = u.
Proof.
  induction u as [|a u IH].
  - rewrite append_nil. now destruct post.
  - rewrite append_cons. simpl. f_equal. exact IH.
Qed.

Lemma string_length_app (a b : string) :
  String.length (a ++ b) = (String.length a + String.length b)%nat.
Proof.
  induction a as [|x a IH]; [reflexivity|].
  rewrite append_cons. simpl. now f_equal.
Qed.

Lemma string_app_assoc (a b c : string) : (a ++ b) ++ c = a ++ (b ++ c).
Proof.
  induction a as [|x a IH]; [reflexivity|].
  rewrite !append_cons. now f_equal.
Qed.

(** X14.  From a response that holds one object in braces, with text
    around it that has no opening brace before and no closing brace after,
    [json_island] cuts out exactly that object, braces included: the text
    the oracle puts around its JSON, a code fence for one, is dropped. *)
Theorem json_island_cuts_out_the_object (pre body post : string) :
  str_find "{" pre = None ->
  str_rfind "}" post = None ->
  GeminiClient.json_island (pre ++ "{" ++ body ++ "}" ++ post)
  = Some ("{" ++ body ++ "}").
Proof.
  intros Hpre Hpost. unfold GeminiClient.json_island.
  change (pre ++ "{" ++ body ++ "}" ++ post)
    with (pre ++ String "{" (body ++ String "}" post)).
  rewrite (str_find_app_none _ _ _ Hpre).
  replace (pre ++ String "{" (body ++ String "}" post))
    with ((pre ++ String "{" body) ++ String "}" post)
    by (now rewrite string_app_assoc).
  rewrite (str_rfind_app_none _ _ _ Hpost), string_length_app.
  cbn [String.length].
  destruct (String.length pre <? S (String.length pre + S (String.length body)))%nat
    eqn:Hlt; [|apply Nat.ltb_ge in Hlt; lia].
  f_equal. unfold str_slice.
  replace (S (String.length pre + S (String.length body)) - String.length pre)%nat
    with (String.length ("{" ++ body ++ "}")).
  2:{ change ("{" ++ body ++ "}") with (String "{" (body ++ "}")).
      cbn [String.length]. rewrite string_length_app. cbn. lia. }
  rewrite string_app_assoc.
  assert (Hobject : String "{" body ++ String "}" post = ("{" ++ body ++ "}") ++ post).
  { change ("{" ++ body ++ "}") with (String "{" (body ++ "}")).
    rewrite !append_cons, string_app_assoc. reflexivity. }
  rewrite Hobject, substring_skip. apply substring_prefix.
Qed.

(** ** The extraction of fields *)

Section ExtractionProperties.
Context (E : Env).

Lemma dict_get_truthy_lookup d k :
  truthy (dict_get d k) = true -> dict_lookup d k <> None.
Proof. unfold dict_get. now destruct (dict_lookup d k). Qed.

(** X15.  [extract_todo_data] cannot raise, and whatever the oracle answers
    the dictionary it returns has a priority among the three and a due
    date: the oracle's own if that is truthy, the date of the day
    otherwise.  When the call to the oracle fails the dictionary is the
    default one, a task named 未知任务 of middle priority due on the day. *)
Theorem extract_todo_data_is_usable message s :
  exists data s',
    GeminiClient.extract_todo_data E message s = (Ok data, s')
    /\ TodoTask.no_priority (dict_get data "priority") = false
    /\ (truthy (dict_get data "due_date") = true
        \/ dict_get data "due_date" = VStr (dt_date (clock E (tick s))))
    /\ dict_lookup data "due_date" <> None
    /\ (generate_content E (S (tick s)) (PromptExtractTodo (clock E (tick s)) message)
        = None ->
        data = [("title", VStr "未知任务"); ("priority", VStr "中");
                ("category", VStr "其他"); ("description", VStr "");
                ("due_date", VStr (dt_date (clock E (tick s))))]).
Proof.
  set (today := dt_date (clock E (tick s))).
  set (fallback := [("title", VStr "未知任务"); ("priority", VStr "中");
                    ("category", VStr "其他"); ("description", VStr "");
                    ("due_date", VStr today)]).
  assert (Hfallback :
    TodoTask.no_priority (dict_get fallback "priority") = false
    /\ (truthy (dict_get fallback "due_date") = true
        \/ dict_get fallback "due_date" = VStr today)
    /\ dict_lookup fallback "due_date" <> None).
  { split; [reflexivity|]. split; [now right|discriminate]. }
  unfold GeminiClient.extract_todo_data, GeminiClient.ask_json,
    GeminiClient.generate, GeminiClient.not_a_dict, try_except, now, external,
    mbind, M_bind, mret, M_ret, raise.
  cbn [tick trace task_history conversation_contexts]. fold today.
  destruct (generate_content E (S (tick s)) _) as [text|] eqn:Hanswer.
  2:{ eexists _, _. split; [reflexivity|]. fold fallback. tauto. }
  destruct (GeminiClient.json_island (py_strip E text)) as [json_str|].
  2:{ eexists _, _. split; [reflexivity|]. fold fallback.
      split; [apply Hfallback|]. split; [apply Hfallback|].
      split; [apply Hfallback|discriminate]. }
  destruct (json_loads E json_str) as [v|msg|e].
  2,3: (eexists _, _; split; [reflexivity|]; fold fallback;
        split; [apply Hfallback|]; split; [apply Hfallback|];
        split; [apply Hfallback|discriminate]).
  destruct v as [| | | | | |result];
    try (eexists _, _; split; [reflexivity|]; fold fallback;
         split; [apply Hfallback|]; split; [apply Hfallback|];
         split; [apply Hfallback|discriminate]).
  eexists _, _. split; [reflexivity|].
  set (result1 :=
         match dict_lookup result "title", dict_lookup result "task" with
         | None, Some task =>
             (GeminiClient.dict_remove result "task" ++ [("title", task)])%list
         | _, _ => result
         end).
  set (result2 :=
         if negb (truthy (dict_get result1 "due_date"))
         then dict_set result1 "due_date" (VStr today) else result1).
  assert (Hdue : truthy (dict_get result2 "due_date") = true
                 \/ dict_get result2 "due_date" = VStr today).
  { unfold result2. destruct (truthy (dict_get result1 "due_date")) eqn:Hd; cbn [negb].
    - now left.
    - right. apply dict_get_set_eq. }
  assert (Hdue' : dict_lookup result2 "due_date" <> None).
  { unfold result2. destruct (truthy (dict_get result1 "due_date")) eqn:Hd; cbn [negb].
    - now apply dict_get_truthy_lookup.
    - now rewrite dict_lookup_set_eq. }
  fold (TodoTask.no_priority (dict_get result2 "priority")).
  destruct (TodoTask.no_priority (dict_get result2 "priority")) eqn:Hp.
  - rewrite dict_get_set_eq. split; [reflexivity|].
    rewrite dict_get_set_ne, dict_lookup_set_ne by discriminate.
    split; [exact Hdue|]. split; [exact Hdue'|discriminate].
  - split; [exact Hp|]. split; [exact Hdue|]. split; [exact Hdue'|discriminate].
Qed.

(** X16.  The dictionary [extract_accounting_data] falls back on when the
    call to the oracle fails does not pass [AccountingTask.validate_data]:
    its amount is zero.  So a message taken for a book entry while the
    oracle cannot be reached for the extraction is refused, and not booked
    under a made-up title. *)
Theorem accounting_defaults_are_refused message s :
  generate_content E (tick s) (PromptExtractAccounting message) = None ->
  exists data s1,
    GeminiClient.extract_accounting_data E message s = (Ok data, s1)
    /\ dict_get data "title" = VStr "未知支出"
    /\ dict_get data "amount" = VFloat 0
    /\ AccountingTask.validate_data E data s1 = (Ok (false, data), s1).
Proof.
  intros Hfail.
  unfold GeminiClient.extract_accounting_data, GeminiClient.ask_json,
    GeminiClient.generate, try_except, now, external, mbind, M_bind, mret, M_ret,
    raise.
  rewrite Hfail. cbn [tick trace task_history conversation_contexts].
  eexists _, _. split; [reflexivity|]. repeat split.
Qed.

End ExtractionProperties.

(** ** What an update by name sends *)

Section UpdateValueProperties.
Context (E : Env).

Lemma trace_not_extended (tr : list event) ev : tr <> ev :: tr.
Proof.
  intros H. apply (f_equal (@length event)) in H. cbn in H. lia.
Qed.

(** The properties [write_update] hands to [update_page], when it does. *)
Lemma write_update_properties task_name best new_status new_priority new_date s
    page_id properties ok :
  trace (snd (TodoTask.write_update E task_name best new_status new_priority
                new_date s))
  = EvUpdatePage page_id properties ok :: trace s ->
  properties <> []
  /\ properties
     = ((if truthy new_status
         then [("状态", VDict [("select", VDict [("name", new_status)])])] else [])
        ++ (if truthy new_priority
            then [("优先级", VDict [("select", VDict [("name", new_priority)])])]
            else [])
        ++ match new_date with
           | VStr d =>
               if truthy new_date && (str_len d =? 10)%nat && strptime_ymd E d
               then [("截止日期", VDict [("date", VDict [("start", new_date)])])]
               else []
           | _ => []
           end)%list.
Proof.
  unfold TodoTask.write_update.
  destruct (truthy (dict_get best "id")); cbn [negb].
  2:{ cbn. intros H. now apply trace_not_extended in H. }
  cbv zeta.
  set (update_data :=
         ((if truthy new_status
           then [("状态", VDict [("select", VDict [("name", new_status)])])] else [])
          ++ (if truthy new_priority
              then [("优先级", VDict [("select", VDict [("name", new_priority)])])]
              else [])
          ++ match new_date with
             | VStr d =>
                 if truthy new_date && (str_len d =? 10)%nat && strptime_ymd E d
                 then [("截止日期", VDict [("date", VDict [("start", new_date)])])]
                 else []
             | _ => []
             end)%list).
  destruct update_data as [|entry rest] eqn:Hdata.
  { cbn. intros H. now apply trace_not_extended in H. }
  unfold NotionClient.update_page, external, mbind, M_bind, mret, M_ret.
  destruct (store_update E (tick s) _ _); cbn [snd trace];
    intros H; injection H as _ <- _; (split; [discriminate|reflexivity]).
Qed.

(** X17.  Every value that an update by name hands to [update_page] is a
    dictionary that already wraps the new value in the form of the store's
    interface.  [_format_property_value], through which [update_page] puts
    each value, wraps it once more: as the value of a select property it
    becomes an option whose name is the text of the whole dictionary, not
    the status or priority asked for, and as the value of a date property
    it becomes no date at all. *)
Theorem update_by_name_values_are_wrapped_twice task_name best
    new_status new_priority new_date s page_id properties ok :
  trace (snd (TodoTask.write_update E task_name best new_status new_priority
                new_date s))
  = EvUpdatePage page_id properties ok :: trace s ->
  properties <> []
  /\ forall property value,
       In (property, value) properties ->
       (value = VDict [("select", VDict [("name", new_status)])]
        \/ value = VDict [("select", VDict [("name", new_priority)])]
        \/ value = VDict [("date", VDict [("start", new_date)])])
       /\ NotionClient._format_property_value E "select" value
          = Ok (VDict [("select", VDict [("name", VStr (repr_other E value))])])
       /\ NotionClient._format_property_value E "date" value
          = Ok (VDict [("date", VNone)]).
Proof.
  intros Htrace.
  destruct (write_update_properties _ _ _ _ _ _ _ _ _ Htrace) as [Hsome Hprops].
  split; [exact Hsome|].
  intros property value Hin. rewrite Hprops in Hin.
  assert (Hshape :
    value = VDict [("select", VDict [("name", new_status)])]
    \/ value = VDict [("select", VDict [("name", new_priority)])]
    \/ value = VDict [("date", VDict [("start", new_date)])]).
  { apply in_app_or in Hin as [Hin|Hin].
    { destruct (truthy new_status); [|contradiction].
      destruct Hin as [Heq|[]]. injection Heq as _ <-. auto. }
    apply in_app_or in Hin as [Hin|Hin].
    { destruct (truthy new_priority); [|contradiction].
      destruct Hin as [Heq|[]]. injection Heq as _ <-. auto. }
    destruct new_date as [| | | |d| |]; try contradiction.
    destruct (truthy (VStr d) && (str_len d =? 10)%nat && strptime_ymd E d);
      [|contradiction].
    destruct Hin as [Heq|[]]. injection Heq as _ <-. auto. }
  split; [exact Hshape|].
  destruct Hshape as [->|[->| ->]]; split; reflexivity.
Qed.

(** X18.  When an update by name asks for a new status and for a due date
    that is not a date of ten characters the runtime can read, the date is
    left out of what is written, and yet the result, a success if the store
    takes the write, lists the due date among its updates. *)
Theorem unwritten_due_date_is_reported task_name best new_status new_priority
    (d : string) s :
  truthy (dict_get best "id") = true ->
  truthy new_status = true ->
  d <> "" ->
  (str_len d =? 10)%nat && strptime_ymd E d = false ->
  (forall properties,
     store_update E (tick s) (py_str E (dict_get best "id")) properties = true) ->
  exists r s' properties updates,
    TodoTask.write_update E task_name best new_status new_priority (VStr d) s
    = (Ok r, s')
    /\ success r = true
    /\ trace s'
       = EvUpdatePage (py_str E (dict_get best "id")) properties true :: trace s
    /\ dict_lookup properties "截止日期" = None
    /\ dict_get (data r) "updates" = VList updates
    /\ In (VStr ("截止日期: " ++ d)) updates.
Proof.
  intros Hid Hstatus Hd Hbad Hstore.
  assert (Htruthy : truthy (VStr d) = true).
  { cbn. apply negb_true_iff. now apply String.eqb_neq. }
  unfold TodoTask.write_update. rewrite Hid, Hstatus, Htruthy. cbn [negb andb].
  rewrite Hbad. cbn [app].
  unfold NotionClient.update_page, external, mbind, M_bind, mret, M_ret.
  rewrite Hstore.
  destruct (truthy new_priority); cbn [app];
    eexists _, _, _, _; (split; [reflexivity|]); cbn [success succeeded trace data];
    (split; [reflexivity|]); (split; [reflexivity|]);
    (split; [reflexivity|]); (split; [reflexivity|]); cbn; auto.
Qed.

End UpdateValueProperties.

(** ** The daily report *)

Lemma ascii_compare_refl a : Ascii.compare a a = Eq.
Proof. unfold Ascii.compare. apply N.compare_refl. Qed.

Lemma string_compare_app_not_lt (a b : string) : String.compare (a ++ b) a <> Lt.
Proof.
  induction a as [|x a IH].
  - rewrite append_nil. destruct b; discriminate.
  - rewrite append_cons. cbn [String.compare]. now rewrite ascii_compare_refl.
Qed.

Lemma string_ltb_app (a b : string) : String.ltb (a ++ b) a = false.
Proof.
  unfold String.ltb. pose proof (string_compare_app_not_lt a b).
  now destruct (String.compare (a ++ b) a).
Qed.

Lemma string_eqb_app (a b : string) : b <> "" -> String.eqb (a ++ b) a = false.
Proof.
  intros Hb. apply String.eqb_neq. intros Heq. apply Hb. clear Hb.
  induction a as [|x a IH].
  - now rewrite append_nil in Heq.
  - rewrite append_cons in Heq. injection Heq. exact IH.
Qed.

Section ReportProperties.
Context (E : Env).

(** X19.  When every due date is a text or is not set, the daily report
    lists as of today exactly the to-dos that are neither done nor
    cancelled and whose due date is not set or is the text of today's date,
    and as overdue exactly the open ones whose due date is a text smaller
    than today's date, each list in the order of the store: a to-do that is
    done or cancelled, or whose due date is a later text, is in neither. *)
Theorem daily_report_lists_open_todos today_date all_todos :
  forallb due_is_text_or_unset all_todos = true ->
  TaskScheduler.split_todos today_date all_todos
  = Ok (List.filter (listed_today today_date) all_todos,
        List.filter (listed_overdue today_date) all_todos).
Proof.
  induction all_todos as [|todo rest IH]; [reflexivity|].
  intros [Hdue Hrest]%andb_true_iff. specialize (IH Hrest).
  cbn [TaskScheduler.split_todos List.filter].
  unfold listed_today, listed_overdue, is_open, due_is_text_or_unset in *.
  rewrite IH. cbn [mbind Res_bind].
  destruct (GeminiClient.py_in (dict_get_or todo "状态" (VStr "")) _);
    cbn [negb andb]; [reflexivity|].
  set (due := dict_get_or todo "截止日期" (VStr "")) in *.
  destruct (truthy due) eqn:Htruthy; cbn [negb orb andb]; [|reflexivity].
  destruct due as [|b|z|q|d|l|dd]; try (rewrite Htruthy in Hdue; discriminate).
  cbn [py_eq py_lt]. destruct (String.eqb d today_date); cbn [negb orb andb];
    [reflexivity|].
  now destruct (String.ltb d today_date).
Qed.

(** X20.  A to-do whose due date is today's date followed by a time of
    day is listed by the daily report neither as of today nor as overdue:
    the report compares the texts, and this one is not today's date and
    does not sort before it. *)
Theorem timed_due_date_of_today_is_left_out today_date (time : string) todo rest :
  time <> "" ->
  dict_get_or todo "截止日期" (VStr "") = VStr (today_date ++ time) ->
  TaskScheduler.split_todos today_date (todo :: rest)
  = TaskScheduler.split_todos today_date rest
  /\ listed_today today_date todo = false
  /\ listed_overdue today_date todo = false.
Proof.
  intros Htime Hdue.
  assert (Hne : String.eqb (today_date ++ time) today_date = false)
    by now apply string_eqb_app.
  assert (Htruthy : truthy (VStr (today_date ++ time)) = true).
  { cbn. apply negb_true_iff, String.eqb_neq. intros Hnil.
    destruct today_date; [now rewrite append_nil in Hnil|].
    now rewrite append_cons in Hnil. }
  split; [|split].
  - cbn [TaskScheduler.split_todos]. rewrite Hdue, Htruthy.
    cbn [negb py_eq py_lt mbind Res_bind]. rewrite Hne, string_ltb_app.
    destruct (GeminiClient.py_in _ _); [reflexivity|].
    now destruct (TaskScheduler.split_todos today_date rest) as [[t o]|e].
  - unfold listed_today. rewrite Hdue, Htruthy. cbn [py_eq negb orb]. rewrite Hne.
    apply andb_false_r.
  - unfold listed_overdue. rewrite Hdue, string_ltb_app. apply andb_false_r.
Qed.

(** X21.  [send_manual_daily_report] cannot raise and its report is never
    empty, whatever the oracle and the store answer or fail to answer: the
    report opens with the greeting line, or is the line that says the
    report could not be made. *)
Theorem manual_daily_report_is_never_empty platform user_id s :
  exists report s',
    TaskScheduler.send_manual_daily_report E platform user_id s = (Ok report, s')
    /\ report <> "".
Proof.
  destruct (try_except_total (TaskScheduler._generate_daily_report E user_id)
              (fun e => "生成报告失败: " ++ exn_msg e) s) as (report & s' & Hrun).
  exists report, s'. split; [exact Hrun|].
  revert Hrun. generalize s report s'. clear s report s'.
  change (replies_nonempty (TaskScheduler.send_manual_daily_report E platform user_id)).
  apply ne_try; [|intros e; apply ne_ret; discriminate].
  apply ne_try.
  - apply ne_bind. intros t. apply ne_bind. intros greeting.
    apply ne_bind. intros yesterday_financial. apply ne_bind. intros today_todos.
    apply ne_ret. apply str_join_starts. discriminate.
  - intros _. apply ne_bind. intros t. apply ne_ret. discriminate.
Qed.

End ReportProperties.

(** ** What the pipeline leaves alone *)

Lemma try_bind_ok {A B} (m : M A) (f : A -> M B) (h : exn -> M B) s a s1 :
  m s = (Ok a, s1) -> try_except (m ≫= f) h s = try_except (f a) h s1.
Proof. intros H. unfold try_except. now rewrite (bind_ok _ _ _ _ _ H). Qed.

Section PipelineFrame.
Context (E : Env) (classes : task_classes) (scheduler : bool).
Context (R : St -> St -> Prop) `{!Reflexive R} `{!Transitive R}.
Hypothesis Hexternal :
  forall A (answer : nat -> A) log, respects R (external answer log).
Hypothesis Hhistory : forall h, respects R (set_task_history h).
Hypothesis Hhandlers :
  forall t h, classes !! t = Some (Ok h) -> handler_respects R h.

Lemma generate_respects p : respects R (GeminiClient.generate E p).
Proof. unfold GeminiClient.generate. frame. Qed.

Lemma ask_json_respects p : respects R (GeminiClient.ask_json E p).
Proof.
  unfold GeminiClient.ask_json. apply respects_bind; [typeclasses eauto..| |].
  - apply generate_respects.
  - frame.
Qed.

Lemma chat_respects message ctx : respects R (GeminiClient.chat E message ctx).
Proof.
  unfold GeminiClient.chat. apply respects_try; [typeclasses eauto..| |frame].
  apply respects_bind; [typeclasses eauto..|apply generate_respects|frame].
Qed.

Lemma analyze_task_respects message : respects R (GeminiClient.analyze_task E message).
Proof.
  unfold GeminiClient.analyze_task, now.
  apply respects_try; [typeclasses eauto..| |frame].
  apply respects_bind; [typeclasses eauto..|frame|]. intros t.
  apply respects_bind; [typeclasses eauto..|apply generate_respects|frame].
Qed.

Lemma smart_reply_respects message result :
  respects R (GeminiClient.generate_smart_reply E message result).
Proof.
  unfold GeminiClient.generate_smart_reply.
  apply respects_try; [typeclasses eauto..| |frame].
  apply respects_bind; [typeclasses eauto..|apply generate_respects|frame].
Qed.

Lemma query_response_respects query_results query_type :
  respects R (GeminiClient.generate_query_response E query_results query_type).
Proof.
  unfold GeminiClient.generate_query_response.
  destruct query_results; [frame|].
  apply respects_bind; [typeclasses eauto..|frame|]. intros displayed.
  apply respects_try; [typeclasses eauto..| |frame].
  apply respects_bind; [typeclasses eauto..|apply generate_respects|frame].
Qed.

Lemma extract_accounting_respects message :
  respects R (GeminiClient.extract_accounting_data E message).
Proof.
  unfold GeminiClient.extract_accounting_data, GeminiClient.not_a_dict, now.
  apply respects_bind; [typeclasses eauto..| |frame].
  apply respects_try; [typeclasses eauto..| |frame].
  apply respects_bind; [typeclasses eauto..|apply ask_json_respects|frame].
Qed.

Lemma extract_subscription_respects message :
  respects R (GeminiClient.extract_subscription_data E message).
Proof.
  unfold GeminiClient.extract_subscription_data, GeminiClient.not_a_dict, now.
  apply respects_bind; [typeclasses eauto..| |frame].
  apply respects_try; [typeclasses eauto..| |frame].
  apply respects_bind; [typeclasses eauto..|apply ask_json_respects|frame].
Qed.

Lemma extract_todo_respects message :
  respects R (GeminiClient.extract_todo_data E message).
Proof.
  unfold GeminiClient.extract_todo_data, GeminiClient.not_a_dict, now.
  apply respects_bind; [typeclasses eauto..|frame|]. intros t.
  apply respects_bind; [typeclasses eauto..| |frame].
  apply respects_try; [typeclasses eauto..| |frame].
  apply respects_bind; [typeclasses eauto..|apply ask_json_respects|frame].
Qed.

(** A handler the registry builds is one of the registered ones. *)
Lemma created_task_respects task_type h :
  create_task classes task_type = Ok (Some h) -> handler_respects R h.
Proof.
  unfold create_task. destruct task_type as [| | | |t| |]; try discriminate.
  destruct (classes !! t) as [[h'|e]|] eqn:Hclass; try discriminate.
  cbn. intros H. injection H as <-. exact (Hhandlers _ _ Hclass).
Qed.

Lemma with_task_respects {A} task_type (f : option Handler -> M A) :
  respects R (f None) ->
  (forall h, handler_respects R h -> respects R (f (Some h))) ->
  respects R (lift (create_task classes task_type) ≫= f).
Proof.
  intros Hnone Hsome s. unfold lift, mbind, M_bind.
  destruct (create_task classes task_type) as [[h|]|e] eqn:Hcreate.
  - apply Hsome. exact (created_task_respects _ _ Hcreate).
  - apply Hnone.
  - cbn. reflexivity.
Qed.

Lemma execute_task_respects task_type task_data user_id :
  respects R (TaskDispatcher.execute_task E classes task_type task_data user_id).
Proof.
  unfold TaskDispatcher.execute_task.
  apply respects_try; [typeclasses eauto..| |frame].
  apply with_task_respects; [frame|]. intros h Hh.
  unfold TaskDispatcher._record_task_start, TaskDispatcher._record_task_result, now.
  apply respects_bind; [typeclasses eauto..|frame|]. intros id.
  apply respects_bind; [typeclasses eauto..| |frame].
  now apply safe_execute_respects.
Qed.

Lemma query_data_respects data_type filters :
  respects R (TaskDispatcher.query_data E classes data_type filters).
Proof.
  unfold TaskDispatcher.query_data.
  apply respects_try; [typeclasses eauto..| |frame].
  apply with_task_respects; [frame|]. intros h Hh. apply Hh.
Qed.

Lemma delete_all_data_respects data_type :
  respects R (TaskDispatcher.delete_all_data E classes data_type).
Proof.
  unfold TaskDispatcher.delete_all_data.
  apply respects_try; [typeclasses eauto..| |frame].
  apply with_task_respects; [frame|]. intros h Hh. apply Hh.
Qed.

Lemma update_task_status_respects data_type task_name new_status new_priority new_date :
  respects R (TaskDispatcher.update_task_status E classes data_type task_name
                new_status new_priority new_date).
Proof.
  unfold TaskDispatcher.update_task_status.
  apply respects_try; [typeclasses eauto..| |frame].
  apply with_task_respects; [frame|]. intros h Hh. apply Hh.
Qed.

Lemma handle_chat_respects message ctx :
  respects R (MessageProcessor._handle_chat E scheduler message ctx).
Proof.
  unfold MessageProcessor._handle_chat.
  apply respects_try; [typeclasses eauto..| |frame].
  repeat match goal with
         | |- respects R (if ?b then _ else _) => destruct b
         end; try apply chat_respects; frame.
Qed.

Lemma handle_task_respects task_type message analysis user_id :
  respects R (MessageProcessor._handle_task E classes task_type message analysis
                user_id).
Proof.
  unfold MessageProcessor._handle_task.
  apply respects_try; [typeclasses eauto..| |frame].
  apply respects_bind; [typeclasses eauto..| |].
  - repeat match goal with
           | |- respects R (if ?b then _ else _) => destruct b
           end;
      first [ apply extract_accounting_respects | apply extract_subscription_respects
            | apply extract_todo_respects | frame ].
  - intros extracted.
    apply respects_bind; [typeclasses eauto..|apply execute_task_respects|].
    intros result. destruct (success result); [apply smart_reply_respects|frame].
Qed.

Lemma analyze_intent_respects p : respects R (MessageProcessor.analyze_intent E p).
Proof.
  unfold MessageProcessor.analyze_intent.
  apply respects_try; [typeclasses eauto..|apply ask_json_respects|frame].
Qed.

Lemma handle_query_respects message analysis user_id :
  respects R (MessageProcessor._handle_query E classes message analysis user_id).
Proof.
  unfold MessageProcessor._handle_query, MessageProcessor._analyze_query_intent, now.
  apply respects_try; [typeclasses eauto..| |frame].
  apply respects_bind; [typeclasses eauto..| |].
  { apply respects_bind; [typeclasses eauto..|frame|]. intros t.
    apply analyze_intent_respects. }
  intros analysed. apply respects_bind; [typeclasses eauto..|frame|].
  intros query_intent.
  apply respects_bind; [typeclasses eauto..|apply query_data_respects|].
  intros result. destruct (success result); [|frame].
  apply respects_bind; [typeclasses eauto..|frame|]. intros query_results.
  apply respects_bind; [typeclasses eauto..|frame|]. intros shown_type.
  apply query_response_respects.
Qed.

Lemma handle_delete_respects message analysis user_id :
  respects R (MessageProcessor._handle_delete E classes message analysis user_id).
Proof.
  unfold MessageProcessor._handle_delete, MessageProcessor._analyze_delete_intent.
  apply respects_try; [typeclasses eauto..| |frame].
  apply respects_bind; [typeclasses eauto..|apply analyze_intent_respects|].
  intros analysed. destruct (MessageProcessor.no_intent analysed); [frame|].
  apply respects_bind; [typeclasses eauto..|frame|]. intros delete_intent.
  apply respects_bind; [typeclasses eauto..|apply delete_all_data_respects|].
  frame.
Qed.

Lemma handle_update_respects message analysis user_id :
  respects R (MessageProcessor._handle_update E classes message analysis user_id).
Proof.
  unfold MessageProcessor._handle_update, MessageProcessor._analyze_update_intent, now.
  apply respects_try; [typeclasses eauto..| |frame].
  apply respects_bind; [typeclasses eauto..| |].
  { apply respects_bind; [typeclasses eauto..|frame|]. intros t.
    apply analyze_intent_respects. }
  intros analysed. destruct (MessageProcessor.no_intent analysed); [frame|].
  apply respects_bind; [typeclasses eauto..|frame|]. intros update_intent.
  cbv zeta. destruct (negb (truthy _)); [frame|].
  apply respects_bind; [typeclasses eauto..|apply update_task_status_respects|].
  frame.
Qed.

Lemma route_respects task_type confidence message ctx analysis user_id :
  respects R (MessageProcessor.route E classes scheduler task_type confidence
                message ctx analysis user_id).
Proof.
  unfold MessageProcessor.route.
  apply respects_bind; [typeclasses eauto..| |].
  { destruct (py_eq task_type (VStr "chat")); frame. }
  intros low.
  repeat match goal with
         | |- respects R (if ?b then _ else _) => destruct b
         end;
    first [ apply handle_chat_respects | apply handle_task_respects
          | apply handle_query_respects | apply handle_delete_respects
          | apply handle_update_respects ].
Qed.

End PipelineFrame.

(** ** The pipeline and the conversation contexts *)

Section MessageIsRecorded.
Context (E : Env) (classes : task_classes) (scheduler : bool).

(** X22.  Whatever becomes of a message, [process_message] records it:
    when no handler of the registry touches the conversation contexts, as
    the to-do handler does not, the user's context holds the message as
    its newest entry once the call has returned, with at most ten entries
    in all, also when the handling failed and the reply is the apology;
    the contexts of the other users are as they were. *)
Theorem processed_message_is_recorded message user_id platform s :
  (forall t h, classes !! t = Some (Ok h) -> handler_respects same_contexts h) ->
  exists reply s' c,
    MessageProcessor.process_message E classes scheduler message user_id platform s
    = (Ok reply, s')
    /\ conversation_contexts s' !! user_id = Some c
    /\ cm_message <$> last (messages c) = Some message
    /\ (length (messages c) <= 10)%nat
    /\ forall other,
         other <> user_id ->
         conversation_contexts s' !! other = conversation_contexts s !! other.
Proof.
  intros Hhandlers.
  destruct (try_except_total
              (t ← now E;
               response ← GeminiClient.generate E (PromptTaskRecognition t message);
               let response_text := py_strip E response in
               match GeminiClient.json_island response_text with
               | Some json_str =>
                   match json_loads E json_str with
                   | Loaded (VDict result) => mret result
                   | Loaded v =>
                       raise (PyExn AttributeError
                                ("'" ++ type_name v
                                 ++ "' object has no attribute 'get'"))
                   | DecodeError _ =>
                       mret (GeminiClient.unparsed_analysis response_text)
                   | LoadsRaises e => raise e
                   end
               | None => mret (GeminiClient.unparsed_analysis response_text)
               end)
              (fun _ => GeminiClient.failed_analysis) s)
    as (analysis & s1 & Hanalysis).
  change (GeminiClient.analyze_task E message s = (Ok analysis, s1)) in Hanalysis.
  pose proof (analyze_task_respects E same_contexts
                (@external_same_contexts) message s) as Hsame1.
  rewrite Hanalysis in Hsame1. cbn [snd] in Hsame1. unfold same_contexts in Hsame1.
  destruct (update_context_result E user_id message analysis s1)
    as (s2 & stamp & updated & Hupdate & _ & Hctx2).
  set (continue :=
         MessageProcessor.route E classes scheduler
           (dict_get_or analysis "task_type" (VStr "chat"))
           (dict_get_or analysis "confidence" (VFloat 0)) message
           (context <$> conversation_contexts s !! user_id) analysis user_id).
  assert (Hrun :
    MessageProcessor.process_message E classes scheduler message user_id platform s
    = try_except continue (fun _ => mret MessageProcessor.processing_apology) s2).
  { unfold MessageProcessor.process_message,
      MessageProcessor._get_conversation_context.
    erewrite try_bind_ok; [|unfold get_state; step; reflexivity].
    erewrite try_bind_ok; [|exact Hanalysis].
    erewrite try_bind_ok; [|exact Hupdate]. reflexivity. }
  destruct (try_except_total continue
              (fun _ => MessageProcessor.processing_apology) s2)
    as (reply & s3 & Hreply).
  assert (Hsame3 : conversation_contexts s3 = conversation_contexts s2).
  { assert (Hframe : respects same_contexts
                       (try_except continue
                          (fun _ => mret MessageProcessor.processing_apology))).
    { apply respects_try; [typeclasses eauto..| |frame].
      apply (route_respects E classes scheduler same_contexts
               (@external_same_contexts) set_task_history_same_contexts Hhandlers). }
    specialize (Hframe s2). now rewrite Hreply in Hframe. }
  eexists reply, s3, _. split; [now rewrite Hrun|].
  rewrite Hsame3, Hctx2. split; [apply lookup_insert_eq|]. cbn [messages].
  split; [now rewrite last_n_snoc|]. split; [rewrite last_n_length; lia|].
  intros other Hother. rewrite lookup_insert_ne by congruence.
  now rewrite Hsame1.
Qed.

Lemma py_lt_not_a_number a q :
  num_of a = None -> exists e, py_lt a (VFloat q) = Raise e.
Proof. destruct a; cbn; try discriminate; eauto. Qed.

(** X23.  When the analysis names a task type other than chat and its
    confidence is not a number, a text for one, [process_message] answers
    with the apology: the comparison of the confidence raises.  The message
    has been recorded in the user's context all the same, and no handler
    has run. *)
Theorem unreadable_confidence_is_an_error message user_id platform s analysis s1 :
  GeminiClient.analyze_task E message s = (Ok analysis, s1) ->
  py_eq (dict_get_or analysis "task_type" (VStr "chat")) (VStr "chat") = false ->
  num_of (dict_get_or analysis "confidence" (VFloat 0)) = None ->
  MessageProcessor.process_message E classes scheduler message user_id platform s
  = (Ok MessageProcessor.processing_apology,
     snd (MessageProcessor._update_conversation_context E user_id message
            analysis s1)).
Proof.
  intros Hanalysis Htype Hconfidence.
  destruct (update_context_result E user_id message analysis s1)
    as (s2 & stamp & updated & Hupdate & _). rewrite Hupdate. cbn [snd].
  destruct (py_lt_not_a_number _ f_0_6 Hconfidence) as (e & Hraise).
  unfold MessageProcessor.process_message, MessageProcessor._get_conversation_context.
  erewrite try_bind_ok; [|unfold get_state; step; reflexivity].
  erewrite try_bind_ok; [|exact Hanalysis].
  erewrite try_bind_ok; [|exact Hupdate].
  erewrite try_except_raise; [reflexivity|].
  unfold MessageProcessor.route. rewrite Htype.
  erewrite bind_raise; [reflexivity|]. unfold lift. now rewrite Hraise.
Qed.

End MessageIsRecorded.

(** ** Requests on the to-do collection *)

Section TodoRequests.
Context (E : Env) (classes : task_classes).
Hypothesis Htodo : classes !! "todo" = Some (Ok (TodoTask.handler E)).

Lemma create_todo_task : create_task classes (VStr "todo") = Ok (Some (TodoTask.handler E)).
Proof. unfold create_task. now rewrite Htodo. Qed.

(** [delete_all] of the to-do handler always reports a success, and asks
    the store to archive each record that has an id. *)
Lemma delete_all_succeeds s :
  exists r s',
    TodoTask.delete_all E s = (Ok r, s')
    /\ success r = true
    /\ deletes (trace s')
       = (deletes (trace s) + length (List.filter has_id (todos_seen E s)))%nat.
Proof.
  destruct (todos_seen E s) as [|todo rest] eqn:Hseen.
  - eexists _, _. split.
    + unfold TodoTask.delete_all. apply try_except_ok.
      rewrite (bind_ok _ _ _ _ _ (query_todos E s)). rewrite Hseen. reflexivity.
    + split; [reflexivity|]. rewrite trace_after_query. cbn. unfold deletes. cbn. lia.
  - assert (Hne : todos_seen E s <> []) by (rewrite Hseen; discriminate).
    destruct (delete_all_nonempty E s Hne) as (d & f & s' & Hrun & Hall).
    destruct (delete_each_counts E (todos_seen E s) 0 0 (after_query E s))
      as (d0 & f0 & s0 & Hrun0 & _ & _ & _ & Hdeletes).
    rewrite Hrun in Hrun0. injection Hrun0 as <- <- <-.
    eexists _, s'. split; [exact Hall|]. split; [now destruct (f =? 0)%nat|].
    rewrite Hdeletes, trace_after_query, <- Hseen. unfold deletes. cbn. lia.
Qed.

(** X24.  A request to delete that is understood as one on the to-dos
    clears the whole collection, whatever target or conditions the
    analysis of the request names: every record that has an id is sent to
    be archived, and the reply says that all to-dos were cleared, also when
    archive calls failed. *)
Theorem delete_request_clears_every_todo message analysis user_id s intent s1 :
  MessageProcessor._analyze_delete_intent E message s
  = (Ok (Some (VDict intent)), s1) ->
  intent <> [] ->
  dict_get_or intent "type" (VStr "todo") = VStr "todo" ->
  exists s',
    MessageProcessor._handle_delete E classes message analysis user_id s
    = (Ok "已成功清除所有待办事项！", s')
    /\ deletes (trace s')
       = (deletes (trace s1) + length (List.filter has_id (todos_seen E s1)))%nat.
Proof.
  intros Hintent Hsome Htype.
  destruct (delete_all_succeeds s1) as (r & s' & Hrun & Hsuccess & Hdeletes).
  exists s'. split; [|exact Hdeletes].
  unfold MessageProcessor._handle_delete. apply try_except_ok.
  rewrite (bind_ok _ _ _ _ _ Hintent).
  assert (Hunderstood : MessageProcessor.no_intent (Some (VDict intent)) = false).
  { cbn. destruct intent; [congruence|reflexivity]. }
  rewrite Hunderstood. cbn [default MessageProcessor.intent_dict].
  unfold lift at 1. rewrite (bind_ok _ _ s1 intent s1) by reflexivity.
  rewrite Htype.
  assert (Hdispatch :
    TaskDispatcher.delete_all_data E classes (VStr "todo") s1 = (Ok r, s')).
  { unfold TaskDispatcher.delete_all_data. apply try_except_ok.
    unfold lift. rewrite (bind_ok _ _ s1 (Some (TodoTask.handler E)) s1).
    - exact Hrun.
    - now rewrite create_todo_task. }
  rewrite (bind_ok _ _ _ _ _ Hdispatch). rewrite Hsuccess. reflexivity.
Qed.

(** The query for the to-dos that are still to be done. *)
Lemma todo_query_open s :
  exists r s',
    TodoTask.query E (VDict [("status", VStr "待完成")]) s = (Ok r, s')
    /\ In (EvQuery "todos" (Some (FSelect "状态" "equals" (VStr "待完成")))
             (Some [("截止日期", "ascending")]) (VInt 20)
             (length (store_query E (tick s) "todos"
                        (Some (FSelect "状态" "equals" (VStr "待完成")))
                        (Some [("截止日期", "ascending")]) (VInt 20))))
          (trace s').
Proof.
  unfold TodoTask.query, try_except, NotionClient.query_database, external, lift,
    mbind, M_bind, mret, M_ret. cbn.
  destruct (store_query E (tick s) "todos" _ _ _) as [|x rest];
    eexists _, _; (split; [reflexivity|]); cbn; auto.
Qed.

(** X25.  When the analysis of a query gives nothing, because the oracle
    failed or its answer held no JSON, [_handle_query] asks the store for
    the to-dos whose status is that of a task to be done, at most twenty,
    by due date: the default is a filtered query, not the whole
    collection.  It cannot raise. *)
Theorem unanalysed_query_lists_open_todos message analysis user_id s analysed s1 :
  MessageProcessor._analyze_query_intent E message s = (Ok analysed, s1) ->
  MessageProcessor.no_intent analysed = true ->
  exists reply s',
    MessageProcessor._handle_query E classes message analysis user_id s
    = (Ok reply, s')
    /\ In (EvQuery "todos" (Some (FSelect "状态" "equals" (VStr "待完成")))
             (Some [("截止日期", "ascending")]) (VInt 20)
             (length (store_query E (tick s1) "todos"
                        (Some (FSelect "状态" "equals" (VStr "待完成")))
                        (Some [("截止日期", "ascending")]) (VInt 20))))
          (trace s').
Proof.
  intros Hanalysis Hnone.
  destruct (todo_query_open s1) as (r & s2 & Hquery & Hlogged).
  set (ev := EvQuery _ _ _ _ _) in *.
  set (continue :=
         if success r then
           query_results ← lift (MessageProcessor.records_of (data r));
           shown_type ← lift (MessageProcessor._get_task_name (VStr "todo"));
           GeminiClient.generate_query_response E query_results shown_type
         else mret ("查询失败：" ++ BaseTask.message r)).
  assert (Hrun :
    MessageProcessor._handle_query E classes message analysis user_id s
    = try_except continue (fun _ => mret "查询过程中出现了问题，请稍后再试。") s2).
  { unfold MessageProcessor._handle_query.
    erewrite try_bind_ok; [|exact Hanalysis]. rewrite Hnone.
    erewrite try_bind_ok; [|reflexivity].
    cbn [dict_get dict_get_or dict_lookup String.eqb Ascii.eqb Bool.eqb default
         from_option id py_eq truthy andb negb].
    erewrite try_bind_ok; [reflexivity|].
    unfold TaskDispatcher.query_data. apply try_except_ok.
    unfold lift. rewrite (bind_ok _ _ s1 (Some (TodoTask.handler E)) s1).
    - exact Hquery.
    - now rewrite create_todo_task. }
  destruct (try_except_total continue
              (fun _ => "查询过程中出现了问题，请稍后再试。") s2)
    as (reply & s3 & Hreply).
  exists reply, s3. split; [now rewrite Hrun|].
  assert (Hframe : respects trace_grows
                     (try_except continue
                        (fun _ => mret "查询过程中出现了问题，请稍后再试。"))).
  { apply respects_try; [typeclasses eauto..| |frame].
    unfold continue. destruct (success r); [|frame].
    apply respects_bind; [typeclasses eauto..|frame|]. intros query_results.
    apply respects_bind; [typeclasses eauto..|frame|]. intros shown_type.
    apply (query_response_respects E trace_grows (@external_trace_grows)). }
  pose proof (logged_stays _ ev s2 Hframe Hlogged) as Hstays.
  now rewrite Hreply in Hstays.
Qed.

Lemma record_task_result_ok execution_id result task_data s :
  exists s',
    TaskDispatcher._record_task_result E execution_id result task_data s = (Ok tt, s')
    /\ trace s' = trace s.
Proof.
  unfold TaskDispatcher._record_task_result, get_state, now, external,
    set_task_history, mbind, M_bind, mret, M_ret.
  destruct (task_history s !! execution_id); eexists; split; reflexivity.
Qed.

(** X26.  When the call to the oracle that should extract the fields of a
    to-do fails, [_handle_task] does not give up: it hands the default
    dictionary to the handler, and a to-do named 未知任务, of middle
    priority and due on the day, is sent to the store to be created. *)
Theorem unextracted_todo_is_created_as_unknown message analysis user_id s :
  generate_content E (S (tick s)) (PromptExtractTodo (clock E (tick s)) message)
  = None ->
  dt_date (clock E (tick s)) <> "" ->
  parse_date E (dt_date (clock E (tick s))) <> None ->
  exists reply s' props page_id,
    MessageProcessor._handle_task E classes (VStr "todo") message analysis user_id s
    = (Ok reply, s')
    /\ In (EvCreatePage "todos" props page_id) (trace s')
    /\ dict_get props "标题" = VStr "未知任务"
    /\ dict_get props "优先级" = VStr "中"
    /\ dict_lookup props "截止日期"
       = VStr <$> parse_date E (dt_date (clock E (tick s))).
Proof.
  intros Hfail Htoday Hdate.
  set (today := dt_date (clock E (tick s))) in *.
  set (fallback := [("title", VStr "未知任务"); ("priority", VStr "中");
                    ("category", VStr "其他"); ("description", VStr "");
                    ("due_date", VStr today)]).
  assert (Hextract : exists s1,
    GeminiClient.extract_todo_data E message s = (Ok fallback, s1)).
  { unfold GeminiClient.extract_todo_data, GeminiClient.ask_json,
      GeminiClient.generate, try_except, now, external, mbind, M_bind, mret,
      M_ret, raise.
    cbn [tick trace task_history conversation_contexts]. rewrite Hfail.
    eexists. reflexivity. }
  destruct Hextract as (s1 & Hextract).
  destruct (TaskDispatcher._record_task_start E (VStr "todo") fallback user_id s1)
    as [[id|e] s2] eqn:Hstart; [|discriminate].
  assert (Hcreatable : creatable E fallback = true).
  { unfold creatable, due_date_reads. cbn. fold today.
    destruct (parse_date E today); [apply orb_true_r|congruence]. }
  assert (Hnodup : List.NoDup (List.map fst fallback)).
  { cbn. repeat constructor; cbn; intuition discriminate. }
  destruct (todo_safe_execute_result E fallback s2 Hnodup)
    as (r & data' & s3 & Hrun & Hcreated).
  rewrite Hcreatable in Hcreated.
  destruct Hcreated as (props & Htrace & Htitle & _ & Hpriority & _ & _ & Hdue & _).
  destruct (record_task_result_ok id r data' s3) as (s4 & Hrecord & Htrace4).
  assert (Hexecute :
    TaskDispatcher.execute_task E classes (VStr "todo") fallback user_id s1
    = (Ok r, s4)).
  { unfold TaskDispatcher.execute_task. apply try_except_ok.
    unfold lift. rewrite (bind_ok _ _ s1 (Some (TodoTask.handler E)) s1)
      by now rewrite create_todo_task.
    rewrite (bind_ok _ _ _ _ _ Hstart).
    rewrite (bind_ok _ _ s2 (r, data') s3 Hrun).
    rewrite (bind_ok _ _ _ _ _ Hrecord). reflexivity. }
  set (ev := EvCreatePage "todos" props
               (store_create E (tick s2) "todos" props)) in *.
  assert (Hlogged : In ev (trace s4)).
  { rewrite Htrace4, Htrace. now left. }
  set (continue :=
         if success r then
           GeminiClient.generate_smart_reply E message (to_dict r)
         else
           mret ("抱歉，" ++ BaseTask.message r ++ "。错误信息：" ++
                 match error r with
                 | Some e => if String.eqb e "" then "任务执行失败" else e
                 | None => "任务执行失败"
                 end)).
  set (recover := fun _ : exn =>
         task_name ← lift (MessageProcessor._get_task_name (VStr "todo"));
         mret ("处理您的" ++ py_str E task_name ++ "请求时出现了问题，请稍后再试。")).
  assert (Hrun' :
    MessageProcessor._handle_task E classes (VStr "todo") message analysis user_id s
    = try_except continue recover s4).
  { unfold MessageProcessor._handle_task.
    cbn [py_eq String.eqb Ascii.eqb Bool.eqb].
    erewrite try_bind_ok; [|exact Hextract].
    erewrite try_bind_ok; [|exact Hexecute]. reflexivity. }
  assert (Htotal : exists reply s', try_except continue recover s4 = (Ok reply, s')).
  { unfold try_except. destruct (continue s4) as [[reply|e] s5]; [eauto|].
    unfold recover. cbn. eauto. }
  destruct Htotal as (reply & s5 & Hreply).
  exists reply, s5, props, (store_create E (tick s2) "todos" props).
  split; [now rewrite Hrun'|].
  split.
  { assert (Hframe : respects trace_grows (try_except continue recover)).
    { apply respects_try; [typeclasses eauto..| |unfold recover; frame].
      unfold continue. destruct (success r); [|frame].
      apply (smart_reply_respects E trace_grows (@external_trace_grows)). }
    pose proof (logged_stays _ ev s4 Hframe Hlogged) as Hstays.
    now rewrite Hreply in Hstays. }
  split; [exact Htitle|]. split; [exact Hpriority|].
  rewrite Hdue. cbn. fold today.
  apply String.eqb_neq in Htoday. now rewrite Htoday.
Qed.

End TodoRequests.

(** ** The registry and the morning push *)

(** X27.  Once [_register_tasks] has run, the three types of the processor
    are built from the classes it registered, whatever the registry held
    for them before, and every other type is resolved as before. *)
Theorem registered_types_are_built_from_their_classes classes
    (AccountingTask SubscriptionTask TodoTask : Res Handler) :
  create_task
    (MessageProcessor._register_tasks classes AccountingTask SubscriptionTask TodoTask)
    (VStr "accounting")
  = (h ← AccountingTask; Ok (Some h))
  /\ create_task
       (MessageProcessor._register_tasks classes AccountingTask SubscriptionTask
          TodoTask)
       (VStr "subscription")
     = (h ← SubscriptionTask; Ok (Some h))
  /\ create_task
       (MessageProcessor._register_tasks classes AccountingTask SubscriptionTask
          TodoTask)
       (VStr "todo")
     = (h ← TodoTask; Ok (Some h))
  /\ forall task_type : string,
       task_type <> "accounting" -> task_type <> "subscription" ->
       task_type <> "todo" ->
       create_task
         (MessageProcessor._register_tasks classes AccountingTask SubscriptionTask
            TodoTask)
         (VStr task_type)
       = create_task classes (VStr task_type).
Proof.
  unfold MessageProcessor._register_tasks, register_task, create_task.
  split; [|split; [|split]].
  - rewrite lookup_insert_ne, lookup_insert_ne, lookup_insert_eq by discriminate.
    reflexivity.
  - rewrite lookup_insert_ne, lookup_insert_eq by discriminate. reflexivity.
  - rewrite lookup_insert_eq. reflexivity.
  - intros t Ha Hs Ht. now rewrite !lookup_insert_ne by congruence.
Qed.

Section MorningPush.
Context (E : Env) (bots : gmap string TaskScheduler.Bot).

(** X28.  [_daily_morning_push] costs nothing for subscribers it cannot
    reach: when no subscriber is on a platform that has a bot, no report
    is made, nothing is asked of the oracle or the store, and the call
    returns with the state as it was; it does so too for a key without a
    colon, which it skips. *)
Theorem morning_push_skips_platforms_without_bot (subscribers : list string) s :
  Forall (fun key =>
            match TaskScheduler.split_colon key with
            | Some (platform, _) => bots !! platform = None
            | None => True
            end) subscribers ->
  TaskScheduler._daily_morning_push E bots subscribers s = (Ok tt, s).
Proof.
  intros Hnone. unfold TaskScheduler._daily_morning_push. apply try_except_ok.
  induction Hnone as [|key rest Hkey _ IH]; [reflexivity|].
  cbn [TaskScheduler.push_each].
  rewrite (bind_ok _ _ s tt s); [exact IH|].
  unfold TaskScheduler.push_to.
  destruct (TaskScheduler.split_colon key) as [[platform user_id]|]; [|reflexivity].
  unfold TaskScheduler._send_daily_report. now rewrite Hkey.
Qed.

End MorningPush.

(** ** The further properties at work *)

Lemma handler_memory_contexts h :
  handler_respects same_memory h -> handler_respects same_contexts h.
Proof.
  intros (Hv & He & Hq & Hd & Hu).
  refine (conj _ (conj _ (conj _ (conj _ _)))); intros;
    apply same_memory_contexts; auto.
Qed.

Lemma registry_respects_contexts E t h :
  Example.registry E !! t = Some (Ok h) -> handler_respects same_contexts h.
Proof.
  unfold Example.registry. intros [_ Hclass]%lookup_singleton_Some.
  unfold TodoTask.task_class, TodoTask.new, NotionClient.new in Hclass.
  destruct (notion_token E); [|discriminate]. cbn in Hclass.
  injection Hclass as <-. apply handler_memory_contexts, todo_handler_same_memory.
Qed.

Lemma context_update_is_per_user_witness :
  "u2" <> "u1"
  /\ exists s',
       MessageProcessor._update_conversation_context Example.offline_env "u1"
         "hello" [("task_type", VStr "chat")] initial_state = (Ok tt, s')
       /\ conversation_contexts s' !! "u2" = None.
Proof.
  split; [discriminate|].
  destruct (context_update_is_per_user Example.offline_env "u1" "u2" "hello"
              [("task_type", VStr "chat")] initial_state)
    as (s' & Hrun & Hother & _); [discriminate|].
  exists s'. split; [exact Hrun|]. rewrite Hother. reflexivity.
Defined.

Lemma subscriptions_are_per_user_witness :
  TaskScheduler.is_user_subscribed
    (TaskScheduler.add_daily_push_user ∅ "u1" "telegram") "u2" "telegram"
  = false.
Proof.
  destruct (subscriptions_are_per_user ∅ "u1" "telegram" "u2" "telegram")
    as [Hadd _]; [reflexivity|reflexivity|discriminate|].
  rewrite Hadd. reflexivity.
Defined.

Lemma test_daily_push_counts_every_subscriber_witness :
  exists s',
    TaskScheduler.test_daily_push Example.offline_env ∅
      [TaskScheduler.user_key "u1" "telegram"] initial_state
    = (Ok "✅ 测试完成！成功推送 1/1 个用户", s').
Proof.
  destruct (test_daily_push_counts_every_subscriber Example.offline_env ∅
              [TaskScheduler.user_key "u1" "telegram"] initial_state)
    as (s' & Hrun).
  - discriminate.
  - constructor; [|constructor]. exists "u1", "telegram". reflexivity.
  - exists s'. exact Hrun.
Defined.

Lemma unregistered_data_type_is_refused_witness :
  TaskDispatcher.delete_all_data Example.offline_env
    (Example.registry Example.offline_env) (VStr "weather") initial_state
  = (Ok (failed "未知的数据类型: weather" "不支持的删除类型"), initial_state).
Proof.
  destruct (unregistered_data_type_is_refused Example.offline_env
              (Example.registry Example.offline_env) "weather" VNone VNone VNone
              VNone VNone initial_state)
    as (_ & Hdelete & _); [vm_compute; reflexivity|].
  exact Hdelete.
Defined.

Lemma failing_constructor_is_reported_witness :
  TaskDispatcher.execute_task Example.tokenless_env
    (Example.registry Example.tokenless_env) (VStr "todo")
    [("title", VStr "Buy milk")] "u1" initial_state
  = (Ok (failed "Notion令牌未配置" "任务执行过程中出现了系统错误"), initial_state).
Proof.
  destruct (failing_constructor_is_reported Example.tokenless_env
              (Example.registry Example.tokenless_env) "todo"
              (PyExn ValueError "Notion令牌未配置")
              [("title", VStr "Buy milk")] "u1" VNone VNone VNone VNone VNone
              initial_state)
    as (Hexecute & _); [reflexivity|].
  exact Hexecute.
Defined.

Lemma execute_task_records_the_run_witness :
  exists result s' entry,
    TaskDispatcher.execute_task Example.offline_env
      (Example.registry Example.offline_env) (VStr "todo")
      [("title", VStr "Buy milk")] "u1" initial_state
    = (Ok result, s')
    /\ task_history s' !! "u1_todo_1704873600.0" = Some entry
    /\ status entry = "completed"
    /\ (c_success <$> completed entry) = Some (success result).
Proof.
  destruct (execute_task_records_the_run Example.offline_env
              (Example.registry Example.offline_env) "todo"
              (TodoTask.handler Example.offline_env)
              [("title", VStr "Buy milk")] "u1" initial_state)
    as (result & task_data' & s' & entry & done & Hrun & _ & Hhistory & _ & _ & _
        & _ & _ & Hstatus & Hdone & Hsuccess & _).
  - reflexivity.
  - apply todo_handler_same_memory.
  - exists result, s', entry. split; [exact Hrun|].
    split; [rewrite Hhistory; apply lookup_insert_eq|].
    split; [exact Hstatus|]. rewrite Hdone. cbn. now rewrite Hsuccess.
Defined.

Lemma history_is_readable id task :
  task_history (Example.with_history [Example.old_run; Example.recent_run]) !! id
  = Some task ->
  readable_start Example.read_iso task = true.
Proof.
  unfold Example.with_history. cbn [task_history List.map list_to_map foldr].
  intros [[_ <-]|[_ [[_ <-]|[_ H]]%lookup_insert_Some]]%lookup_insert_Some;
    [reflexivity|reflexivity|].
  now rewrite lookup_empty in H.
Qed.

Lemma cleanup_drops_exactly_the_old_entries_witness :
  exists s',
    TaskDispatcher.cleanup_old_history Example.offline_env Example.morning_timestamp
      Example.read_iso 30
      (Example.with_history [Example.old_run; Example.recent_run])
    = (Ok tt, s')
    /\ task_history s' !! "u1_todo_1" = None
    /\ task_history s' !! "u1_todo_2" = Some Example.recent_run.
Proof.
  destruct (cleanup_drops_exactly_the_old_entries Example.offline_env
              Example.morning_timestamp Example.read_iso 30
              (Example.with_history [Example.old_run; Example.recent_run])
              history_is_readable)
    as (s' & Hrun & _ & Hkept).
  exists s'. split; [exact Hrun|].
  split; rewrite Hkept; reflexivity.
Defined.

Lemma cleanup_is_all_or_nothing_witness :
  exists s',
    TaskDispatcher.cleanup_old_history Example.offline_env Example.morning_timestamp
      Example.read_iso 30
      (Example.with_history [Example.old_run; Example.unread_run])
    = (Ok tt, s')
    /\ task_history s' !! "u1_todo_1" = Some Example.old_run.
Proof.
  destruct (cleanup_is_all_or_nothing Example.offline_env Example.morning_timestamp
              Example.read_iso 30
              (Example.with_history [Example.old_run; Example.unread_run])
              "u1_todo_3" Example.unread_run)
    as (s' & Hrun & Hsame & _); [reflexivity|reflexivity|].
  exists s'. split; [exact Hrun|]. rewrite Hsame. reflexivity.
Defined.

Lemma todo_is_created_iff_valid_witness :
  exists r data' s' props,
    safe_execute (TodoTask.handler Example.offline_env)
      [("title", VStr "Write report"); ("priority", VStr "urgent");
       ("due_date", VStr "2024-01-12")] initial_state
    = (Ok (r, data'), s')
    /\ trace s' = [EvCreatePage "todos" props (Some "page-0")]
    /\ dict_get props "标题" = VStr "Write report"
    /\ dict_get props "优先级" = VStr "中"
    /\ dict_lookup props "截止日期" = Some (VStr "2024-01-12T00:00:00+00:00")
    /\ success r = true.
Proof.
  destruct (todo_is_created_iff_valid Example.offline_env
              [("title", VStr "Write report"); ("priority", VStr "urgent");
               ("due_date", VStr "2024-01-12")] initial_state)
    as (r & data' & s' & Hrun & Hcreated).
  { repeat constructor; cbn; intuition discriminate. }
  change (creatable Example.offline_env
            [("title", VStr "Write report"); ("priority", VStr "urgent");
             ("due_date", VStr "2024-01-12")]) with true in Hcreated.
  destruct Hcreated
    as (props & Htrace & Htitle & _ & Hpriority & _ & _ & Hdue & Hsuccess).
  exists r, data', s', props. split; [exact Hrun|]. split; [exact Htrace|].
  split; [exact Htitle|]. split; [exact Hpriority|].
  split; [exact Hdue|exact Hsuccess].
Defined.

Lemma json_island_cuts_out_the_object_witness :
  GeminiClient.json_island "Here it is: {'task_type': 'todo'} Anything else?"
  = Some "{'task_type': 'todo'}".
Proof.
  apply (json_island_cuts_out_the_object "Here it is: " "'task_type': 'todo'"
           " Anything else?"); reflexivity.
Defined.

Lemma accounting_defaults_are_refused_witness :
  exists data s1,
    GeminiClient.extract_accounting_data Example.offline_env "lunch 50" initial_state
    = (Ok data, s1)
    /\ AccountingTask.validate_data Example.offline_env data s1 = (Ok (false, data), s1).
Proof.
  destruct (accounting_defaults_are_refused Example.offline_env "lunch 50"
              initial_state)
    as (data & s1 & Hrun & _ & _ & Hrefused); [reflexivity|].
  exists data, s1. split; [exact Hrun|exact Hrefused].
Defined.

Lemma update_by_name_values_are_wrapped_twice_witness :
  NotionClient._format_property_value Example.ship_env "select"
    (VDict [("select", VDict [("name", VStr "已完成")])])
  = Ok (VDict [("select",
                VDict [("name",
                        VStr (Example.show
                                (VDict [("select",
                                         VDict [("name", VStr "已完成")])])))])])
  /\ NotionClient._format_property_value Example.ship_env "date"
       (VDict [("date", VDict [("start", VStr "2024-02-01")])])
     = Ok (VDict [("date", VNone)]).
Proof.
  destruct (update_by_name_values_are_wrapped_twice Example.ship_env (VStr "milk")
              Example.buy_milk (VStr "已完成") (VStr "") (VStr "2024-02-01")
              initial_state "p3"
              [("状态", VDict [("select", VDict [("name", VStr "已完成")])]);
               ("截止日期", VDict [("date", VDict [("start", VStr "2024-02-01")])])]
              true)
    as (_ & Hvalues); [reflexivity|].
  split.
  - apply (Hvalues "状态"). now left.
  - apply (Hvalues "截止日期"). right. now left.
Defined.

Lemma unwritten_due_date_is_reported_witness :
  exists r s',
    TodoTask.write_update Example.ship_env (VStr "milk") Example.buy_milk
      (VStr "已完成") (VStr "") (VStr "tomorrow") initial_state
    = (Ok r, s')
    /\ trace s'
       = [EvUpdatePage "p3"
            [("状态", VDict [("select", VDict [("name", VStr "已完成")])])] true]
    /\ message r = "已更新任务「Buy milk」: 状态: 已完成, 截止日期: tomorrow".
Proof.
  destruct (unwritten_due_date_is_reported Example.ship_env (VStr "milk")
              Example.buy_milk (VStr "已完成") (VStr "") "tomorrow" initial_state)
    as (r & s' & properties & updates & Hrun & _);
    [reflexivity|reflexivity|discriminate|reflexivity|reflexivity|].
  exists r, s'. split; [exact Hrun|].
  vm_compute in Hrun. injection Hrun as <- <-. split; reflexivity.
Defined.

Lemma daily_report_lists_open_todos_witness :
  TaskScheduler.split_todos "2024-01-10" Example.three_todos
  = Ok ([Example.ship_docs; Example.buy_milk], []).
Proof.
  rewrite (daily_report_lists_open_todos "2024-01-10" Example.three_todos);
    reflexivity.
Defined.

Lemma timed_due_date_of_today_is_left_out_witness :
  TaskScheduler.split_todos "2024-01-10" [Example.call_mum; Example.buy_milk]
  = Ok ([Example.buy_milk], []).
Proof.
  destruct (timed_due_date_of_today_is_left_out "2024-01-10"
              "T00:00:00.000+00:00" Example.call_mum [Example.buy_milk])
    as (Hsplit & _); [discriminate|reflexivity|].
  rewrite Hsplit. reflexivity.
Defined.

Lemma processed_message_is_recorded_witness :
  exists reply s' c,
    MessageProcessor.process_message Example.offline_env
      (Example.registry Example.offline_env) false "hello" "u1" "telegram"
      initial_state
    = (Ok reply, s')
    /\ conversation_contexts s' !! "u1" = Some c
    /\ cm_message <$> last (messages c) = Some "hello".
Proof.
  destruct (processed_message_is_recorded Example.offline_env
              (Example.registry Example.offline_env) false "hello" "u1" "telegram"
              initial_state (registry_respects_contexts Example.offline_env))
    as (reply & s' & c & Hrun & Hctx & Hlast & _).
  exists reply, s', c. auto.
Defined.

Lemma unreadable_confidence_is_an_error_witness :
  fst (MessageProcessor.process_message Example.vague_env
         (Example.registry Example.vague_env) false "remind me" "u1" "telegram"
         initial_state)
  = Ok "抱歉，我现在无法处理您的消息，请稍后再试。".
Proof.
  erewrite (unreadable_confidence_is_an_error Example.vague_env
              (Example.registry Example.vague_env) false "remind me" "u1"
              "telegram" initial_state);
    [reflexivity|vm_compute; reflexivity|reflexivity|reflexivity].
Defined.

Lemma delete_request_clears_every_todo_witness :
  exists s',
    MessageProcessor._handle_delete Example.eager_env
      (Example.registry Example.eager_env) "delete the milk todo" [] "u1"
      initial_state
    = (Ok "已成功清除所有待办事项！", s')
    /\ deletes (trace s') = 3%nat
    /\ failed_deletes (trace s') = 1%nat.
Proof.
  destruct (delete_request_clears_every_todo Example.eager_env
              (Example.registry Example.eager_env) eq_refl
              "delete the milk todo" [] "u1" initial_state
              [("type", VStr "todo"); ("target", VStr "specific");
               ("conditions", VDict [("title", VStr "milk")])]
              {| tick := 1;
                 trace := [EvGenerate (PromptDeleteIntent "delete the milk todo")
                             (Some Example.one_todo_answer)];
                 task_history := ∅; conversation_contexts := ∅ |})
    as (s' & Hrun & Hdeletes); [reflexivity|discriminate|reflexivity|].
  exists s'. split; [exact Hrun|]. split; [exact Hdeletes|].
  vm_compute in Hrun. injection Hrun as <-. reflexivity.
Defined.

Lemma unanalysed_query_lists_open_todos_witness :
  exists reply s',
    MessageProcessor._handle_query Example.offline_env
      (Example.registry Example.offline_env) "what is left" [] "u1" initial_state
    = (Ok reply, s')
    /\ In (EvQuery "todos" (Some (FSelect "状态" "equals" (VStr "待完成")))
             (Some [("截止日期", "ascending")]) (VInt 20) 0)
          (trace s').
Proof.
  destruct (unanalysed_query_lists_open_todos Example.offline_env
              (Example.registry Example.offline_env) eq_refl
              "what is left" [] "u1" initial_state None
              {| tick := 2;
                 trace := [EvGenerate
                             (PromptQueryIntent Example.a_morning "what is left")
                             None];
                 task_history := ∅; conversation_contexts := ∅ |})
    as (reply & s' & Hrun & Hin); [reflexivity|reflexivity|].
  exists reply, s'. split; [exact Hrun|exact Hin].
Defined.

Lemma unextracted_todo_is_created_as_unknown_witness :
  exists reply s' props page_id,
    MessageProcessor._handle_task Example.offline_env
      (Example.registry Example.offline_env) (VStr "todo") "remind me" [] "u1"
      initial_state
    = (Ok reply, s')
    /\ In (EvCreatePage "todos" props page_id) (trace s')
    /\ dict_get props "标题" = VStr "未知任务"
    /\ dict_lookup props "截止日期" = Some (VStr "2024-01-10T00:00:00+00:00").
Proof.
  destruct (unextracted_todo_is_created_as_unknown Example.offline_env
              (Example.registry Example.offline_env) eq_refl "remind me" [] "u1"
              initial_state)
    as (reply & s' & props & page_id & Hrun & Hin & Htitle & _ & Hdue);
    [reflexivity|discriminate|discriminate|].
  exists reply, s', props, page_id. auto.
Defined.

Lemma morning_push_skips_platforms_without_bot_witness :
  TaskScheduler._daily_morning_push Example.offline_env ∅
    [TaskScheduler.user_key "u1" "telegram"; "nobody"] initial_state
  = (Ok tt, initial_state).
Proof.
  apply (morning_push_skips_platforms_without_bot Example.offline_env ∅).
  repeat constructor.
Defined.
